(** * Osintnator: the query orchestration engine

    A shallow embedding of the orchestration core of Osintnator
    ([osintnator.py], [scrapers.py], [datasets.py]): canonical query
    hashing and the per-query cache, the dataset prefilter, the task
    scheduler with per-task timeout and fallback synthesis, the event
    stream sent to the interface and its consumer, the quick lookups of
    the dataset module, and the scrapers with their registry.

    Modelling conventions.
    - A Python [str] is a Rocq [string] holding the UTF-8 bytes of the
      text.  Operations that act per character ([lower], [isdigit],
      slicing) are written on bytes and are exact on ASCII text.
    - A Python [dict] that is only built and read in a fixed way is a
      record; a [dict] whose insertion order matters is an association
      list; the cache directory is a [gmap] from paths to file contents;
      the set of satisfied sites is a [gset].
    - Code that can raise returns a [result]; [try]/[except] is a handler
      on it.  Exceptions are those derived from [Exception], which is
      what every handler of the program names.
    - A call to a scraper ends after some time, by returning or by
      raising (the requests of the scrapers carry time-outs of their
      own); the time it took is compared with the budget of its task.
    - The interface queue, the calls to dataset providers and the
      submissions to the worker pool are logged, in order, in a trace.
    - The scrapers fetch pages through [_fetch] and [_head_or_get];
      these two, the environment, and the library calls on regular
      expressions and format strings are taken as given, and the fetches
      that a scraper makes are logged in order.
    - Of the window, the model keeps what [_process_ui_queue] reads and
      writes. *)

From Stdlib Require Import ZArith Ascii String List Bool Lia Permutation.
From stdpp Require Import base tactics option list gmap strings sorting pretty.

Local Open Scope Z_scope.

(** ** Python strings *)

Module Py.

(** [c.isdigit()] on ASCII. *)
Definition isdigit (c : ascii) : bool :=
  let n := nat_of_ascii c in (48 <=? n)%nat && (n <=? 57)%nat.

Definition lower_char (c : ascii) : ascii :=
  let n := nat_of_ascii c in
  if (65 <=? n)%nat && (n <=? 90)%nat then ascii_of_nat (n + 32) else c.

(** [s.lower()] *)
Fixpoint lower (s : string) : string :=
  match s with
  | EmptyString => EmptyString
  | String c s' => String (lower_char c) (lower s')
  end.

(** Whitespace removed by [s.strip()]: space, tab, newline, vertical
    tab, form feed, carriage return, and the separators 0x1c-0x1f. *)
Definition isspace (c : ascii) : bool :=
  let n := nat_of_ascii c in
  (n =? 32)%nat || ((9 <=? n)%nat && (n <=? 13)%nat)
  || ((28 <=? n)%nat && (n <=? 31)%nat).

Fixpoint lstrip (s : string) : string :=
  match s with
  | String c s' => if isspace c then lstrip s' else s
  | EmptyString => EmptyString
  end.

Definition rstrip (s : string) : string :=
  String.rev (lstrip (String.rev s)).

(** [s.strip()] *)
Definition strip (s : string) : string := rstrip (lstrip s).

(** Truth value of a string: [if s:] *)
Definition truthy (s : string) : bool :=
  match s with EmptyString => false | _ => true end.

(** [sep.join(parts)] *)
Definition join (sep : string) (parts : list string) : string :=
  String.concat sep parts.

(** [needle in hay] for strings. *)
Fixpoint str_in (needle hay : string) : bool :=
  String.prefix needle hay ||
  match hay with
  | EmptyString => false
  | String _ hay' => str_in needle hay'
  end.

(** [s.split(sep)[0]] for a non-empty [sep]: the text before the first
    occurrence of [sep], or all of [s] when there is none. *)
Fixpoint split_head (sep s : string) : string :=
  match s with
  | EmptyString => EmptyString
  | String c s' =>
      if String.prefix sep s then EmptyString
      else String c (split_head sep s')
  end.

(** [s[:n]] *)
Definition take (n : nat) (s : string) : string := String.substring 0 n s.

(** The double quote character. *)
Definition dquote : ascii := "034".

(** [f"\"{s}\""] *)
Definition quoted (s : string) : string :=
  String dquote s +:+ String dquote EmptyString.

(** [x in l] for a list of strings. *)
Definition mem (x : string) (l : list string) : bool :=
  bool_decide (x ∈ l).

End Py.

(** ** Catalog *)

Definition ENGINES : list (string * string) :=
  [ ("DuckDuckGo", "https://duckduckgo.com/?q=");
    ("Google",     "https://www.google.com/search?q=");
    ("Brave",      "https://search.brave.com/search?q=");
    ("Bing",       "https://www.bing.com/search?q=");
    ("Yandex",     "https://yandex.com/search/?text=");
    ("Baidu",      "https://www.baidu.com/s?wd=");
    ("ZoomEye",    "https://www.zoomeye.ai/search?q=");
    ("DogPile",    "https://www.dogpile.com/serp?q=") ].

Definition CATS : list (string * list string) :=
  [ ("People Search",
     [ "FastPeopleSearch"; "TruePeopleSearch"; "TruePeopleSearch.io";
       "FastBackgroundCheck"; "That’sThem"; "FamilyTreeNow"; "ZabaSearch";
       "Radaris"; "NeighborReport"; "Nuwber" ]);
    ("Reverse Phone / Address",
     [ "Whitepages (Free Search)"; "411.com"; "AnyWho"; "WhoCallsMe";
       "SpyDialer"; "CallerName"; "OKCaller"; "Sync.me"; "NumLookup";
       "ReversePhoneLookup" ]);
    ("Property Records & Accessor",
     [ "Zillow"; "Rehold"; "NeighborWho"; "HomeFacts";
       "Melissa Address Lookup"; "PropertyShark";
       "Netronline Public Records"; "PublicRecords360";
       "AddressSearch.com"; "HOMES.com" ]);
    ("Court/Criminal/Gov",
     [ "PACER (federal index)"; "VINELink"; "BOP Inmate Locator";
       "State/County Court Directory"; "InmateAid";
       "State Prison Inmate Locators"; "Offender Search"; "Arrests.org";
       "Mugshots.com"; "BustedMugshots" ]);
    ("Specialized / Extra",
     [ "PeekYou"; "Pipl (preview)"; "Social Searcher"; "Username Search";
       "instant username search"; "IDcrawl"; "Username Pack (direct)";
       "Hunter.io"; "EmailHippo"; "HaveIBeenPwned"; "BlackBookOnline";
       "DataAxle Reference"; "USPhoneBook" ]);
    ("Worldwide",
     [ "SearchSystems"; "GestolenObjectenRegister"; "RDW-OVI";
       "PeopleSearch AU"; "QKenteken"; "KVK Zoeken"; "Sportradar"; "Weibo";
       "HKU DataHub"; "OpenStreetMap" ]) ].

(** [SITE_DOMAIN]: the value is [None] where the source maps the site to
    Python's [None]. *)
Definition SITE_DOMAIN : list (string * option string) :=
  [ ("FastPeopleSearch", Some "fastpeoplesearch.com");
    ("TruePeopleSearch", Some "truepeoplesearch.com");
    ("TruePeopleSearch.io", Some "truepeoplesearch.io");
    ("FastBackgroundCheck", Some "fastbackgroundcheck.com");
    ("That’sThem", Some "thatsthem.com");
    ("FamilyTreeNow", Some "familytreenow.com");
    ("ZabaSearch", Some "zabasearch.com");
    ("Radaris", Some "radaris.com");
    ("NeighborReport", None);
    ("Nuwber", Some "nuwber.com");
    ("Whitepages (Free Search)", Some "whitepages.com");
    ("411.com", Some "411.com");
    ("AnyWho", Some "anywho.com");
    ("WhoCallsMe", Some "whocallsme.com");
    ("SpyDialer", Some "spydialer.com");
    ("CallerName", None);
    ("OKCaller", Some "okcaller.com");
    ("Sync.me", Some "sync.me");
    ("NumLookup", Some "numlookup.com");
    ("ReversePhoneLookup", Some "reversephonelookup.com");
    ("Zillow", Some "zillow.com");
    ("Rehold", Some "rehold.com");
    ("NeighborWho", Some "neighborwho.com");
    ("HomeFacts", Some "homefacts.com");
    ("Melissa Address Lookup", Some "melissa.com");
    ("PropertyShark", Some "propertyshark.com");
    ("Netronline Public Records", Some "netronline.com");
    ("PublicRecords360", Some "publicrecords360.com");
    ("AddressSearch.com", Some "addresssearch.com");
    ("HOMES.com", Some "homes.com");
    ("PACER (federal index)", Some "pacer.uscourts.gov");
    ("VINELink", Some "vinelink.vineapps.com");
    ("BOP Inmate Locator", Some "bop.gov");
    ("State/County Court Directory", None);
    ("InmateAid", Some "inmateaid.com");
    ("State Prison Inmate Locators", None);
    ("Offender Search", Some "nsopw.gov");
    ("Arrests.org", Some "arrests.org");
    ("Mugshots.com", Some "mugshots.com");
    ("BustedMugshots", Some "bustedmugshots.com");
    ("PeekYou", Some "peekyou.com");
    ("Pipl (preview)", Some "pipl.com");
    ("Social Searcher", Some "social-searcher.com");
    ("Username Search", Some "usersearch.org");
    ("instant username search", Some "instantusername.com");
    ("IDcrawl", Some "idcrawl.com/username-search");
    ("Username Pack (direct)", None);
    ("Hunter.io", Some "hunter.io");
    ("EmailHippo", Some "emailhippo.com");
    ("HaveIBeenPwned", Some "haveibeenpwned.com");
    ("BlackBookOnline", Some "blackbookonline.info");
    ("DataAxle Reference", Some "referenceusa.com");
    ("USPhoneBook", Some "usphonebook.com");
    ("SearchSystems", Some "searchsystems.net");
    ("GestolenObjectenRegister", Some "gestolenobjectenregister.nl");
    ("RDW-OVI", Some "ovi.rdw.nl");
    ("PeopleSearch AU", Some "peoplesearch.com.au");
    ("QKenteken", Some "qenteken.nl");
    ("KVK Zoeken", Some "kvk.nl");
    ("Sportradar", Some "sportradar.com");
    ("Weibo", Some "weibo.com");
    ("HKU DataHub", Some "datahub.hku.hk");
    ("OpenStreetMap", Some "openstreetmap.org") ].

Definition SITE_URL : list (string * string) :=
  [ ("SearchSystems", "https://publicrecords.searchsystems.net/");
    ("GestolenObjectenRegister", "https://gestolenobjectenregister.nl/");
    ("RDW-OVI", "https://ovi.rdw.nl/");
    ("PeopleSearch AU", "https://peoplesearch.com.au/");
    ("QKenteken", "https://www.qenteken.nl/");
    ("KVK Zoeken", "https://www.kvk.nl/zoeken/");
    ("Sportradar", "https://sportradar.com/");
    ("Weibo", "https://s.weibo.com/");
    ("HKU DataHub", "https://datahub.hku.hk/");
    ("OpenStreetMap", "https://www.openstreetmap.org/") ].

Definition PRIORITY_SITES : list string :=
  [ "Username Pack (direct)"; "FamilyTreeNow"; "WhoCallsMe"; "HaveIBeenPwned" ].

(** [d.get(k)] on a literal table. *)
Fixpoint dict_get {V} (k : string) (d : list (string * V)) : option V :=
  match d with
  | [] => None
  | (k', v) :: d' => if String.eqb k k' then Some v else dict_get k d'
  end.

(** [CATS.get(name, [])] *)
Definition cat_sites (name : string) : list string :=
  default [] (dict_get name CATS).

(** ** Dispatch order ([_background_run], the three lines that build
    [ordered_sites]) *)

Definition prioritized (sites : list string) : list string :=
  filter (λ s, s ∈ sites) PRIORITY_SITES.

Definition remaining (sites : list string) : list string :=
  filter (λ s, s ∉ prioritized sites) sites.

Definition ordered_sites (sites : list string) : list string :=
  prioritized sites ++ remaining sites.

(** ** JSON documents and [json.dumps]

    The values that the program serialises: the query mapping, the hit
    records and their [raw] metadata (strings, integers, booleans, [None],
    lists and string-keyed dictionaries in insertion order). *)

#[warnings="-register-all"]
Inductive json : Type :=
  | JNull
  | JBool (b : bool)
  | JInt (z : Z)
  | JStr (s : string)
  | JList (l : list json)
  | JDict (d : list (string * json)).

Module Json.

Definition hex_digit (n : Z) : ascii :=
  ascii_of_nat (Z.to_nat (if n <? 10 then 48 + n else 87 + n)).

(** ['\\u{0:04x}'.format(n)] *)
Definition u_escape (n : Z) : string :=
  String "\" (String "u"
    (String (hex_digit (n / 4096 mod 16))
    (String (hex_digit (n / 256 mod 16))
    (String (hex_digit (n / 16 mod 16))
    (String (hex_digit (n mod 16)) EmptyString))))).

Definition code (c : ascii) : Z := Z.of_nat (nat_of_ascii c).

(** The short escapes of [ESCAPE_DCT]; control characters without a
    short escape are written [\u00XX]. *)
Definition escape_low (c : ascii) : option string :=
  let n := code c in
  if n =? 34 then Some (String "\" (String Py.dquote EmptyString))
  else if n =? 92 then Some (String "\" (String "\" EmptyString))
  else if n =? 8 then Some (String "\" (String "b" EmptyString))
  else if n =? 12 then Some (String "\" (String "f" EmptyString))
  else if n =? 10 then Some (String "\" (String "n" EmptyString))
  else if n =? 13 then Some (String "\" (String "r" EmptyString))
  else if n =? 9 then Some (String "\" (String "t" EmptyString))
  else if n <? 32 then Some (u_escape n)
  else None.

(** [ensure_ascii=False]: only quotes, backslashes and control
    characters are escaped; every other byte is copied. *)
Fixpoint escape_plain (s : string) : string :=
  match s with
  | EmptyString => EmptyString
  | String c s' =>
      match escape_low c with
      | Some e => e +:+ escape_plain s'
      | None => String c (escape_plain s')
      end
  end.

(** A code point above 0xFFFF is written as a surrogate pair. *)
Definition u_escape_cp (n : Z) : string :=
  if n <? 65536 then u_escape n
  else let v := n - 65536 in
       u_escape (55296 + Z.land (Z.shiftr v 10) 1023)
       +:+ u_escape (56320 + Z.land v 1023).

Definition cont (c : ascii) : Z := Z.land (code c) 63.

(** [ensure_ascii=True]: in addition every character outside
    [' '..'~'] is written as a [\uXXXX] escape of its code point, read
    off the UTF-8 bytes.  A byte that does not start a well-formed
    sequence (which a Python [str] never holds) is escaped by itself. *)
Fixpoint escape_ascii (s : string) : string :=
  match s with
  | EmptyString => EmptyString
  | String c s' =>
      let n := code c in
      match escape_low c with
      | Some e => e +:+ escape_ascii s'
      | None =>
          if n <? 127 then String c (escape_ascii s')
          else
            match s' with
            | String c1 s1 =>
                if (192 <=? n) && (n <? 224) then
                  u_escape_cp (Z.land n 31 * 64 + cont c1) +:+ escape_ascii s1
                else
                  match s1 with
                  | String c2 s2 =>
                      if (224 <=? n) && (n <? 240) then
                        u_escape_cp (Z.land n 15 * 4096 + cont c1 * 64 + cont c2)
                        +:+ escape_ascii s2
                      else
                        match s2 with
                        | String c3 s3 =>
                            if (240 <=? n) && (n <? 248) then
                              u_escape_cp (Z.land n 7 * 262144 + cont c1 * 4096
                                           + cont c2 * 64 + cont c3)
                              +:+ escape_ascii s3
                            else u_escape n +:+ escape_ascii s'
                        | EmptyString => u_escape n +:+ escape_ascii s'
                        end
                  | EmptyString => u_escape n +:+ escape_ascii s'
                  end
            | EmptyString => u_escape n
            end
      end
  end.

Definition quote : string := String Py.dquote EmptyString.

Section dumps.
Variables (sort_keys ensure_ascii : bool) (indent : option nat).

Definition encode_string (s : string) : string :=
  quote +:+ (if ensure_ascii then escape_ascii s else escape_plain s) +:+ quote.

Fixpoint spaces (n : nat) : string :=
  match n with O => EmptyString | S n' => String " " (spaces n') end.

Definition newline_indent (level : nat) : string :=
  match indent with
  | None => EmptyString
  | Some k => String "010" (spaces (k * level))
  end.

Definition item_separator : string :=
  match indent with None => ", " | Some _ => "," end.

Definition bracket (o c : string) (level : nat) (items : list string) : string :=
  match items with
  | [] => o +:+ c
  | _ => o +:+ newline_indent (S level)
         +:+ Py.join (item_separator +:+ newline_indent (S level)) items
         +:+ newline_indent level +:+ c
  end.

(** [sorted(dct.items())], by key. *)
Definition sort_items {V} (d : list (string * V)) : list (string * V) :=
  merge_sort (λ a b, String.le a.1 b.1) d.

Definition order_items {V} (d : list (string * V)) : list (string * V) :=
  if sort_keys then sort_items d else d.

Fixpoint dumps_at (level : nat) (v : json) : string :=
  match v with
  | JNull => "null"
  | JBool true => "true"
  | JBool false => "false"
  | JInt z => pretty z
  | JStr s => encode_string s
  | JList l => bracket "[" "]" level (List.map (dumps_at (S level)) l)
  | JDict d =>
      bracket "{" "}" level
        (List.map (λ kv : string * string, encode_string kv.1 +:+ ": " +:+ kv.2)
           (order_items
              (List.map (λ kv : string * json, (kv.1, dumps_at (S level) kv.2)) d)))
  end.

Definition dumps (v : json) : string := dumps_at 0 v.
End dumps.

(** *** [json.loads]

    The reader of the documents above.  A number with a fraction or an
    exponent, [NaN] and [Infinity] lie outside [json] and are refused. *)

Definition is_ws (c : ascii) : bool :=
  let n := code c in (n =? 32) || (n =? 9) || (n =? 10) || (n =? 13).

Fixpoint skip_ws (s : string) : string :=
  match s with
  | String c s' => if is_ws c then skip_ws s' else s
  | EmptyString => EmptyString
  end.

Definition hex_val (c : ascii) : option Z :=
  let n := code c in
  if (48 <=? n) && (n <=? 57) then Some (n - 48)
  else if (97 <=? n) && (n <=? 102) then Some (n - 87)
  else if (65 <=? n) && (n <=? 70) then Some (n - 55)
  else None.

Definition hex4 (a b c d : ascii) : option Z :=
  x1 ← hex_val a; x2 ← hex_val b; x3 ← hex_val c; x4 ← hex_val d;
  Some (((x1 * 16 + x2) * 16 + x3) * 16 + x4).

Definition byte (n : Z) : ascii := ascii_of_nat (Z.to_nat n).

(** The UTF-8 bytes of a code point; a surrogate has none. *)
Definition utf8 (n : Z) : option string :=
  if n <? 128 then Some (String (byte n) EmptyString)
  else if n <? 2048 then
    Some (String (byte (192 + n / 64)) (String (byte (128 + n mod 64)) EmptyString))
  else if (55296 <=? n) && (n <? 57344) then None
  else if n <? 65536 then
    Some (String (byte (224 + n / 4096))
         (String (byte (128 + n / 64 mod 64))
         (String (byte (128 + n mod 64)) EmptyString)))
  else
    Some (String (byte (240 + n / 262144))
         (String (byte (128 + n / 4096 mod 64))
         (String (byte (128 + n / 64 mod 64))
         (String (byte (128 + n mod 64)) EmptyString)))).

Definition simple_escape (c : ascii) : option ascii :=
  let n := code c in
  if n =? 34 then Some c
  else if n =? 92 then Some c
  else if n =? 47 then Some c
  else if n =? 98 then Some (byte 8)
  else if n =? 102 then Some (byte 12)
  else if n =? 110 then Some (byte 10)
  else if n =? 114 then Some (byte 13)
  else if n =? 116 then Some (byte 9)
  else None.

(** The body of a string literal, after its opening quote. *)
Fixpoint parse_string (s : string) : option (string * string) :=
  match s with
  | EmptyString => None
  | String c s' =>
      if code c =? 34 then Some (EmptyString, s')
      else if code c <? 32 then None
      else if code c =? 92 then
        match s' with
        | String "u" (String h1 (String h2 (String h3 (String h4 r)))) =>
            n ← hex4 h1 h2 h3 h4;
            if (55296 <=? n) && (n <? 56320) then
              match r with
              | String "\" (String "u" (String l1 (String l2 (String l3 (String l4 r'))))) =>
                  m ← hex4 l1 l2 l3 l4;
                  if (56320 <=? m) && (m <? 57344) then
                    b ← utf8 (65536 + (n - 55296) * 1024 + (m - 56320));
                    '(t, rest) ← parse_string r';
                    Some (b +:+ t, rest)
                  else None
              | _ => None
              end
            else
              b ← utf8 n;
              '(t, rest) ← parse_string r;
              Some (b +:+ t, rest)
        | String e r =>
            x ← simple_escape e;
            '(t, rest) ← parse_string r;
            Some (String x t, rest)
        | EmptyString => None
        end
      else
        '(t, rest) ← parse_string s';
        Some (String c t, rest)
  end.

Definition digit_val (c : ascii) : option Z :=
  let n := code c in if (48 <=? n) && (n <=? 57) then Some (n - 48) else None.

Fixpoint take_digits (acc : Z) (s : string) : Z * string :=
  match s with
  | String c s' =>
      match digit_val c with
      | Some d => take_digits (acc * 10 + d) s'
      | None => (acc, s)
      end
  | EmptyString => (acc, s)
  end.

(** A number must not continue as a fraction or an exponent. *)
Definition ends_int (s : string) : bool :=
  match s with
  | String c _ => negb ((code c =? 46) || (code c =? 101) || (code c =? 69))
  | EmptyString => true
  end.

(** [0] or a digit string without a leading zero. *)
Definition parse_nat (s : string) : option (Z * string) :=
  match s with
  | String c s' =>
      d ← digit_val c;
      let '(n, rest) := if d =? 0 then (0, s') else take_digits d s' in
      if ends_int rest then Some (n, rest) else None
  | EmptyString => None
  end.

Definition parse_int (s : string) : option (Z * string) :=
  match s with
  | String "-" s' => '(n, rest) ← parse_nat s'; Some (- n, rest)
  | _ => parse_nat s
  end.

(** [s] starts with [lit]: the text after it. *)
Fixpoint expect (lit s : string) : option string :=
  match lit, s with
  | EmptyString, _ => Some s
  | String a lit', String b s' => if Ascii.eqb a b then expect lit' s' else None
  | _, _ => None
  end.

(** [d[k] = v] on a dictionary in insertion order. *)
Fixpoint dict_set {V} (k : string) (v : V) (d : list (string * V)) : list (string * V) :=
  match d with
  | [] => [(k, v)]
  | (k', v') :: d' =>
      if String.eqb k k' then (k, v) :: d' else (k', v') :: dict_set k v d'
  end.

(** [parse_value] reads one value at the head of [s] (no leading
    whitespace); [parse_elems] and [parse_members] read the rest of an
    array or an object, up to and including its closing bracket. *)
Fixpoint parse_value (fuel : nat) (s : string) : option (json * string) :=
  match fuel with
  | O => None
  | S fuel' =>
      match s with
      | String c r =>
          if code c =? 34 then
            '(t, rest) ← parse_string r; Some (JStr t, rest)
          else if code c =? 91 then
            match skip_ws r with
            | String c1 r1 =>
                if code c1 =? 93 then Some (JList [], r1)
                else '(vs, rest) ← parse_elems fuel' (String c1 r1); Some (JList vs, rest)
            | EmptyString => None
            end
          else if code c =? 123 then
            match skip_ws r with
            | String c1 r1 =>
                if code c1 =? 125 then Some (JDict [], r1)
                else '(d, rest) ← parse_members fuel' [] (String c1 r1); Some (JDict d, rest)
            | EmptyString => None
            end
          else if code c =? 110 then rest ← expect "ull" r; Some (JNull, rest)
          else if code c =? 116 then rest ← expect "rue" r; Some (JBool true, rest)
          else if code c =? 102 then rest ← expect "alse" r; Some (JBool false, rest)
          else '(n, rest) ← parse_int s; Some (JInt n, rest)
      | EmptyString => None
      end
  end
with parse_elems (fuel : nat) (s : string) : option (list json * string) :=
  match fuel with
  | O => None
  | S fuel' =>
      '(v, r) ← parse_value fuel' s;
      match skip_ws r with
      | String c r' =>
          if code c =? 44 then
            '(vs, rest) ← parse_elems fuel' (skip_ws r'); Some (v :: vs, rest)
          else if code c =? 93 then Some ([v], r')
          else None
      | EmptyString => None
      end
  end
with parse_members (fuel : nat) (acc : list (string * json)) (s : string)
    : option (list (string * json) * string) :=
  match fuel with
  | O => None
  | S fuel' =>
      match s with
      | String c r =>
          if code c =? 34 then
            '(k, r1) ← parse_string r;
            match skip_ws r1 with
            | String c2 r2 =>
                if code c2 =? 58 then
                  '(v, r3) ← parse_value fuel' (skip_ws r2);
                  let acc' := dict_set k v acc in
                  match skip_ws r3 with
                  | String c4 r4 =>
                      if code c4 =? 44 then parse_members fuel' acc' (skip_ws r4)
                      else if code c4 =? 125 then Some (acc', r4)
                      else None
                  | EmptyString => None
                  end
                else None
            | EmptyString => None
            end
          else None
      | EmptyString => None
      end
  end.

Definition loads (s : string) : option json :=
  '(v, rest) ← parse_value (2 * String.length s + 2) (skip_ws s);
  match skip_ws rest with
  | EmptyString => Some v
  | _ => None
  end.

End Json.

(** ** [hashlib.sha256] (FIPS 180-4), on 32-bit words held in [Z] *)

Module SHA256.

Definition mask32 : Z := 0xffffffff.
Definition add32 (a b : Z) : Z := (a + b) mod 2 ^ 32.
Definition rotr (n x : Z) : Z :=
  Z.lor (Z.shiftr x n) (Z.land (Z.shiftl x (32 - n)) mask32).
Definition shr (n x : Z) : Z := Z.shiftr x n.
Definition not32 (x : Z) : Z := Z.lxor x mask32.

Definition Ch (x y z : Z) : Z := Z.lxor (Z.land x y) (Z.land (not32 x) z).
Definition Maj (x y z : Z) : Z :=
  Z.lxor (Z.lxor (Z.land x y) (Z.land x z)) (Z.land y z).
Definition bsig0 (x : Z) : Z := Z.lxor (Z.lxor (rotr 2 x) (rotr 13 x)) (rotr 22 x).
Definition bsig1 (x : Z) : Z := Z.lxor (Z.lxor (rotr 6 x) (rotr 11 x)) (rotr 25 x).
Definition ssig0 (x : Z) : Z := Z.lxor (Z.lxor (rotr 7 x) (rotr 18 x)) (shr 3 x).
Definition ssig1 (x : Z) : Z := Z.lxor (Z.lxor (rotr 17 x) (rotr 19 x)) (shr 10 x).

(** The constants are derived as the standard defines them: the first
32 bits of the fractional parts of the cube roots (for [K]) and of the
square roots (for [H0]) of the first primes. *)
Definition is_prime (n : Z) : bool :=
  (2 <=? n) && forallb (λ d, negb (n mod d =? 0) || (n <=? d)) (List.map Z.of_nat (seq 2 18)).

Definition primes : list Z :=
  filter (λ n, is_prime n = true) (List.map Z.of_nat (seq 2 310)).

(** The largest [r] in [lo, hi) with [r ^ 3 <= x]. *)
Fixpoint cube_root (fuel : nat) (lo hi x : Z) : Z :=
  match fuel with
  | O => lo
  | S fuel' =>
      let mid := (lo + hi) / 2 in
      if mid ^ 3 <=? x then cube_root fuel' mid hi x else cube_root fuel' lo mid x
  end.

Definition K : list Z :=
  Eval vm_compute in
    List.map (λ p, cube_root 40 0 (2 ^ 35) (p * 2 ^ 96) mod 2 ^ 32) primes.

Definition H0 : list Z :=
  Eval vm_compute in
    List.map (λ p, Z.sqrt (p * 2 ^ 64) mod 2 ^ 32) (firstn 8 primes).

Definition bytes_of (s : string) : list Z :=
  List.map (λ c, Z.of_nat (nat_of_ascii c)) (list_ascii_of_string s).

(** Big-endian bytes of [x], [n] of them. *)
Fixpoint be_bytes (n : nat) (x : Z) : list Z :=
  match n with
  | O => []
  | S n' => (x / 256 ^ Z.of_nat n') mod 256 :: be_bytes n' x
  end.

(** Padding: a 1 bit, zeros up to 56 modulo 64, the bit length on 8 bytes. *)
Definition pad (msg : list Z) : list Z :=
  let len := Z.of_nat (length msg) in
  let zeros := Z.to_nat ((55 - len) mod 64) in
  msg ++ [0x80] ++ repeat 0 zeros ++ be_bytes 8 (8 * len).

Fixpoint words (fuel : nat) (bs : list Z) : list Z :=
  match fuel, bs with
  | S fuel', b0 :: b1 :: b2 :: b3 :: bs' =>
      (((b0 * 256 + b1) * 256 + b2) * 256 + b3) :: words fuel' bs'
  | _, _ => []
  end.

(** The message schedule, most recent word first. *)
Fixpoint extend (n : nat) (w : list Z) : list Z :=
  match n with
  | O => w
  | S n' =>
      let x := add32 (add32 (ssig1 (nth 1 w 0)) (nth 6 w 0))
                     (add32 (ssig0 (nth 14 w 0)) (nth 15 w 0)) in
      extend n' (x :: w)
  end.

Definition schedule (block : list Z) : list Z :=
  rev (extend 48 (rev block)).

Definition round (st : list Z) (kw : Z * Z) : list Z :=
  match st with
  | [a; b; c; d; e; f; g; h] =>
      let t1 := add32 (add32 (add32 h (bsig1 e)) (add32 (Ch e f g) kw.1)) kw.2 in
      let t2 := add32 (bsig0 a) (Maj a b c) in
      [add32 t1 t2; a; b; c; add32 d t1; e; f; g]
  | _ => st
  end.

Definition compress (st : list Z) (block : list Z) : list Z :=
  List.map (λ p : Z * Z, add32 p.1 p.2)
    (combine st (fold_left round (combine K (schedule block)) st)).

Fixpoint blocks (fuel : nat) (ws : list Z) : list (list Z) :=
  match fuel, ws with
  | S fuel', _ :: _ => firstn 16 ws :: blocks fuel' (skipn 16 ws)
  | _, _ => []
  end.

Definition digest (s : string) : list Z :=
  let bs := pad (bytes_of s) in
  let ws := words (length bs) bs in
  fold_left compress (blocks (length ws) ws) H0.

Definition hex_byte (b : Z) : string :=
  String (Json.hex_digit (b / 16)) (String (Json.hex_digit (b mod 16)) EmptyString).

(** [hashlib.sha256(payload).hexdigest()] *)
Definition hexdigest (s : string) : string :=
  String.concat EmptyString
    (List.map hex_byte (List.concat (List.map (be_bytes 4) (digest s)))).

End SHA256.

(** ** Models *)

Module Query.
(** [OSINTQuery]: nine string fields, each defaulting to the empty
    string. *)
Record OSINTQuery : Type := mk {
  first : string; last : string; username : string; email : string;
  phone : string; address1 : string; city : string; state : string;
  zip : string }.

Definition default : OSINTQuery := mk "" "" "" "" "" "" "" "" "".

(** [full_name] *)
Definition full_name (q : OSINTQuery) : string :=
  Py.join " " (filter (λ p, Py.truthy p = true) [Py.strip (first q); Py.strip (last q)]).

(** [to_ordered_dict], in the order the source inserts the keys. *)
Definition to_ordered_dict (q : OSINTQuery) : list (string * string) :=
  [ ("first", first q); ("last", last q); ("username", username q);
    ("email", email q); ("phone", phone q); ("address1", address1 q);
    ("city", city q); ("state", state q); ("zip", zip q) ].
End Query.
Abbreviation OSINTQuery := Query.OSINTQuery.

Record OSINTHit : Type := mkHit {
  site : string; title : string; snippet : string; url : string;
  raw : list (string * json) }.

(** [dataclasses.asdict(h)] *)
Definition asdict (h : OSINTHit) : json :=
  JDict [ ("site", JStr (site h)); ("title", JStr (title h));
          ("snippet", JStr (snippet h)); ("url", JStr (url h));
          ("raw", JDict (raw h)) ].

(** ** Helpers *)

Definition digits_only (s : string) : string :=
  string_of_list_ascii (filter (λ c, Py.isdigit c = true) (list_ascii_of_string s)).

Definition site_base_url (s : string) : option string :=
  match dict_get s SITE_URL with
  | Some u => Some u
  | None =>
      match dict_get s SITE_DOMAIN with
      | Some (Some dom) => if Py.truthy dom then Some ("https://" +:+ dom) else None
      | _ => None
      end
  end.

(** [urllib.parse.quote_plus]: letters, digits and [_.-~] are kept, a
    space becomes [+], every other byte is written [%XX]. *)
Definition hex_upper (n : nat) : ascii :=
  ascii_of_nat (if (n <? 10)%nat then 48 + n else 55 + n).

Definition quote_plus_char (c : ascii) : string :=
  let n := nat_of_ascii c in
  if ((48 <=? n) && (n <=? 57) || (65 <=? n) && (n <=? 90)
      || (97 <=? n) && (n <=? 122) || (n =? 95) || (n =? 46) || (n =? 45)
      || (n =? 126))%nat
  then String c EmptyString
  else if (n =? 32)%nat then "+"
  else String "%" (String (hex_upper (n / 16)) (String (hex_upper (n mod 16)) EmptyString)).

Fixpoint quote_plus (s : string) : string :=
  match s with
  | EmptyString => EmptyString
  | String c s' => quote_plus_char c +:+ quote_plus s'
  end.

(** [if cond: toks.append(x)] *)
Definition tok_if (cond : string) (x : string) : list string :=
  if Py.truthy cond then [x] else [].

Definition dork_url (site_label : string) (q : OSINTQuery) (engine : string) : string :=
  let domain := mjoin (dict_get site_label SITE_DOMAIN) in
  let prop_sites := cat_sites "Property Records & Accessor" in
  let rev_sites := cat_sites "Reverse Phone / Address" in
  let address1 := Query.address1 q in
  let name := Query.full_name q in
  let toks :=
    if Py.mem site_label prop_sites then
      tok_if address1 (Py.quoted address1) ++ tok_if (Query.city q) (Query.city q)
      ++ tok_if (Query.state q) (Query.state q) ++ tok_if (Query.zip q) (Query.zip q)
      ++ tok_if name (Py.quoted name)
      ++ tok_if (Query.phone q) (digits_only (Query.phone q))
      ++ tok_if (Query.email q) (Query.email q)
      ++ tok_if (Query.username q) (Query.username q)
    else if Py.mem site_label rev_sites then
      tok_if (Query.phone q) (digits_only (Query.phone q))
      ++ tok_if name (Py.quoted name)
      ++ tok_if address1 (Py.quoted address1) ++ tok_if (Query.city q) (Query.city q)
      ++ tok_if (Query.state q) (Query.state q) ++ tok_if (Query.zip q) (Query.zip q)
      ++ tok_if (Query.email q) (Query.email q)
      ++ tok_if (Query.username q) (Query.username q)
    else
      tok_if name (Py.quoted name)
      ++ tok_if (Query.username q) (Query.username q)
      ++ tok_if (Query.email q) (Query.email q)
      ++ tok_if (Query.phone q) (digits_only (Query.phone q))
      ++ tok_if address1 (Py.quoted address1) ++ tok_if (Query.city q) (Query.city q)
      ++ tok_if (Query.state q) (Query.state q) ++ tok_if (Query.zip q) (Query.zip q) in
  let parts :=
    match domain with
    | Some d => if Py.truthy d then ["site:" +:+ d] else []
    | None => []
    end ++ toks in
  let query_str :=
    match parts with
    | [] => match domain with
            | Some d => if Py.truthy d then d else site_label
            | None => site_label
            end
    | _ => Py.join " " parts
    end in
  let base := default "https://duckduckgo.com/?q=" (dict_get engine ENGINES) in
  base +:+ quote_plus query_str.

(** [engine_guard] *)
Definition engine_guard (e : string) : string :=
  match dict_get e ENGINES with Some _ => e | None => "DuckDuckGo" end.

(** ** Canonical key *)

Definition canonical_payload (q : OSINTQuery) : string :=
  Json.dumps true false None
    (JDict (List.map (λ kv : string * string, (kv.1, JStr kv.2)) (Query.to_ordered_dict q))).

Definition cache_key_for_query (q : OSINTQuery) : string :=
  SHA256.hexdigest (canonical_payload q).

Definition CACHE_DIR : string := "reports/cache".

Definition cache_path_for_query (q : OSINTQuery) : string :=
  CACHE_DIR +:+ "/" +:+ cache_key_for_query q +:+ ".json".

(** ** Exceptions *)

(** The exceptions the program distinguishes: [NotImplementedError],
    [concurrent.futures.TimeoutError], and any other [Exception]; each
    carries the text of [str(e)]. *)
Inductive exn : Type :=
  | NotImplementedError (msg : string)
  | TimeoutError
  | Exception (msg : string).

(** [str(e)] *)
Definition str_exn (e : exn) : string :=
  match e with
  | NotImplementedError m => m
  | TimeoutError => EmptyString
  | Exception m => m
  end.

Inductive result (A : Type) : Type :=
  | Ok (a : A)
  | Raise (e : exn).
Arguments Ok {A} a.
Arguments Raise {A} e.

(** Sequencing: an exception raised by the first statement skips the
    rest. *)
Global Instance result_ret : MRet result := λ A a, Ok a.
Global Instance result_bind : MBind result := λ A B k r,
  match r with
  | Ok a => k a
  | Raise e => Raise e
  end.

(** [try: body / except ...: handler e] *)
Definition try_except {A} (body : result A) (handler : exn → result A) : result A :=
  match body with
  | Ok a => Ok a
  | Raise e => handler e
  end.

(** [x or []] *)
Definition or_empty {A} (x : option (list A)) : list A := default [] x.

(** ** The cache directory *)

(** The files of [reports/cache], by path, and whether the directory
    accepts writes and removals. *)
Record disk : Type := mkDisk {
  files : gmap string string;
  writable : bool }.

(** An [OSINTHit] built from the keyword arguments of the mapping [h]:
    [h] must be a mapping with exactly the five field
    names as keys.  The dataclass does not check the types of the values;
    the model is typed, and an entry whose values do not have the
    annotated types is treated like an unreadable one. *)
Definition hit_of_dict (h : json) : option OSINTHit :=
  match h with
  | JDict d =>
      if bool_decide (length d = 5%nat) then
        match dict_get "site" d, dict_get "title" d, dict_get "snippet" d,
              dict_get "url" d, dict_get "raw" d with
        | Some (JStr s), Some (JStr t), Some (JStr sn), Some (JStr u), Some (JDict r) =>
            Some (mkHit s t sn u r)
        | _, _, _, _, _ => None
        end
      else None
  | _ => None
  end.

Definition load_cache (d : disk) (q : OSINTQuery) : list OSINTHit :=
  match files d !! cache_path_for_query q with
  | None => []
  | Some text =>
      match Json.loads text with
      | Some (JList data) => default [] (mapM hit_of_dict data)
      | _ => []
      end
  end.

(** [json.dump(..., ensure_ascii=False, indent=2)] into the file of the
    query; the result is the path, or the empty string when the file could
    not be written. *)
Definition save_cache (d : disk) (q : OSINTQuery) (hits : list OSINTHit) : string * disk :=
  let path := cache_path_for_query q in
  if writable d then
    (path,
     mkDisk (<[path := Json.dumps false false (Some 2%nat) (JList (List.map asdict hits))]>
               (files d)) (writable d))
  else (EmptyString, d).

Definition clear_cache_for_query (d : disk) (q : OSINTQuery) : bool * disk :=
  let p := cache_path_for_query q in
  match files d !! p with
  | Some _ =>
      if writable d then (true, mkDisk (delete p (files d)) (writable d))
      else (false, d)
  | None => (false, d)
  end.

(** ** Scraper registry and runner ([scrapers.py]) *)

Inductive session : Type := Session.

(** A call that ends after [took] time units, by returning or by raising. *)
Record call (A : Type) : Type := mkCall {
  took : Z;
  returned : result A }.
Arguments mkCall {A} took returned.
Arguments took {A} c.
Arguments returned {A} c.

(** A scraper returns a list of hits, or [None]. *)
Abbreviation Scraper := (session → OSINTQuery → call (option (list OSINTHit))).

Definition run_scraper (SCRAPERS : gmap string Scraper)
    (sess : session) (s : string) (q : OSINTQuery) : call (list OSINTHit) :=
  match SCRAPERS !! s with
  | None => mkCall 0 (Ok [])
  | Some fn =>
      let c := fn sess q in
      mkCall (took c)
        (try_except
           (hits ← returned c; Ok (or_empty hits))
           (λ e, match e with
                 | NotImplementedError _ => Ok []
                 | _ => Ok []
                 end))
  end.

(** [_run_site_with_timeout]: the scraper runs in a worker of its own and
    its result is awaited for at most [timeout] time units. *)
Definition _run_site_with_timeout (get_session : result session)
    (SCRAPERS : gmap string Scraper)
    (s : string) (q : OSINTQuery) (timeout : Z) : result (list OSINTHit) :=
  sess ← get_session;
  (let fut := run_scraper SCRAPERS sess s q in
   try_except
     (if timeout <? took fut then Raise TimeoutError
      else hits ← returned fut; Ok hits)
     (λ e, match e with
           | TimeoutError => Raise e
           | NotImplementedError _ => Ok []
           | Exception _ => Ok []
           end)).

(** ** Dataset lookups ([datasets.py]) *)

(** A site entry [{"label": ..., "domain": ...}]; [domain] is [None] when
    the key is absent. *)
Record site_entry : Type := mkEntry {
  label : string;
  domain : option string }.

(** A hit as a provider returns it: a dictionary in which every key may
    be absent. *)
Record dataset_hit : Type := mkDh {
  dh_site : option string;
  dh_title : option string;
  dh_snippet : option string;
  dh_url : option string;
  dh_raw : option (list (string * json)) }.

(** [q.get(k, "")] on a query dictionary. *)
Definition qget (k : string) (q : list (string * string)) : string :=
  default EmptyString (dict_get k q).

Module Datasets.
Section network.
(** The two lookups that go to the network (Wayback CDX, crt.sh):
    domain and limit in, hits out. *)
Variables find_wayback_snapshots find_crtsh_certificates :
  string → nat → list dataset_hit.

Definition with_site (s : string) (h : dataset_hit) : dataset_hit :=
  mkDh (Some s) (dh_title h) (dh_snippet h) (dh_url h) (dh_raw h).

Definition engines : list (string * string) :=
  [ ("DuckDuckGo", "https://duckduckgo.com/?q=");
    ("Google", "https://www.google.com/search?q=");
    ("Bing", "https://www.bing.com/search?q=");
    ("GitHub code", "https://github.com/search?q=") ].

Definition construct_search_links_for_site (site_label : string)
    (site_domain : option string) (q : list (string * string)) : list dataset_hit :=
  let fullname :=
    Py.strip (Py.join " " [Py.strip (qget "first" q); Py.strip (qget "last" q)]) in
  let tokens :=
    tok_if fullname (Py.quoted fullname)
    ++ tok_if (qget "username" q) (qget "username" q)
    ++ tok_if (qget "email" q) (qget "email" q)
    ++ tok_if (qget "phone" q) (digits_only (qget "phone" q)) in
  let dork :=
    match site_domain with
    | Some d =>
        if Py.truthy d then
          match tokens with
          | [] => "site:" +:+ d
          | _ => Py.join " " (("site:" +:+ d) :: tokens)
          end
        else match tokens with [] => site_label | _ => Py.join " " tokens end
    | None => match tokens with [] => site_label | _ => Py.join " " tokens end
    end in
  List.map (λ nb : string * string,
              let qstr := if String.eqb nb.1 "GitHub code"
                          then quote_plus (Py.join " " tokens)
                          else quote_plus dork in
              mkDh (Some "Search Link") (Some (nb.1 +:+ " search")) (Some dork)
                   (Some (nb.2 +:+ qstr)) (Some [("engine", JStr nb.1)]))
           engines
  ++ [ mkDh (Some "Hint") (Some "Common Crawl (index) / BigQuery hint")
         (Some "Use Common Crawl index or BigQuery to fetch page text; BigQuery can be queried from console")
         (Some "https://commoncrawl.org/") None ].

Definition has_domain (site_domain : option string) : option string :=
  match site_domain with
  | Some d => if Py.truthy d then Some d else None
  | None => None
  end.

Definition search_for_site (site_label : string) (site_domain : option string)
    (qdict : list (string * string)) : list dataset_hit :=
  match has_domain site_domain with
  | Some d =>
      List.map (with_site (site_label +:+ " (Wayback)")) (find_wayback_snapshots d 4%nat)
  | None => []
  end
  ++ match has_domain site_domain with
     | Some d =>
         if Py.str_in "." d
         then List.map (with_site (site_label +:+ " (crt.sh)"))
                (find_crtsh_certificates d 4%nat)
         else []
     | None => []
     end
  ++ List.map (with_site (site_label +:+ " (Search link)"))
       (construct_search_links_for_site site_label site_domain qdict).

Definition search_sites_for_query (sites : list site_entry)
    (qdict : list (string * string)) : list dataset_hit :=
  flat_map (λ s, search_for_site (label s) (domain s) qdict) sites.
End network.
End Datasets.

(** What the orchestrator sees of the [datasets] module: the single-site
    entry point when the module has one ([hasattr]), and the batch entry
    point.  Either may raise, or return [None]. *)
Record datasets_module : Type := mkDatasets {
  search_site_for_query :
    option (site_entry → list (string * string) → result (option (list dataset_hit)));
  search_sites_for_query :
    list site_entry → list (string * string) → result (option (list dataset_hit)) }.

(** The module of this repository: no single-site entry point, and a
    batch entry point that never raises. *)
Definition datasets_py (wayback crtsh : string → nat → list dataset_hit) : datasets_module :=
  mkDatasets None
    (λ sites qdict, Ok (Some (Datasets.search_sites_for_query wayback crtsh sites qdict))).

(** ** Events and effects *)

(** The messages put on [ui_queue]. *)
Inductive event : Type :=
  | note (text : string)
  | hit (h : OSINTHit)
  | setup_progress (total : nat)
  | inc_progress (n : nat)
  | done (rows : nat).

(** What a run does, in order: messages to the interface, calls to the
    dataset module, the opening of the worker pool, submissions to it, and
    the writing of the reports. *)
Inductive effect : Type :=
  | Ui (e : event)
  | DatasetCall (entry : site_entry) (qdict : list (string * string))
  | Pool (max_workers : Z)
  | Submit (s : string) (timeout : Z)
  | Reports (hits : list OSINTHit).

Definition ui_events (tr : list effect) : list event :=
  omap (λ e, match e with Ui ev => Some ev | _ => None end) tr.

Definition hits_of (evs : list event) : list OSINTHit :=
  omap (λ e, match e with hit h => Some h | _ => None end) evs.

Definition dataset_calls (tr : list effect) : list (site_entry * list (string * string)) :=
  omap (λ e, match e with DatasetCall en qd => Some (en, qd) | _ => None end) tr.

(** The dispatch order: the sites submitted to the pool, in order. *)
Definition dispatched (tr : list effect) : list string :=
  omap (λ e, match e with Submit s _ => Some s | _ => None end) tr.

Definition progress (tr : list effect) : nat :=
  list_sum (omap (λ e, match e with Ui (inc_progress n) => Some n | _ => None end) tr).

(** ** The dataset prefilter ([_background_run], first half) *)

Definition token_candidates (q : OSINTQuery) : list string :=
  (if Py.truthy (Query.full_name q)
   then [Py.lower (Query.full_name q)]
        ++ tok_if (Query.first q) (Py.lower (Query.first q))
        ++ tok_if (Query.last q) (Py.lower (Query.last q))
   else [])
  ++ tok_if (Query.username q) (Py.lower (Query.username q))
  ++ tok_if (Query.email q) (Py.lower (Query.email q))
  ++ (if Py.truthy (Query.phone q)
      then tok_if (digits_only (Query.phone q)) (digits_only (Query.phone q))
      else [])
  ++ tok_if (Query.address1 q) (Py.lower (Query.address1 q))
  ++ tok_if (Query.city q) (Py.lower (Query.city q))
  ++ tok_if (Query.state q) (Py.lower (Query.state q))
  ++ tok_if (Query.zip q) (Py.lower (Query.zip q)).

(** [[t for i, t in enumerate(c) if t and t not in c[:i]]], with [seen]
    the candidates before the current one. *)
Fixpoint dedupe (seen : list string) (c : list string) : list string :=
  match c with
  | [] => []
  | t :: c' =>
      if Py.truthy t && negb (Py.mem t seen)
      then t :: dedupe (seen ++ [t]) c'
      else dedupe (seen ++ [t]) c'
  end.

Definition tokens (q : OSINTQuery) : list string := dedupe [] (token_candidates q).

Definition site_qdict (q : OSINTQuery) (s : string) : list (string * string) :=
  if Py.mem s (cat_sites "Property Records & Accessor") then
    [ ("address1", Query.address1 q); ("city", Query.city q); ("state", Query.state q);
      ("zip", Query.zip q); ("first", Query.first q); ("last", Query.last q) ]
  else if Py.mem s (cat_sites "Reverse Phone / Address") then
    [ ("phone", Query.phone q); ("first", Query.first q); ("last", Query.last q);
      ("address1", Query.address1 q) ]
  else Query.to_ordered_dict q.

(** The text a dataset hit is matched against. *)
Definition combined (dh : dataset_hit) : string :=
  Py.join " "
    [ Py.lower (default EmptyString (dh_title dh));
      Py.lower (default EmptyString (dh_snippet dh));
      Py.lower (default EmptyString (dh_url dh));
      Py.lower (Json.dumps false true None (JDict (default [] (dh_raw dh)))) ].

Definition matched (toks : list string) (dh : dataset_hit) : bool :=
  existsb (λ tok, Py.truthy tok && Py.str_in tok (combined dh)) toks.

(** The label an accepted hit is filed under, and the hit itself. *)
Definition site_label (s : string) (dh : dataset_hit) : string :=
  Py.split_head " (" (default s (dh_site dh)).

Definition dataset_osint_hit (s : string) (dh : dataset_hit) : OSINTHit :=
  mkHit (site_label s dh) (default EmptyString (dh_title dh))
        (default EmptyString (dh_snippet dh)) (default EmptyString (dh_url dh))
        (default [] (dh_raw dh)).

(** The lookup for one site: the hits of the module, or none when it
    raises, with the note the handler leaves. *)
Definition dataset_lookup (D : datasets_module) (s : string)
    (qd : list (string * string)) : list dataset_hit * list effect :=
  let entry := mkEntry s None in
  match match search_site_for_query D with
        | Some f => f entry qd
        | None => search_sites_for_query D [entry] qd
        end with
  | Ok r => (or_empty r, [])
  | Raise e =>
      ([], [Ui (note ("[!] datasets lookup failed for " +:+ s +:+ ": "
                      +:+ Py.take 200 (str_exn e)))])
  end.

(** One iteration of the loop over [ordered_sites]: the accepted hits
    with their labels, and the effects. *)
Definition prefilter_hit (toks : list string) (s : string) (dh : dataset_hit)
    : list OSINTHit * list effect :=
  if matched toks dh then
    ([dataset_osint_hit s dh], [Ui (hit (dataset_osint_hit s dh))])
  else
    ([], [Ui (note ("[datasets skip] " +:+ s +:+ ": hit didn't match query tokens -> "
                    +:+ Py.take 200 (default EmptyString (dh_url dh))))]).

Definition prefilter_site (D : datasets_module) (q : OSINTQuery) (toks : list string)
    (s : string) : list OSINTHit * list effect :=
  match toks with
  | [] =>
      ([], [Ui (note ("Skipping datasets lookup for " +:+ s +:+ " (no user tokens present)"))])
  | _ =>
      let '(ds_hits, failed) := dataset_lookup D s (site_qdict q s) in
      let per_hit := List.map (prefilter_hit toks s) ds_hits in
      (flat_map fst per_hit,
       DatasetCall (mkEntry s None) (site_qdict q s) :: failed ++ flat_map snd per_hit)
  end.

Definition dataset_prefilter (D : datasets_module) (q : OSINTQuery)
    (ordered : list string) : list OSINTHit * list effect :=
  let per_site := List.map (prefilter_site D q (tokens q)) ordered in
  (flat_map fst per_site, flat_map snd per_site).

(** [satisfied_sites]: the labels of the accepted hits. *)
Definition satisfied_sites (results_from_datasets : list OSINTHit) : gset string :=
  list_to_set (List.map site results_from_datasets).

(** ** The scheduler ([_background_run], second half) *)

(** The interface state a run reads: the query fields and the three
    settings. *)
Record App : Type := mkApp {
  query : OSINTQuery;
  threads_var : Z;
  timeout_var : Z;
  engine_var : string }.

(** Everything outside the run: the cache directory, the dataset module,
    the scraper registry, the construction of a session, the order in
    which the pool completes the submitted tasks, the clock of the report
    names, and whether the report directory accepts writes. *)
Record world : Type := mkWorld {
  cache : disk;
  DATASETS : datasets_module;
  SCRAPERS : gmap string Scraper;
  get_session : result session;
  as_completed : list (string * Z) → list (string * Z);
  now : string;
  reports_writable : bool }.

Definition fallback_hit (s suffix snip link : string) (meta : list (string * json))
    : OSINTHit :=
  mkHit s (s +:+ suffix) snip link meta.

(** The body of the loop over completed futures, for the task of site
    [s]: the messages put on the queue, in order. *)
Definition future_events (q : OSINTQuery) (engine : string) (s : string)
    (used_timeout : Z) (r : result (list OSINTHit)) : list event :=
  let home := site_base_url s in
  let dork := dork_url s q engine in
  let if_home (f : string → OSINTHit) : list event :=
    match home with
    | Some u => if Py.truthy u then [hit (f u)] else []
    | None => []
    end in
  match r with
  | Ok (h :: hits) =>
      note ("[+] " +:+ s +:+ ": " +:+ pretty (length (h :: hits)) +:+ " hit(s)")
      :: List.map hit (h :: hits)
  | Ok [] =>
      if_home (λ u, fallback_hit s " (open site)" "No scraper results — open site." u
                      [("fallback", JStr "home")])
      ++ [ hit (fallback_hit s " (search dork)" "No scraper results — try search." dork
                  [("fallback", JStr "dork")]);
           note ("[~] " +:+ s +:+ ": provided links (site + dork)") ]
  | Raise TimeoutError =>
      let snip := "Timed out after " +:+ pretty used_timeout +:+ "s" in
      if_home (λ u, fallback_hit s " (timeout→open site)" snip u
                      [("timeout", JBool true); ("fallback", JStr "home")])
      ++ [ hit (fallback_hit s " (timeout→dork)" snip dork
                  [("timeout", JBool true); ("fallback", JStr "dork")]);
           note ("[!] " +:+ s +:+ ": timeout, provided links") ]
  | Raise e =>
      let snip := Py.take 300 (str_exn e) in
      if_home (λ u, fallback_hit s " (error→open site)" snip u
                      [("error", JStr (str_exn e)); ("fallback", JStr "home")])
      ++ [ hit (fallback_hit s " (error→dork)" snip dork
                  [("error", JStr (str_exn e)); ("fallback", JStr "dork")]);
           note ("[!] " +:+ s +:+ ": error, provided links") ]
  end
  ++ [inc_progress 1].

(** The timeout of a task: [Username Pack (direct)] gets at least 20. *)
Definition site_timeout (timeout : Z) (s : string) : Z :=
  if String.eqb s "Username Pack (direct)" then Z.max timeout 20 else timeout.

(** The task of site [s] from submission to the messages of its
    completion. *)
Definition task_events (w : world) (q : OSINTQuery) (engine : string)
    (task : string * Z) : list event :=
  future_events q engine task.1 task.2
    (_run_site_with_timeout (get_session w) (SCRAPERS w) task.1 q task.2).

Definition scheduler (w : world) (q : OSINTQuery) (engine : string) (threads timeout : Z)
    (sites_to_scrape : list string) : list effect :=
  let future_map := List.map (λ s, (s, site_timeout timeout s)) sites_to_scrape in
  Pool threads
  :: List.map (λ t : string * Z, Submit t.1 t.2) future_map
  ++ List.map Ui (flat_map (task_events w q engine) (as_completed w future_map)).

(** [save_reports]: the three report paths, or the fault of a report
    directory that cannot be written. *)
Definition save_reports (w : world) (hits : list OSINTHit)
    : result (string * string * string) :=
  if reports_writable w then
    Ok ("reports/osint_" +:+ now w +:+ ".csv",
        "reports/osint_" +:+ now w +:+ ".json",
        "reports/osint_" +:+ now w +:+ ".txt")
  else Raise (Exception "cannot write report").

(** The end of a run: the cache entry is written when there are results,
    then the reports. *)
Definition persist (w : world) (d : disk) (q : OSINTQuery) (results : list OSINTHit)
    : list effect * disk * result unit :=
  let '(saved, d') :=
    match results with
    | [] => ([], d)
    | _ => ([Ui (note ("Saved cache for this query (" +:+ pretty (length results)
                        +:+ " rows)"))],
            (save_cache d q results).2)
    end in
  match save_reports w results with
  | Ok (csv_path, json_path, txt_path) =>
      (saved ++ [ Reports results;
                  Ui (note ("Saved CSV: " +:+ csv_path +:+ "  JSON: " +:+ json_path
                            +:+ "  TXT: " +:+ txt_path)) ],
       d', Ok ())
  | Raise e => (saved, d', Raise e)
  end.

(** The outcome of a run: what it did, the cache directory afterwards,
    and whether it ran to its end or died on an exception. *)
Record run : Type := mkRun {
  trace : list effect;
  cache_after : disk;
  finished : result unit }.

(** [sorted(list(keys))] *)
Definition sorted (l : list string) : list string := merge_sort String.le l.

Definition sites_to_scrape (ordered : list string) (satisfied : gset string) : list string :=
  if bool_decide (satisfied = ∅) then ordered
  else filter (λ s, s ∉ satisfied) ordered.

(** The run after the cache gate: dataset prefilter, scheduler, and the
    writing of the cache entry and the reports. *)
Definition live_run (w : world) (self : App) (sites : list string)
    (skip_cache : bool) : run :=
  let q := query self in
  let '(cleared, d0) :=
    if skip_cache then clear_cache_for_query (cache w) q else (false, cache w) in
  let tr_cleared :=
    if cleared then [Ui (note "Cache cleared for this query (skip cache requested)")]
    else [] in
  let total := length sites in
  let threads := Z.max 2 (Z.min 40 (threads_var self)) in
  let timeout := Z.max 3 (timeout_var self) in
  let engine := engine_guard (engine_var self) in
  let ordered := ordered_sites sites in
  let '(results_from_datasets, tr_datasets) := dataset_prefilter (DATASETS w) q ordered in
  let satisfied := satisfied_sites results_from_datasets in
  let to_scrape := sites_to_scrape ordered satisfied in
  let tr_head :=
    tr_cleared
    ++ [Ui (setup_progress total); Ui (note "Running public dataset lookups first...")]
    ++ tr_datasets
    ++ [Ui (note (if bool_decide (satisfied = ∅)
                  then "No dataset hits found — will proceed to scrapers."
                  else "Datasets satisfied: "
                       +:+ Py.join ", " (sorted (elements satisfied))))] in
  match to_scrape with
  | [] =>
      let '(tr_persist, d1, fin) := persist w d0 q results_from_datasets in
      mkRun (tr_head
             ++ [Ui (note "All sites satisfied by datasets — skipping live scrapers.")]
             ++ tr_persist
             ++ match fin with
                | Ok _ => [Ui (done (length results_from_datasets))]
                | Raise _ => []
                end)
            d1 fin
  | _ =>
      let tr_pool := scheduler w q engine threads timeout to_scrape in
      let results := results_from_datasets ++ hits_of (ui_events tr_pool) in
      let '(tr_persist, d1, fin) := persist w d0 q results in
      mkRun (tr_head ++ tr_pool ++ tr_persist
             ++ match fin with
                | Ok _ =>
                    match results with
                    | [] =>
                        [ Ui (note "No scraper results returned for selected sites.");
                          Ui (note ("Registered scrapers: " +:+
                                    Py.join ", " (sorted (elements (dom (SCRAPERS w)))))) ]
                    | _ => []
                    end
                    ++ [Ui (done (length results))]
                | Raise _ => []
                end)
            d1 fin
  end.

(** The messages that replay a cached hit list. *)
Definition replay (cache_hits : list OSINTHit) : list event :=
  note ("cache: " +:+ pretty (length cache_hits) +:+ " hits loaded")
  :: List.map hit cache_hits
  ++ [done (length cache_hits)].

(** [_background_run]: without a bypass request, a non-empty cached hit
    list is replayed and the run ends; otherwise the live run follows. *)
Definition _background_run (w : world) (self : App) (sites : list string)
    (skip_cache : bool) : run :=
  let q := query self in
  match (if skip_cache then [] else load_cache (cache w) q) with
  | h :: hs => mkRun (List.map Ui (replay (h :: hs))) (cache w) (Ok ())
  | [] => live_run w self sites skip_cache
  end.

(** ** The interface's side of the queue ([_process_ui_queue]) *)

(** A line feed. *)
Definition LF : string := String "010" EmptyString.

(** What [_process_ui_queue] reads and writes of the window: the result
    list behind [Save now], the text of the results pane with the targets
    of the links inserted in it, the status line, and the two numbers of
    the progress bar. *)
Module Gui.
Record state : Type := mk {
  results : list OSINTHit;
  txt : string;
  links : list string;
  status : string;
  maximum : nat;
  value : nat }.
End Gui.

(** One message taken from the queue. *)
Definition process_message (self : Gui.state) (m : event) : Gui.state :=
  match m with
  | hit h =>
      Gui.mk (Gui.results self ++ [h])
        (Gui.txt self +:+ "[" +:+ site h +:+ "] " +:+ title h +:+ LF
                      +:+ snippet h +:+ LF +:+ url h +:+ LF +:+ LF)
        (Gui.links self ++ [url h])
        (Gui.status self) (Gui.maximum self) (Gui.value self)
  | note payload =>
      Gui.mk (Gui.results self) (Gui.txt self +:+ payload +:+ LF) (Gui.links self)
        payload (Gui.maximum self) (Gui.value self)
  | setup_progress payload =>
      Gui.mk (Gui.results self) (Gui.txt self) (Gui.links self) (Gui.status self)
        payload 0%nat
  | inc_progress payload =>
      Gui.mk (Gui.results self) (Gui.txt self) (Gui.links self) (Gui.status self)
        (Gui.maximum self) (Nat.min (Gui.maximum self) (Gui.value self + payload))
  | done payload =>
      Gui.mk (Gui.results self) (Gui.txt self) (Gui.links self)
        ("done. " +:+ pretty payload +:+ " result rows ready.")
        (Gui.maximum self) (Gui.maximum self)
  end.

(** [_process_ui_queue]: the messages waiting on the queue are taken in
    the order they were put. *)
Definition _process_ui_queue (self : Gui.state) (ui_queue : list event) : Gui.state :=
  fold_left process_message ui_queue self.

(** ** The scrapers ([scrapers.py]) *)

(** [a or b] on strings. *)
Definition str_or (a b : string) : string := if Py.truthy a then a else b.

(** More of Python's strings. *)
Module Text.
(** [s.split()]: the runs of characters between white space. *)
Fixpoint split_go (cur : string) (s : string) : list string :=
  match s with
  | EmptyString => if Py.truthy cur then [String.rev cur] else []
  | String c s' =>
      if Py.isspace c
      then (if Py.truthy cur then [String.rev cur] else []) ++ split_go EmptyString s'
      else split_go (String c cur) s'
  end.

Definition split (s : string) : list string := split_go EmptyString s.

(** [s[n:]] *)
Fixpoint drop (n : nat) (s : string) : string :=
  match n, s with
  | S n', String _ s' => drop n' s'
  | _, _ => s
  end.

(** [s.replace(old, new)] for a non-empty [old]: every occurrence, from
    the left, without overlap; [skip] counts the characters of an
    occurrence still to pass. *)
Fixpoint replace_go (old new : string) (skip : nat) (s : string) : string :=
  match s with
  | EmptyString => EmptyString
  | String c s' =>
      match skip with
      | S k => replace_go old new k s'
      | O =>
          if String.prefix old s
          then new +:+ replace_go old new (String.length old - 1) s'
          else String c (replace_go old new O s')
      end
  end.

Definition replace (old new s : string) : string := replace_go old new O s.

(** [s.split(sep)[1]] when [sep] occurs in [s]: the text between the
    first occurrence of [sep] and the next. *)
Fixpoint after (sep s : string) : string :=
  match s with
  | EmptyString => EmptyString
  | String _ s' => if String.prefix sep s then drop (String.length sep) s else after sep s'
  end.

Definition split_second (sep s : string) : string := Py.split_head sep (after sep s).
End Text.

(** What the scrapers read of a [requests.Response]. *)
Record response : Type := mkResponse {
  status_code : Z;
  text : string }.

(** The two fetch helpers, and the plain [sess.get] of the breach
    lookup. *)
Inductive fetcher : Type := Fetch | HeadOrGet | SessionGet.

(** A computation that fetches pages: it is given the fetches made so
    far, returns or raises, and leaves the fetches it made added at the
    end. *)
Definition Net (A : Type) : Type :=
  list (fetcher * string) → result A * list (fetcher * string).

Global Instance net_ret : MRet Net := λ A a log, (Ok a, log).
Global Instance net_bind : MBind Net := λ A B k m log,
  match m log with
  | (Ok a, log') => k a log'
  | (Raise e, log') => (Raise e, log')
  end.

(** [try: body / except Exception: handler] *)
Definition net_try {A} (body : Net A) (handler : exn → Net A) : Net A := λ log,
  match body log with
  | (Ok a, log') => (Ok a, log')
  | (Raise e, log') => handler e log'
  end.

Definition net_lift {A} (r : result A) : Net A := λ log, (r, log).

(** [_looks_js_blocked] *)
Definition _looks_js_blocked (html : string) : bool :=
  let s := Py.lower html in
  existsb (λ k, Py.str_in k s)
    [ "enable javascript"; "requires javascript"; "please enable js";
      "captcha"; "cf-chl"; "cloudflare"; "challenge-form" ].

(** [_mk_negative]; [code] is [None] where the source passes Python's
    [None]. *)
Definition _mk_negative (s link reason : string) (code : option Z) : OSINTHit :=
  let snip :=
    reason +:+ match code with
               | Some n => if n =? 0 then EmptyString else " (HTTP " +:+ pretty n +:+ ")"
               | None => EmptyString
               end in
  mkHit s (s +:+ ": not found") snip link
    [ ("exists", JBool false); ("reason", JStr reason);
      ("code", match code with Some n => JInt n | None => JNull end) ].

(** [_norm_user_for] *)
Definition _norm_user_for (service u : string) : string :=
  if negb (Py.truthy u) then u
  else if Py.mem service
            [ "SoundCloud"; "Dev.to"; "ProductHunt"; "Behance"; "Flickr"; "Kaggle";
              "Keybase"; "GitLab"; "Medium"; "Pinterest"; "Twitch"; "Instagram";
              "Twitter/X" ]
       then Py.lower u
  else if String.eqb service "YouTube" then Py.lower u
  else u.

(** The services of the username pack: name, address of the profile of
    a user, pattern to look for, and whether the pattern must be found. *)
Record service : Type := mkService {
  service_name : string;
  url_fn : string → string;
  verify_re : string;
  must_contain : bool }.

Section scrapers.
(** What lies outside the file: the outcome of each fetch, given the
    fetches made before it; the environment; and the library calls on
    regular expressions and format strings. *)
Variable answer : list (fetcher * string) → fetcher * string → result response.
Variable environ : string → option string.
(** [re.search(pattern, s, flags=re.I)] finds a match. *)
Variable re_search : string → string → bool.
Variable re_escape : string → string.
(** The first group of the title pattern in a page, if it matches. *)
Variable title_group : string → option string.
(** [re.sub(r"\s+", " ", s)] *)
Variable collapse_spaces : string → string.
(** [tmpl.format] with its keyword arguments *)
Variable format : string → list (string * string) → result string.
(** The breach records of an account, as hits, from the reply of the
    service. *)
Variable breaches : string → response → result (list OSINTHit).

Definition fetch (f : fetcher) (link : string) : Net response := λ log,
  (answer log (f, link), log ++ [(f, link)]).

Definition _fetch (link : string) : Net response := fetch Fetch link.
Definition _head_or_get (link : string) : Net response := fetch HeadOrGet link.

(** The tokens a probed page is searched for. *)
Definition probe_tokens (q : OSINTQuery) : list string :=
  tok_if (Query.username q) (Py.lower (Query.username q))
  ++ (if Py.truthy (Query.full_name q)
      then List.map Py.lower (filter (λ p, Py.truthy p = true) (Text.split (Query.full_name q)))
      else [])
  ++ tok_if (Query.email q) (Py.lower (Query.email q))
  ++ (if Py.truthy (Query.phone q)
      then tok_if (digits_only (Query.phone q)) (digits_only (Query.phone q))
      else []).

Definition probe_kwargs (q : OSINTQuery) : list (string * string) :=
  [ ("username", quote_plus (Query.username q)); ("first", quote_plus (Query.first q));
    ("last", quote_plus (Query.last q)); ("email", quote_plus (Query.email q));
    ("phone", quote_plus (digits_only (Query.phone q))) ].

(** Whether the page fetched for a probe counts as a hit. *)
Definition probe_found (q : OSINTQuery) (tokens : list string) (body : string) : bool :=
  let body_lower := Py.lower body in
  let found := existsb (λ tok, Py.truthy tok && Py.str_in tok body_lower) tokens in
  let title :=
    match title_group body with
    | Some g => Py.lower (Py.strip g)
    | None => EmptyString
    end in
  found || (Py.truthy (Query.username q) && Py.str_in (Py.lower (Query.username q)) title).

Definition probe_hit (base_site link body : string) : OSINTHit :=
  mkHit base_site ("probe → " +:+ link) (Py.take 300 (collapse_spaces body)) link
    [("probed", JBool true)].

(** The loop of [probe_site_for_terms] over the probes left, with the
    hits so far. *)
Fixpoint probe_loop (base_site : string) (q : OSINTQuery) (tokens : list string)
    (max_hits : Z) (probes : list string) (hits : list OSINTHit) : Net (list OSINTHit) :=
  match probes with
  | [] => mret hits
  | tmpl :: probes' =>
      link ← net_lift (format tmpl (probe_kwargs q));
      found ← net_try
        (r ← _fetch link;
         if (400 <=? status_code r) || negb (Py.truthy (text r)) then mret None
         else if probe_found q tokens (text r)
              then mret (Some (probe_hit base_site link (text r)))
         else mret None)
        (λ _, mret None);
      match found with
      | Some h =>
          if max_hits <=? Z.of_nat (length (hits ++ [h])) then mret (hits ++ [h])
          else probe_loop base_site q tokens max_hits probes' (hits ++ [h])
      | None => probe_loop base_site q tokens max_hits probes' hits
      end
  end.

Definition probe_site_for_terms (base_site : string) (q : OSINTQuery)
    (probes : list string) (max_hits : Z) : Net (list OSINTHit) :=
  match probe_tokens q with
  | [] => mret []
  | tokens => probe_loop base_site q tokens max_hits probes []
  end.

(** *** The username pack *)

Definition services (u_input : string) : list service :=
  [ mkService "GitHub" (λ u, "https://github.com/" +:+ u) "<title>[^<]*?github[^<]*" true;
    mkService "Reddit" (λ u, "https://www.reddit.com/user/" +:+ u) "/user/[^/]+" true;
    mkService "TikTok" (λ u, "https://www.tiktok.com/@" +:+ u)
      ("@" +:+ re_escape (Py.lower u_input)) true;
    mkService "Twitch" (λ u, "https://www.twitch.tv/" +:+ u) "twitch" false;
    mkService "Pinterest" (λ u, "https://www.pinterest.com/" +:+ u +:+ "/") "pinterest" false;
    mkService "Steam" (λ u, "https://steamcommunity.com/id/" +:+ u) "steam" false;
    mkService "Steam (prof)" (λ u, "https://steamcommunity.com/profiles/" +:+ u) "steam" false;
    mkService "SoundCloud" (λ u, "https://soundcloud.com/" +:+ u) "soundcloud" false;
    mkService "Medium" (λ u, "https://medium.com/@" +:+ u) "medium" false;
    mkService "Dev.to" (λ u, "https://dev.to/" +:+ u) "dev\.to" false;
    mkService "Keybase" (λ u, "https://keybase.io/" +:+ u) "keybase" false;
    mkService "GitLab" (λ u, "https://gitlab.com/" +:+ u) "gitlab" false;
    mkService "Kaggle" (λ u, "https://www.kaggle.com/" +:+ u) "kaggle" false;
    mkService "Flickr" (λ u, "https://www.flickr.com/people/" +:+ u +:+ "/") "flickr" false;
    mkService "Gravatar" (λ u, "https://en.gravatar.com/" +:+ u) "gravatar" false;
    mkService "YouTube" (λ u, "https://www.youtube.com/@" +:+ u) "youtube" false;
    mkService "Behance" (λ u, "https://www.behance.net/" +:+ u) "behance" false;
    mkService "ProductHunt" (λ u, "https://www.producthunt.com/@" +:+ u)
      "product hunt|producthunt" false;
    mkService "HackerNews" (λ u, "https://news.ycombinator.com/user?id=" +:+ u)
      "created|about:" false;
    mkService "StackOverflow" (λ u, "https://stackoverflow.com/users/" +:+ u)
      "profile|Stack Overflow" false;
    mkService "Instagram" (λ u, "https://www.instagram.com/" +:+ u +:+ "/") "instagram" false;
    mkService "Twitter/X" (λ u, "https://x.com/" +:+ u) "x\.com|twitter" false;
    mkService "Facebook" (λ u, "https://www.facebook.com/" +:+ u) "facebook" false;
    mkService "LinkedIn" (λ u, "https://www.linkedin.com/in/" +:+ u +:+ "/") "linkedin" false ].

Definition found_hit (name snip link : string) (code : Z) : OSINTHit :=
  mkHit name (name +:+ ": found") snip link [("exists", JBool true); ("code", JInt code)].

(** The body of the [try] for one service: the hit it appends, and
    whether it counts as a positive. *)
Definition check_service (u_input : string) (sv : service) : Net (OSINTHit * bool) :=
  let name := service_name sv in
  let link := url_fn sv (_norm_user_for name u_input) in
  r ← _head_or_get link;
  let code := status_code r in
  if code =? 200 then
    let body := Py.lower (text r) in
    let ok := if must_contain sv then re_search (verify_re sv) body else true in
    if ok then
      mret (found_hit name
              (if Py.truthy body then Py.take 220 (collapse_spaces body) else EmptyString)
              link code, true)
    else mret (_mk_negative name link "page loaded but pattern not found" (Some code), false)
  else if bool_decide (code ∈ [301; 302; 303; 307; 308]) then
    r2 ← _fetch link;
    let body := Py.lower (text r2) in
    let ok := (status_code r2 <? 400)
              && (negb (must_contain sv) || re_search (verify_re sv) body) in
    if ok then
      mret (found_hit name (Py.take 220 (collapse_spaces body)) link (status_code r2), true)
    else mret (_mk_negative name link "redirect but no profile" (Some (status_code r2)), false)
  else if code =? 404 then mret (_mk_negative name link "not found" (Some 404), false)
  else mret (_mk_negative name link "request failed" (Some code), false).

(** The loop over the services left, with the hits and the number of
    positives so far; it stops after the eighth positive. *)
Fixpoint pack_loop (u_input : string) (svs : list service) (hits : list OSINTHit)
    (positives : Z) : Net (list OSINTHit * Z) :=
  match svs with
  | [] => mret (hits, positives)
  | sv :: svs' =>
      '(h, positive) ← net_try (check_service u_input sv)
             (λ _, mret (_mk_negative (service_name sv) (url_fn sv u_input) "error" None,
                         false));
      let hits' := hits ++ [h] in
      let positives' := if positive : bool then positives + 1 else positives in
      if 8 <=? positives' then mret (hits', positives')
      else pack_loop u_input svs' hits' positives'
  end.

(** The truth value of a value of a [raw] dictionary. *)
Definition json_truthy (v : json) : bool :=
  match v with
  | JNull => false
  | JBool b => b
  | JInt z => negb (z =? 0)
  | JStr s => Py.truthy s
  | JList l => match l with [] => false | _ => true end
  | JDict d => match d with [] => false | _ => true end
  end.

(** [h.raw.get("exists")] as a condition. *)
Definition exists_flag (h : OSINTHit) : bool :=
  match dict_get "exists" (raw h) with
  | Some v => json_truthy v
  | None => false
  end.

Definition scrape_username_pack (q : OSINTQuery) : Net (list OSINTHit) :=
  if negb (Py.truthy (Query.username q)) then mret []
  else
    let u_input := Query.username q in
    '(hits, positives) ← pack_loop u_input (services u_input) [] 0;
    if positives =? 0 then
      mret (mkHit "Username Pack (direct)" ("No matches for @" +:+ u_input)
              "Checked major platforms" "#" [("exists", JBool false)] :: hits)
    else
      mret (mkHit "Username Pack (direct)"
              (pretty positives +:+ " service(s) matched for @" +:+ u_input)
              (Py.take 300 (Py.join "; " (List.map site (filter (λ h, exists_flag h = true) hits))))
              "#" [("exists", JBool true); ("count", JInt positives)] :: hits).

(** *** The scrapers of the sites *)

(** [if cond: probes.append(p)] *)
Definition probe_if (cond : bool) (p : string) : list string := if cond then [p] else [].

Definition scrape_hibp (q : OSINTQuery) : Net (list OSINTHit) :=
  let api := Py.strip (default EmptyString (environ "HIBP_API_KEY")) in
  let acct := Py.strip (str_or (Query.email q) (str_or (Query.username q) EmptyString)) in
  if negb (Py.truthy api) || negb (Py.truthy acct) then mret []
  else
    let link := "https://haveibeenpwned.com/api/v3/breachedaccount/" +:+ quote_plus acct
                +:+ "?truncateResponse=true" in
    net_try
      (r ← fetch SessionGet link;
       if status_code r =? 404 then mret []
       else if 400 <=? status_code r then mret []
       else net_lift (breaches acct r))
      (λ _, mret []).

Definition scrape_idcrawl (q : OSINTQuery) : Net (list OSINTHit) :=
  if negb (Py.truthy (Query.username q)) then mret []
  else
    let u := quote_plus (Query.username q) in
    probe_site_for_terms "IDcrawl" q
      [ "https://idcrawl.com/username-search/" +:+ u;
        "https://idcrawl.com/username-search?username=" +:+ u;
        "https://idcrawl.com/search/?q=" +:+ u ] 3.

Definition scrape_usersearch_org (q : OSINTQuery) : Net (list OSINTHit) :=
  if negb (Py.truthy (Query.username q)) then mret []
  else
    let u := quote_plus (Query.username q) in
    probe_site_for_terms "Username Search" q
      [ "https://usersearch.org/results/?username=" +:+ u;
        "https://usersearch.org/search/" +:+ u ] 2.

Definition scrape_social_searcher (q : OSINTQuery) : Net (list OSINTHit) :=
  let term := Py.strip (str_or (Query.username q)
                          (str_or (Query.full_name q) (str_or (Query.email q) EmptyString))) in
  if negb (Py.truthy term) then mret []
  else
    probe_site_for_terms "Social Searcher" q
      [ "https://social-searcher.com/social-search/?q=" +:+ quote_plus term;
        "https://social-searcher.com/reports?query=" +:+ quote_plus term ] 2.

Definition scrape_peekyou (q : OSINTQuery) : Net (list OSINTHit) :=
  probe_site_for_terms "PeekYou" q
    (probe_if (Py.truthy (Query.username q))
       ("https://www.peekyou.com/" +:+ quote_plus (Query.username q))
     ++ probe_if (Py.truthy (Query.full_name q))
          ("https://www.peekyou.com/usa/" +:+ quote_plus (Query.full_name q))) 2.

Definition scrape_instantusername (q : OSINTQuery) : Net (list OSINTHit) :=
  if negb (Py.truthy (Query.username q)) then mret []
  else
    probe_site_for_terms "instant username search" q
      [ "https://instantusername.com/#/" +:+ quote_plus (Query.username q) ] 1.

Definition scrape_usphonebook (q : OSINTQuery) : Net (list OSINTHit) :=
  if negb (Py.truthy (Query.phone q)) then mret []
  else
    let d := digits_only (Query.phone q) in
    if negb (Py.truthy d) then mret []
    else
      probe_site_for_terms "USPhoneBook" q
        [ "https://www.usphonebook.com/" +:+ d;
          "https://www.usphonebook.com/search?number=" +:+ d ] 2.

Definition scrape_whocallsme (q : OSINTQuery) : Net (list OSINTHit) :=
  if negb (Py.truthy (Query.phone q)) then mret []
  else
    let d := digits_only (Query.phone q) in
    if negb (Py.truthy d) then mret []
    else
      probe_site_for_terms "WhoCallsMe" q
        [ "https://whocallsme.com/Phone-Number.aspx/" +:+ d ] 1.

Definition scrape_familytreenow (q : OSINTQuery) : Net (list OSINTHit) :=
  if negb (Py.truthy (Query.first q) || Py.truthy (Query.last q)) then mret []
  else
    probe_site_for_terms "FamilyTreeNow" q
      [ "https://www.familytreenow.com/search/genealogy/results?"
        +:+ "first=" +:+ quote_plus (Query.first q) +:+ "&last=" +:+ quote_plus (Query.last q)
        +:+ "&city=" +:+ quote_plus (Query.city q) +:+ "&state=" +:+ quote_plus (Query.state q) ]
      1.

(** The digits of the phone number, when the field holds any. *)
Definition phone_probe (q : OSINTQuery) (before after_ : string) : list string :=
  if Py.truthy (Query.phone q)
  then probe_if (Py.truthy (digits_only (Query.phone q)))
         (before +:+ digits_only (Query.phone q) +:+ after_)
  else [].

Definition scrape_fastpeoplesearch (q : OSINTQuery) : Net (list OSINTHit) :=
  probe_site_for_terms "FastPeopleSearch" q
    (probe_if (Py.truthy (Query.first q) || Py.truthy (Query.last q)
               || Py.truthy (Query.city q) || Py.truthy (Query.state q))
       ("https://www.fastpeoplesearch.com/name/"
        +:+ Text.replace "%20" "-" (quote_plus (Py.strip (Query.first q +:+ " " +:+ Query.last q)))
        +:+ "/"
        +:+ quote_plus (Py.strip (str_or (Query.city q) (str_or (Query.state q) EmptyString))))
     ++ probe_if (Py.truthy (Query.address1 q))
          ("https://www.fastpeoplesearch.com/address/" +:+ quote_plus (Query.address1 q))
     ++ phone_probe q "https://www.fastpeoplesearch.com/phone/" EmptyString) 2.

Definition scrape_truepeoplesearch (q : OSINTQuery) : Net (list OSINTHit) :=
  probe_site_for_terms "TruePeopleSearch" q
    (probe_if (Py.truthy (Query.first q) || Py.truthy (Query.last q))
       ("https://www.truepeoplesearch.com/results?"
        +:+ "name=" +:+ quote_plus (Py.strip (Query.first q +:+ " " +:+ Query.last q))
        +:+ "&citystatezip="
        +:+ quote_plus (Py.strip (str_or (Query.city q)
                                    (str_or (Query.state q) (str_or (Query.zip q) EmptyString)))))
     ++ phone_probe q "https://www.truepeoplesearch.com/results?phoneno=" EmptyString
     ++ probe_if (Py.truthy (Query.address1 q))
          ("https://www.truepeoplesearch.com/results?"
           +:+ "streetaddress=" +:+ quote_plus (Query.address1 q) +:+ "&citystatezip="
           +:+ quote_plus (str_or (Query.city q) (str_or (Query.state q) (Query.zip q))))) 2.

Definition scrape_truepeoplesearch_io (q : OSINTQuery) : Net (list OSINTHit) :=
  probe_site_for_terms "TruePeopleSearch.io" q
    (probe_if (Py.truthy (Query.first q) || Py.truthy (Query.last q))
       ("https://truepeoplesearch.io/search?"
        +:+ "name=" +:+ quote_plus (Py.strip (Query.first q +:+ " " +:+ Query.last q))
        +:+ "&state=" +:+ quote_plus (Query.state q))
     ++ phone_probe q "https://truepeoplesearch.io/phone/" EmptyString) 2.

Definition scrape_fastbackgroundcheck (q : OSINTQuery) : Net (list OSINTHit) :=
  probe_site_for_terms "FastBackgroundCheck" q
    (probe_if (Py.truthy (Query.first q) || Py.truthy (Query.last q))
       ("https://www.fastbackgroundcheck.com/people/"
        +:+ quote_plus (Py.strip (Query.first q +:+ "-" +:+ Query.last q)) +:+ "/"
        +:+ quote_plus (Py.lower (Query.state q)))) 1.

Definition scrape_zabasearch (q : OSINTQuery) : Net (list OSINTHit) :=
  probe_site_for_terms "ZabaSearch" q
    (probe_if (Py.truthy (Query.first q) || Py.truthy (Query.last q))
       ("https://www.zabasearch.com/people/"
        +:+ quote_plus (Py.strip (Query.first q +:+ " " +:+ Query.last q)) +:+ "/"
        +:+ quote_plus (Query.state q) +:+ "/")
     ++ phone_probe q "https://www.zabasearch.com/phone/" "/") 2.

Definition scrape_radaris (q : OSINTQuery) : Net (list OSINTHit) :=
  probe_site_for_terms "Radaris" q
    (probe_if (Py.truthy (Query.first q) || Py.truthy (Query.last q))
       ("https://radaris.com/p/" +:+ quote_plus (Query.first q) +:+ "/"
        +:+ quote_plus (Query.last q))
     ++ probe_if (Py.truthy (Query.username q))
          ("https://radaris.com/p/" +:+ quote_plus (Query.username q))) 1.

Definition scrape_thatsthem (q : OSINTQuery) : Net (list OSINTHit) :=
  probe_site_for_terms "That’sThem" q
    (probe_if (Py.truthy (Query.email q))
       ("https://thatsthem.com/email/" +:+ quote_plus (Query.email q))
     ++ phone_probe q "https://thatsthem.com/phone/" EmptyString
     ++ probe_if (Py.truthy (Query.address1 q))
          ("https://thatsthem.com/address/" +:+ quote_plus (Query.address1 q) +:+ "-"
           +:+ quote_plus (Query.city q) +:+ "-" +:+ quote_plus (Query.state q))) 2.

Definition scrape_emailhippo (q : OSINTQuery) : Net (list OSINTHit) :=
  if negb (Py.truthy (Query.email q)) then mret []
  else
    probe_site_for_terms "EmailHippo" q
      [ "https://tools.emailhippo.com/EmailHippo/verify?email=" +:+ quote_plus (Query.email q) ]
      1.

Definition scrape_hunter (q : OSINTQuery) : Net (list OSINTHit) :=
  let domain :=
    if Py.truthy (Query.email q) && Py.str_in "@" (Query.email q)
    then Text.split_second "@" (Query.email q) else EmptyString in
  probe_site_for_terms "Hunter.io" q
    (probe_if (Py.truthy (Query.email q))
       ("https://hunter.io/verify/" +:+ quote_plus (Query.email q))
     ++ probe_if (Py.truthy domain) ("https://hunter.io/try/" +:+ quote_plus domain)) 1.

Definition scrape_blackbookonline (q : OSINTQuery) : Net (list OSINTHit) :=
  let term := str_or (Query.username q) (str_or (Query.full_name q)
                (str_or (Query.email q) (str_or (Query.phone q) (Query.address1 q)))) in
  if negb (Py.truthy term) then mret []
  else
    probe_site_for_terms "BlackBookOnline" q
      [ "https://www.blackbookonline.info/Search.aspx?kw=" +:+ quote_plus term ] 1.

Definition scrape_dataaxle (q : OSINTQuery) : Net (list OSINTHit) :=
  let term := str_or (Query.username q) (str_or (Query.full_name q) (Query.email q)) in
  if negb (Py.truthy term) then mret []
  else
    probe_site_for_terms "DataAxle Reference" q
      [ "https://www.referenceusa.com/Search/QuickSearch?search=" +:+ quote_plus term ] 1.

(** [SCRAPERS], in the order of registration. *)
Definition REGISTRY : list (string * (OSINTQuery → Net (list OSINTHit))) :=
  [ ("Username Pack (direct)", scrape_username_pack);
    ("HaveIBeenPwned", scrape_hibp);
    ("IDcrawl", scrape_idcrawl);
    ("Username Search", scrape_usersearch_org);
    ("Social Searcher", scrape_social_searcher);
    ("PeekYou", scrape_peekyou);
    ("instant username search", scrape_instantusername);
    ("USPhoneBook", scrape_usphonebook);
    ("WhoCallsMe", scrape_whocallsme);
    ("FamilyTreeNow", scrape_familytreenow);
    ("FastPeopleSearch", scrape_fastpeoplesearch);
    ("TruePeopleSearch", scrape_truepeoplesearch);
    ("TruePeopleSearch.io", scrape_truepeoplesearch_io);
    ("FastBackgroundCheck", scrape_fastbackgroundcheck);
    ("ZabaSearch", scrape_zabasearch);
    ("Radaris", scrape_radaris);
    ("That’sThem", scrape_thatsthem);
    ("EmailHippo", scrape_emailhippo);
    ("Hunter.io", scrape_hunter);
    ("BlackBookOnline", scrape_blackbookonline);
    ("DataAxle Reference", scrape_dataaxle) ].
End scrapers.

(** A registered function as [run_scraper] calls it: on a session, from
    no fetch made, ending after [elapsed] time units. *)
Definition as_scraper (elapsed : OSINTQuery → Z)
    (fn : OSINTQuery → Net (list OSINTHit)) : Scraper := λ _ q,
  mkCall (elapsed q)
    match (fn q []).1 with
    | Ok hits => Ok (Some hits)
    | Raise e => Raise e
    end.

(** [SCRAPERS] as a dictionary; [clock] gives the time that the call for
    a site takes.  A later registration of a name replaces an earlier
    one. *)
Definition SCRAPERS_py (clock : string → OSINTQuery → Z)
    (registry : list (string * (OSINTQuery → Net (list OSINTHit)))) : gmap string Scraper :=
  list_to_map (reverse (List.map (λ nf, (nf.1, as_scraper (clock nf.1) nf.2)) registry)).

(** ** Vocabulary of the properties *)

(** The nine fields, read and assigned by name. *)
Module Field.
Inductive t : Type :=
  First | Last | Username | Email | Phone | Address1 | City | State | Zip.

Definition get (f : t) (q : OSINTQuery) : string :=
  match f with
  | First => Query.first q | Last => Query.last q | Username => Query.username q
  | Email => Query.email q | Phone => Query.phone q | Address1 => Query.address1 q
  | City => Query.city q | State => Query.state q | Zip => Query.zip q
  end.

(** [q.f = v] *)
Definition set (f : t) (v : string) (q : OSINTQuery) : OSINTQuery :=
  let '(Query.mk a b c d e g h i j) := q in
  match f with
  | First => Query.mk v b c d e g h i j | Last => Query.mk a v c d e g h i j
  | Username => Query.mk a b v d e g h i j | Email => Query.mk a b c v e g h i j
  | Phone => Query.mk a b c d v g h i j | Address1 => Query.mk a b c d e v h i j
  | City => Query.mk a b c d e g v i j | State => Query.mk a b c d e g h v j
  | Zip => Query.mk a b c d e g h i v
  end.

(** A query built by assigning fields one after the other. *)
Definition assign (l : list (t * string)) (q : OSINTQuery) : OSINTQuery :=
  fold_left (λ q fv, set fv.1 fv.2 q) l q.
End Field.

Definition is_priority (s : string) : Prop := s ∈ PRIORITY_SITES.

(** A stable partition of the input by priority: what the dispatch order
    would be if both partitions kept the order of the input. *)
Definition stable_partition (sites : list string) : list string :=
  filter is_priority sites ++ filter (λ s, ¬ is_priority s) sites.

(** A scraper that raises after one time unit. *)
Definition raising (e : exn) : Scraper := λ _ _, mkCall 1 (Raise e).

Definition timeout_tagged (h : OSINTHit) : Prop :=
  dict_get "timeout" (raw h) = Some (JBool true).

Definition fallback_kind (h : OSINTHit) : option json := dict_get "fallback" (raw h).

Definition error_marker (h : OSINTHit) : option json := dict_get "error" (raw h).

(** A scraper that returns nothing after [n] time units. *)
Definition slow (n : Z) : Scraper := λ _ _, mkCall n (Ok (Some [])).

Definition sample_world (R : gmap string Scraper) : world :=
  mkWorld (mkDisk ∅ true) (datasets_py (λ _ _, []) (λ _ _, [])) R (Ok Session)
          (λ l, l) "2025-01-01_000000" true.

(** [needle] occurs in [hay]. *)
Definition occurs_in (needle hay : string) : Prop :=
  ∃ pre post, hay = pre +:+ needle +:+ post.

(** A query with a username only, and the dataset module of the
    repository without network results. *)
Definition query_alice : OSINTQuery := Query.mk "" "" "alice" "" "" "" "" "" "".

Definition datasets_offline : datasets_module := datasets_py (λ _ _, []) (λ _ _, []).

Definition app_empty : App := mkApp Query.default 16 12 "DuckDuckGo".

(** A first run of the empty query over one site, from an empty cache,
    and the world it leaves behind. *)
Definition first_run : run :=
  _background_run (sample_world ∅) app_empty ["FamilyTreeNow"] false.

Definition second_world : world :=
  mkWorld (cache_after first_run) datasets_offline ∅ (Ok Session) (λ l, l)
          "2025-01-01_000100" true.

(** The text written for one character of a string literal. *)
Definition escape1 (c : ascii) : string :=
  match Json.escape_low c with
  | Some e => e
  | None => String c EmptyString
  end.

(** What follows a value in a written document: nothing, a comma, or a
    line break. *)
Definition delimited (rest : string) : Prop :=
  rest = EmptyString ∨ ∃ t, rest = String "," t ∨ rest = String "010" t.

(** A document is well formed when no dictionary in it holds a key
    twice, as in every Python [dict]. *)
Fixpoint wf (v : json) : Prop :=
  match v with
  | JList l =>
      (fix all (l : list json) : Prop :=
         match l with [] => True | x :: l' => wf x ∧ all l' end) l
  | JDict d =>
      NoDup (List.map fst d)
      ∧ (fix all (d : list (string * json)) : Prop :=
           match d with [] => True | kv :: d' => wf kv.2 ∧ all d' end) d
  | _ => True
  end.

(** The fuel that reading a document back takes. *)
Fixpoint need (v : json) : nat :=
  match v with
  | JList l => S (list_sum (List.map (λ x, S (need x)) l))
  | JDict d => S (list_sum (List.map (λ kv : string * json, S (need kv.2)) d))
  | _ => 1
  end.

(** The writer of the cache files: [indent=2], keys in insertion order,
    text beyond ASCII kept as it is. *)
Abbreviation written := (Json.dumps_at false false (Some 2%nat)).
Abbreviation nl := (Json.newline_indent (Some 2%nat)).

(** A character that starts a written value: not white space, and not a
    closing bracket. *)
Definition starts_value (c : ascii) : Prop :=
  Json.is_ws c = false ∧ (Json.code c =? 93) = false ∧ (Json.code c =? 125) = false.

(** The items of a written list or dictionary, from the first item to
    the closing bracket [close]. *)
Fixpoint seq_text (close : string) (level : nat) (items : list string) (rest : string)
    : string :=
  match items with
  | [] => rest
  | x :: items' =>
      match items' with
      | [] => x +:+ nl level +:+ close +:+ rest
      | _ => x +:+ "," +:+ nl (S level) +:+ seq_text close level items' rest
      end
  end.

(** Reading back what was written for [v], whatever follows it. *)
Definition reads_back (v : json) : Prop :=
  ∀ (level fuel : nat) (rest : string),
    wf v → (need v ≤ fuel)%nat → delimited rest →
    Json.parse_value fuel (written level v +:+ rest) = Some (v, rest).

(** A written member of a dictionary. *)
Definition member_text (level : nat) (kv : string * json) : string :=
  Json.encode_string false kv.1 +:+ ": " +:+ written (S level) kv.2.

(** The raw metadata of a hit is a dictionary: no key twice, at any
    depth. *)
Definition wf_hit (h : OSINTHit) : Prop := wf (JDict (raw h)).

Definition sample_hits : list OSINTHit :=
  [ mkHit "GitHub" "GitHub: found" "alice (Alice) · GitHub" "https://github.com/alice"
      [("exists", JBool true); ("code", JInt 200)];
    mkHit "FamilyTreeNow" "FamilyTreeNow (timeout→dork)" "Timed out after 12s"
      "https://duckduckgo.com/?q=site%3Afamilytreenow.com"
      [("timeout", JBool true); ("fallback", JStr "dork")] ].

(** A text with no white space at either end. *)
Definition trimmed (s : string) : Prop :=
  Py.lstrip s = s ∧ Py.lstrip (String.rev s) = String.rev s.

(** The characters of the query part of a link: letters, digits, the
    marks [_.-~], and the [+] and [%] that [quote_plus] writes. *)
Definition query_char (c : ascii) : bool :=
  let n := nat_of_ascii c in
  ((48 <=? n) && (n <=? 57) || (65 <=? n) && (n <=? 90)
   || (97 <=? n) && (n <=? 122) || (n =? 95) || (n =? 46) || (n =? 45)
   || (n =? 126) || (n =? 43) || (n =? 37))%nat.

Definition query_text (s : string) : Prop :=
  Forall (λ c, query_char c = true) (list_ascii_of_string s).

(** A stored record that [OSINTHit] refuses: no dictionary, or a
    dictionary that lacks a field or holds a key too many. *)
Definition malformed (x : json) : Prop :=
  match x with
  | JDict d =>
      length d ≠ 5%nat
      ∨ ∃ k, k ∈ ["site"; "title"; "snippet"; "url"; "raw"] ∧ dict_get k d = None
  | _ => True
  end.

(** A lower-case hexadecimal digit. *)
Definition hex_lower (c : ascii) : bool :=
  let n := nat_of_ascii c in
  ((48 <=? n) && (n <=? 57) || (97 <=? n) && (n <=? 102))%nat.

(** The run is not answered from the cache: a bypass was requested, or
    the cache holds no hit for the query. *)
Definition runs_live (w : world) (self : App) (skip_cache : bool) : Prop :=
  skip_cache = true ∨ load_cache (cache w) (query self) = [].

(** The hits that a run put on the queue, in order. *)
Definition shown (r : run) : list OSINTHit := hits_of (ui_events (trace r)).

(** The part of a live run that the worker pool produces: nothing when
    the prefilter left no site. *)
Definition pool_trace (w : world) (self : App) (sites : list string) : list effect :=
  let q := query self in
  let ordered := ordered_sites sites in
  match sites_to_scrape ordered (satisfied_sites (dataset_prefilter (DATASETS w) q ordered).1) with
  | [] => []
  | to_scrape =>
      scheduler w q (engine_guard (engine_var self))
        (Z.max 2 (Z.min 40 (threads_var self))) (Z.max 3 (timeout_var self)) to_scrape
  end.

(** A dataset module whose batch entry point raises. *)
Definition datasets_failing (msg : string) : datasets_module :=
  mkDatasets None (λ _ _, Raise (Exception msg)).

(** A query that names no person, account or number: no name, user
    name or e-mail address, and no digit in the phone field. *)
Definition anonymous (q : OSINTQuery) : Prop :=
  Query.full_name q = EmptyString ∧ Query.username q = EmptyString
  ∧ Query.email q = EmptyString ∧ digits_only (Query.phone q) = EmptyString.

(** The fetches made with [_head_or_get]. *)
Definition head_fetches (log : list (fetcher * string)) : list (fetcher * string) :=
  filter (λ f, match f.1 with HeadOrGet => true | _ => false end = true) log.

(** The rows of the username pack that report an account. *)
Definition positive_rows (rows : list OSINTHit) : list OSINTHit :=
  filter (λ h, exists_flag h = true) rows.

(** A query with an address only, and a network that answers nothing. *)
Definition query_address : OSINTQuery := Query.mk "" "" "" "" "" "12 Main St" "Reno" "NV" "".

Definition no_answer : list (fetcher * string) → fetcher * string → result response :=
  λ _ _, Raise (Exception "offline").

(** A row that stands in for a scraper that found nothing: a link to the
    site or to a search, with no mark of a timeout or of an error. *)
Definition plain_fallback (h : OSINTHit) : Prop :=
  (raw h = [("fallback", JStr "home")] ∨ raw h = [("fallback", JStr "dork")]).

(** A world whose scrapers are those of the repository on a network that
    answers nothing. *)
Definition registry_offline : list (string * (OSINTQuery → Net (list OSINTHit))) :=
  REGISTRY no_answer (λ _, None) (λ _ _, false) (λ u, u) (λ _, None) (λ b, b)
    (λ t _, Ok t) (λ _ _, Ok []).

Definition world_offline : world :=
  mkWorld (mkDisk ∅ true) datasets_offline (SCRAPERS_py (λ _ _, 0) registry_offline)
    (Ok Session) (λ l, l) "2025-01-01_000000" true.

(** The tasks handed to the pool, with their budgets, and the widths of
    the pools opened. *)
Definition submitted (tr : list effect) : list (string * Z) :=
  omap (λ e, match e with Submit s t => Some (s, t) | _ => None end) tr.

Definition pools (tr : list effect) : list Z :=
  omap (λ e, match e with Pool n => Some n | _ => None end) tr.

(** * Properties *)

(** ** Dispatch order *)

Lemma elem_of_prioritized (sites : list string) (s : string) :
  s ∈ prioritized sites ↔ s ∈ PRIORITY_SITES ∧ s ∈ sites.
Proof. unfold prioritized. by rewrite list_elem_of_filter, (comm and). Qed.

(** Two filters agree on a list when their tests agree on its
    elements. *)
Lemma filter_ext_elem {A} (P Q : A → Prop) `{!∀ x, Decision (P x), !∀ x, Decision (Q x)}
    (l : list A) :
  (∀ x, x ∈ l → (P x ↔ Q x)) → filter P l = filter Q l.
Proof.
  induction l as [|a l IH]; intros Hl; [done|].
  rewrite !filter_cons, IH by (intros x Hx; apply Hl; by right).
  destruct (decide (P a)) as [Hp|Hp], (decide (Q a)) as [Hq|Hq]; try done;
    destruct (Hl a ltac:(by left)); tauto.
Qed.

Lemma remaining_filter (sites : list string) :
  remaining sites = filter (λ s, ¬ is_priority s) sites.
Proof.
  unfold remaining. apply filter_ext_elem.
  intros s Hs. rewrite elem_of_prioritized. unfold is_priority. tauto.
Qed.

Lemma prioritized_priority (sites : list string) :
  Forall is_priority (prioritized sites).
Proof.
  apply Forall_forall. intros s Hs. apply elem_of_prioritized in Hs. apply Hs.
Qed.

Lemma remaining_not_priority (sites : list string) :
  Forall (λ s, ¬ is_priority s) (remaining sites).
Proof.
  rewrite remaining_filter. apply Forall_forall. intros s Hs.
  by apply list_elem_of_filter in Hs as [? _].
Qed.

(** In a list made of a block [l1] satisfying [P] and a block [l2]
    refuting it, the elements satisfying [P] come first. *)
Lemma blocks_ordered {A} (P : A → Prop) (l1 l2 : list A) (i j : nat) (a b : A) :
  Forall P l1 → Forall (λ x, ¬ P x) l2 →
  (l1 ++ l2) !! i = Some a → (l1 ++ l2) !! j = Some b →
  P a → ¬ P b → (i < j)%nat.
Proof.
  intros H1 H2 Hi Hj Ha Hb.
  destruct (decide (i < length l1)%nat) as [Hlt|Hge].
  - destruct (decide (j < length l1)%nat) as [Hjlt|?]; [|lia].
    rewrite lookup_app_l in Hj by done.
    rewrite Forall_lookup in H1. by destruct Hb; eapply H1.
  - rewrite lookup_app_r in Hi by lia.
    rewrite Forall_lookup in H2. by destruct (H2 _ _ Hi).
Qed.

(** C1, as stated, fails: the priority sources are dispatched in the
    order of [PRIORITY_SITES], not in their order in the input.  With
    [FamilyTreeNow] selected before [Username Pack (direct)] (the order in
    which the catalog lists them), the latter is dispatched first. *)
Lemma ordered_sites_not_stable :
  ordered_sites ["FamilyTreeNow"; "Zillow"; "Username Pack (direct)"]
    = ["Username Pack (direct)"; "FamilyTreeNow"; "Zillow"]
  ∧ stable_partition ["FamilyTreeNow"; "Zillow"; "Username Pack (direct)"]
    = ["FamilyTreeNow"; "Username Pack (direct)"; "Zillow"]
  ∧ ordered_sites ["FamilyTreeNow"; "Zillow"; "Username Pack (direct)"]
    ≠ stable_partition ["FamilyTreeNow"; "Zillow"; "Username Pack (direct)"].
Proof. split; [|split]; [by vm_compute..|]. by vm_compute. Qed.

(** ** The scraper runner *)

Lemma run_scraper_unregistered (R : gmap string Scraper) sess s q :
  R !! s = None → run_scraper R sess s q = mkCall 0 (Ok []).
Proof. unfold run_scraper. by intros ->. Qed.

Lemma run_scraper_returns (R : gmap string Scraper) sess s q fn hits :
  R !! s = Some fn → returned (fn sess q) = Ok hits →
  returned (run_scraper R sess s q) = Ok (or_empty hits).
Proof. unfold run_scraper. intros -> Hr. simpl. by rewrite Hr. Qed.

Lemma run_scraper_raises (R : gmap string Scraper) sess s q fn e :
  R !! s = Some fn → returned (fn sess q) = Raise e →
  returned (run_scraper R sess s q) = Ok [].
Proof. unfold run_scraper. intros -> Hr. simpl. rewrite Hr. by destruct e. Qed.

Lemma run_scraper_took (R : gmap string Scraper) sess s q fn :
  R !! s = Some fn → took (run_scraper R sess s q) = took (fn sess q).
Proof. unfold run_scraper. by intros ->. Qed.

Lemma run_scraper_ok (R : gmap string Scraper) sess s q :
  ∃ hits, returned (run_scraper R sess s q) = Ok hits.
Proof.
  destruct (R !! s) as [fn|] eqn:Hfn.
  - destruct (returned (fn sess q)) as [hits|e] eqn:Hr.
    + eexists. by eapply run_scraper_returns.
    + exists []. by eapply run_scraper_raises.
  - exists []. by rewrite run_scraper_unregistered.
Qed.

(** C10: [run_scraper] always returns a list of hits and never raises:
    the empty list for a site without a registered scraper, the empty
    list when the scraper raises [NotImplementedError], and the empty list
    when it raises any other exception. *)
Theorem run_scraper_never_raises (R : gmap string Scraper) (sess : session)
    (s : string) (q : OSINTQuery) :
  (∃ hits, returned (run_scraper R sess s q) = Ok hits)
  ∧ (R !! s = None → returned (run_scraper R sess s q) = Ok [])
  ∧ (∀ fn msg, R !! s = Some fn → returned (fn sess q) = Raise (NotImplementedError msg) →
       returned (run_scraper R sess s q) = Ok [])
  ∧ (∀ fn e, R !! s = Some fn → returned (fn sess q) = Raise e →
       returned (run_scraper R sess s q) = Ok []).
Proof.
  split; [|split; [|split]].
  - apply run_scraper_ok.
  - intros Hfn. by rewrite run_scraper_unregistered.
  - intros fn msg Hfn Hr. by eapply run_scraper_raises.
  - intros fn e Hfn Hr. by eapply run_scraper_raises.
Qed.

Lemma run_scraper_never_raises_witness :
  ((∅ : gmap string Scraper) !! "Zillow" = None
   ∧ returned (run_scraper ∅ Session "Zillow" Query.default) = Ok [])
  ∧ returned (run_scraper {[ "Zillow" := raising (NotImplementedError "todo") ]}
                Session "Zillow" Query.default) = Ok []
  ∧ returned (run_scraper {[ "Zillow" := raising (Exception "boom") ]}
                Session "Zillow" Query.default) = Ok [].
Proof.
  split; [|split].
  - split; [apply lookup_empty|].
    apply (run_scraper_never_raises ∅ Session "Zillow" Query.default), lookup_empty.
  - apply (proj1 (proj2 (proj2
      (run_scraper_never_raises {[ "Zillow" := raising (NotImplementedError "todo") ]}
         Session "Zillow" Query.default)))
      (raising (NotImplementedError "todo")) "todo"); [apply lookup_singleton_eq | reflexivity].
  - apply (proj2 (proj2 (proj2
      (run_scraper_never_raises {[ "Zillow" := raising (Exception "boom") ]}
         Session "Zillow" Query.default)))
      (raising (Exception "boom")) (Exception "boom")); [apply lookup_singleton_eq | reflexivity].
Defined.

(** ** One task of the scheduler *)

Lemma dict_get_elem {V} (k : string) (d : list (string * V)) (v : V) :
  dict_get k d = Some v → (k, v) ∈ d.
Proof.
  induction d as [|[k' v'] d IH]; simpl; [done|].
  destruct (String.eqb_spec k k') as [->|?].
  - intros [= ->]. by left.
  - intros ?. right. auto.
Qed.

(** A resolved home URL is never the empty string. *)
Lemma site_base_url_truthy (s u : string) :
  site_base_url s = Some u → Py.truthy u = true.
Proof.
  unfold site_base_url.
  destruct (dict_get s SITE_URL) as [u'|] eqn:Hu.
  - intros [= ->]. apply dict_get_elem in Hu.
    assert (Hall : Forall (λ kv : string * string, Py.truthy kv.2 = true) SITE_URL)
      by (repeat constructor).
    rewrite Forall_forall in Hall. apply (Hall _ Hu).
  - destruct (dict_get s SITE_DOMAIN) as [[dom|]|]; [|done..].
    destruct (Py.truthy dom); [|done]. by intros [= <-].
Qed.

(** The wrapper of a task, when a session can be built. *)
Lemma run_site_timed_out (w : world) sess s q t :
  get_session w = Ok sess → t < took (run_scraper (SCRAPERS w) sess s q) →
  _run_site_with_timeout (get_session w) (SCRAPERS w) s q t = Raise TimeoutError.
Proof.
  intros -> Ht. unfold _run_site_with_timeout. simpl.
  apply Z.ltb_lt in Ht. by rewrite Ht.
Qed.

Lemma run_site_in_time (w : world) sess s q t :
  get_session w = Ok sess → took (run_scraper (SCRAPERS w) sess s q) ≤ t →
  _run_site_with_timeout (get_session w) (SCRAPERS w) s q t
  = returned (run_scraper (SCRAPERS w) sess s q).
Proof.
  intros -> Ht. unfold _run_site_with_timeout. simpl.
  apply Z.ltb_ge in Ht. rewrite Ht.
  destruct (run_scraper_ok (SCRAPERS w) sess s q) as [hits ->]. done.
Qed.

(** The task of a site whose scraper raises within the budget ends like
    one whose scraper found nothing. *)
Lemma run_site_scraper_raises (w : world) sess s q t fn e :
  get_session w = Ok sess → SCRAPERS w !! s = Some fn →
  returned (fn sess q) = Raise e → took (fn sess q) ≤ t →
  _run_site_with_timeout (get_session w) (SCRAPERS w) s q t = Ok [].
Proof.
  intros Hs Hfn Hr Ht.
  rewrite (run_site_in_time w sess) by (by rewrite ?(run_scraper_took _ _ _ _ fn)).
  by eapply run_scraper_raises.
Qed.



(** ** Traces of a run *)

Section projections.
Context {B : Type} (f : effect → option B).

Lemma omap_ui_none (evs : list event) :
  (∀ ev, f (Ui ev) = None) → omap f (List.map Ui evs) = [].
Proof. intros H. induction evs as [|ev evs IH]; simpl; [done|]. by rewrite H. Qed.

Lemma omap_flat_map_nil {A} (g : A → list effect) (l : list A) :
  (∀ a, a ∈ l → omap f (g a) = []) → omap f (flat_map g l) = [].
Proof.
  induction l as [|a l IH]; intros H; simpl; [done|].
  rewrite omap_app, H, IH; [done| |by left]. intros b Hb. apply H. by right.
Qed.
End projections.

Lemma dispatched_app (l1 l2 : list effect) :
  dispatched (l1 ++ l2) = dispatched l1 ++ dispatched l2.
Proof. apply omap_app. Qed.

Lemma dataset_calls_app (l1 l2 : list effect) :
  dataset_calls (l1 ++ l2) = dataset_calls l1 ++ dataset_calls l2.
Proof. apply omap_app. Qed.

Lemma ui_events_app (l1 l2 : list effect) :
  ui_events (l1 ++ l2) = ui_events l1 ++ ui_events l2.
Proof. apply omap_app. Qed.

Lemma ui_events_ui (evs : list event) : ui_events (List.map Ui evs) = evs.
Proof. induction evs as [|ev evs IH]; simpl; [done|]. unfold ui_events in *. simpl. by f_equal. Qed.

Lemma hits_of_app (l1 l2 : list event) : hits_of (l1 ++ l2) = hits_of l1 ++ hits_of l2.
Proof. apply omap_app. Qed.

Lemma hits_of_hits (hs : list OSINTHit) : hits_of (List.map hit hs) = hs.
Proof. induction hs as [|h hs IH]; [done|]. unfold hits_of in *. simpl. by f_equal. Qed.

(** The prefilter only talks to the interface and to the dataset module. *)
Lemma prefilter_hit_dispatched toks s dh : dispatched (prefilter_hit toks s dh).2 = [].
Proof. unfold prefilter_hit. by destruct (matched toks dh). Qed.

Lemma prefilter_hit_dataset_calls toks s dh : dataset_calls (prefilter_hit toks s dh).2 = [].
Proof. unfold prefilter_hit. by destruct (matched toks dh). Qed.

Lemma prefilter_site_dispatched D q toks s : dispatched (prefilter_site D q toks s).2 = [].
Proof.
  unfold prefilter_site. destruct toks as [|t toks]; [done|].
  destruct (dataset_lookup D s (site_qdict q s)) as [ds failed] eqn:Hl. simpl.
  rewrite dispatched_app.
  assert (dispatched failed = []) as ->.
  { unfold dataset_lookup in Hl. by destruct (match search_site_for_query D with
      | Some f => _ | None => _ end); injection Hl as <- <-. }
  unfold dispatched. apply omap_flat_map_nil. intros p Hp.
  apply list_elem_of_fmap in Hp as (dh & -> & _). apply prefilter_hit_dispatched.
Qed.

Lemma prefilter_dispatched D q ordered : dispatched (dataset_prefilter D q ordered).2 = [].
Proof.
  unfold dataset_prefilter. simpl. unfold dispatched. apply omap_flat_map_nil.
  intros p Hp. apply list_elem_of_fmap in Hp as (s & -> & _).
  apply prefilter_site_dispatched.
Qed.

(** Without tokens the prefilter calls no provider. *)
Lemma prefilter_no_tokens D q ordered :
  tokens q = [] →
  (dataset_prefilter D q ordered).1 = []
  ∧ dataset_calls (dataset_prefilter D q ordered).2 = [].
Proof.
  intros Ht. unfold dataset_prefilter. rewrite Ht. simpl. split.
  - induction ordered as [|s l IH]; simpl; [done|]. done.
  - unfold dataset_calls. apply omap_flat_map_nil.
    intros p Hp. by apply list_elem_of_fmap in Hp as (s & -> & _).
Qed.

Lemma persist_dispatched w d q rs : dispatched (persist w d q rs).1.1 = [].
Proof. unfold persist, save_reports. by destruct rs, (reports_writable w). Qed.

Lemma persist_dataset_calls w d q rs : dataset_calls (persist w d q rs).1.1 = [].
Proof. unfold persist, save_reports. by destruct rs, (reports_writable w). Qed.

Lemma persist_progress w d q rs : progress (persist w d q rs).1.1 = 0%nat.
Proof. unfold persist, save_reports. by destruct rs, (reports_writable w). Qed.

Lemma persist_finished w d q rs :
  reports_writable w = true → (persist w d q rs).2 = Ok ().
Proof. unfold persist, save_reports. intros ->. by destruct rs. Qed.

Lemma scheduler_dispatched w q engine threads timeout l :
  dispatched (scheduler w q engine threads timeout l) = l.
Proof.
  unfold scheduler. simpl. rewrite dispatched_app.
  unfold dispatched at 2. rewrite omap_ui_none by done. rewrite app_nil_r.
  induction l as [|s l IH]; [done|]. simpl. unfold dispatched in *. simpl. by f_equal.
Qed.

Lemma scheduler_dataset_calls w q engine threads timeout l :
  dataset_calls (scheduler w q engine threads timeout l) = [].
Proof.
  unfold scheduler. simpl. rewrite dataset_calls_app.
  unfold dataset_calls at 2. rewrite omap_ui_none by done. rewrite app_nil_r.
  induction l as [|s l IH]; [done|]. simpl. unfold dataset_calls in *. by simpl.
Qed.

Lemma progress_app (l1 l2 : list effect) :
  progress (l1 ++ l2) = (progress l1 + progress l2)%nat.
Proof. unfold progress. by rewrite omap_app, list_sum_app. Qed.

Lemma prefilter_progress D q ordered : progress (dataset_prefilter D q ordered).2 = 0%nat.
Proof.
  unfold dataset_prefilter, progress. simpl. rewrite omap_flat_map_nil; [done|].
  intros p Hp. apply list_elem_of_fmap in Hp as (s & -> & _).
  unfold prefilter_site. destruct (tokens q) as [|t toks]; [done|].
  destruct (dataset_lookup _ _ _) as [ds failed] eqn:Hl. simpl.
  rewrite omap_app.
  assert (omap (λ e, match e with Ui (inc_progress n) => Some n | _ => None end) failed = [])
    as ->.
  { unfold dataset_lookup in Hl. by destruct (match search_site_for_query _ with
      | Some f => _ | None => _ end); injection Hl as <- <-. }
  apply omap_flat_map_nil. intros p Hp. apply list_elem_of_fmap in Hp as (dh & -> & _).
  unfold prefilter_hit. by destruct (matched _ dh).
Qed.

(** Every completed task reports exactly one unit of progress. *)
Lemma future_events_progress q engine s t r :
  progress (List.map Ui (future_events q engine s t r)) = 1%nat.
Proof.
  unfold future_events. rewrite map_app, progress_app.
  assert (∀ evs, (∀ ev, ev ∈ evs → ∀ n, ev ≠ inc_progress n) →
                 progress (List.map Ui evs) = 0%nat) as Hnone.
  { induction evs as [|ev evs IH]; intros H; [done|].
    unfold progress in *. simpl. destruct ev; try (apply IH; intros; apply H; by right).
    by destruct (H (inc_progress n) ltac:(by left) n). }
  rewrite Hnone; [done|].
  intros ev Hev n ->.
  destruct r as [[|h hits]|[]]; simpl in Hev;
    repeat match goal with
    | H : _ ∈ _ ++ _ |- _ => apply elem_of_app in H as [H|H]
    | H : _ ∈ _ :: _ |- _ => apply elem_of_cons in H as [H|H]; [discriminate H|]
    | H : _ ∈ [] |- _ => by apply elem_of_nil in H
    | H : _ ∈ match ?x with _ => _ end |- _ => destruct x
    | H : _ ∈ (if ?x then _ else _) |- _ => destruct x
    | H : _ ∈ List.map hit _ |- _ => apply list_elem_of_fmap in H as (? & [=] & _)
    end.
Qed.

Lemma scheduler_progress w q engine threads timeout l :
  progress (scheduler w q engine threads timeout l)
  = length (as_completed w (List.map (λ s, (s, site_timeout timeout s)) l)).
Proof.
  unfold scheduler. simpl.
  change (Pool threads :: ?x) with ([Pool threads] ++ x).
  rewrite !progress_app. simpl.
  assert (progress (List.map (λ t : string * Z, Submit t.1 t.2)
                      (List.map (λ s, (s, site_timeout timeout s)) l)) = 0%nat) as ->.
  { induction l as [|s l IH]; [done|]. simpl. unfold progress in *. by simpl. }
  simpl. generalize (as_completed w (List.map (λ s, (s, site_timeout timeout s)) l)).
  intros tasks. induction tasks as [|task tasks IH]; [done|].
  simpl. rewrite map_app, progress_app, IH.
  unfold task_events. by rewrite future_events_progress.
Qed.

(** The cases of a live run: whether a cache entry was cleared, what
    the prefilter returned, whether a site is left to scrape, and how the
    final writes ended. *)
Tactic Notation "live_run_cases" ident(rs) ident(trd) ident(Hts) ident(trp) ident(fin) :=
  unfold live_run;
  match goal with |- context [if ?b then clear_cache_for_query ?d ?q else ?e] =>
    destruct (if b then clear_cache_for_query d q else e) as [[] ?] end;
  destruct (dataset_prefilter _ _ _) as [rs trd];
  cbn [fst snd] in *;
  (destruct (sites_to_scrape _ _) as [|? ?] eqn:Hts;
   [|match goal with |- context [persist _ _ _ (rs ++ ?h)] =>
       generalize (rs ++ h); intros ? end]);
  match goal with |- context [persist ?w ?d ?q ?r] =>
    pose proof (persist_dispatched w d q r);
    pose proof (persist_dataset_calls w d q r);
    pose proof (persist_progress w d q r);
    pose proof (persist_finished w d q r);
    destruct (persist w d q r) as [[trp ?] fin] end;
  cbn [fst snd trace finished] in *.

Section live_run.
Context (w : world) (self : App) (sites : list string) (skip_cache : bool).

(** The dispatch order of a live run: the ordered sites that the
    prefilter did not satisfy. *)
Lemma live_run_dispatched :
  dispatched (trace (live_run w self sites skip_cache))
  = sites_to_scrape (ordered_sites sites)
      (satisfied_sites (dataset_prefilter (DATASETS w) (query self) (ordered_sites sites)).1).
Proof.
  pose proof (prefilter_dispatched (DATASETS w) (query self) (ordered_sites sites)) as Hd.
  live_run_cases rs trd Hts trp fin;
    rewrite !dispatched_app, ?scheduler_dispatched, Hd;
    repeat match goal with H : dispatched _ = [] |- _ => rewrite H end;
    destruct fin as [[]|]; cbn; rewrite ?app_nil_r; try done;
    match goal with |- context [match ?r with [] => _ | _ => _ end] => destruct r end;
    cbn; by rewrite ?app_nil_r.
Qed.

(** The provider calls of a live run are those of the prefilter. *)
Lemma live_run_dataset_calls :
  dataset_calls (trace (live_run w self sites skip_cache))
  = dataset_calls (dataset_prefilter (DATASETS w) (query self) (ordered_sites sites)).2.
Proof.
  live_run_cases rs trd Hts trp fin;
    rewrite !dataset_calls_app, ?scheduler_dataset_calls;
    repeat match goal with H : dataset_calls _ = [] |- _ => rewrite H end;
    destruct fin as [[]|]; cbn; rewrite ?app_nil_r; try done;
    match goal with |- context [match ?r with [] => _ | _ => _ end] => destruct r end;
    cbn; by rewrite ?app_nil_r.
Qed.

(** A live run reaches its end when the reports can be written. *)
Lemma live_run_finished :
  reports_writable w = true → finished (live_run w self sites skip_cache) = Ok ().
Proof. intros Hw. live_run_cases rs trd Hts trp fin; auto. Qed.

(** One unit of progress per dispatched task, when the pool completes
    every submitted task once. *)
Lemma live_run_progress :
  (∀ l, as_completed w l ≡ₚ l) →
  progress (trace (live_run w self sites skip_cache))
  = length (dispatched (trace (live_run w self sites skip_cache))).
Proof.
  intros Hperm. rewrite live_run_dispatched.
  pose proof (prefilter_progress (DATASETS w) (query self) (ordered_sites sites)) as Hd.
  live_run_cases rs trd Hts trp fin;
    rewrite !progress_app, ?scheduler_progress, ?Hperm, ?length_map, Hd;
    repeat match goal with H : progress _ = 0%nat |- _ => rewrite H end;
    destruct fin as [[]|]; cbn; try lia;
    match goal with |- context [match ?r with [] => _ | _ => _ end] => destruct r end;
    cbn; lia.
Qed.
End live_run.

(** The dispatch order of every run keeps the two blocks: it is the
    ordered list, or the part of it that the prefilter left, or empty. *)
Lemma dispatched_blocks (w : world) (self : App) (sites : list string) (skip_cache : bool) :
  ∃ l1 l2, dispatched (trace (_background_run w self sites skip_cache)) = l1 ++ l2
           ∧ Forall is_priority l1 ∧ Forall (λ s, ¬ is_priority s) l2.
Proof.
  unfold _background_run.
  destruct (if skip_cache then [] else load_cache (cache w) (query self)).
  - rewrite live_run_dispatched. unfold sites_to_scrape, ordered_sites.
    case_bool_decide.
    + exists (prioritized sites), (remaining sites).
      split; [done|]. split; [apply prioritized_priority | apply remaining_not_priority].
    + rewrite filter_app. eexists _, _. split; [done|].
      split; apply Forall_forall; intros s [_ Hs]%list_elem_of_filter; revert s Hs;
        apply Forall_forall; [apply prioritized_priority | apply remaining_not_priority].
  - exists [], []. cbn [trace]. unfold dispatched. by rewrite omap_ui_none.
Qed.

(** C1 (amended): the dispatch order is the priority sources that were
    selected, in the fixed order of [PRIORITY_SITES], followed by the
    other selected sources in their order in the input; every priority
    source in it comes before every other source, and so it is among the
    tasks that a run submits to the pool. *)
Theorem ordered_sites_priority_first (sites : list string) :
  ordered_sites sites
    = filter (λ s, s ∈ sites) PRIORITY_SITES ++ filter (λ s, ¬ is_priority s) sites
  ∧ (∀ (i j : nat) (a b : string),
       ordered_sites sites !! i = Some a → ordered_sites sites !! j = Some b →
       is_priority a → ¬ is_priority b → (i < j)%nat)
  ∧ (∀ (w : world) (self : App) (skip_cache : bool) (i j : nat) (a b : string),
       dispatched (trace (_background_run w self sites skip_cache)) !! i = Some a →
       dispatched (trace (_background_run w self sites skip_cache)) !! j = Some b →
       is_priority a → ¬ is_priority b → (i < j)%nat).
Proof.
  split; [|split].
  - unfold ordered_sites. by rewrite remaining_filter.
  - intros i j a b. unfold ordered_sites.
    apply blocks_ordered; [apply prioritized_priority | apply remaining_not_priority].
  - intros w self skip_cache i j a b.
    destruct (dispatched_blocks w self sites skip_cache) as (l1 & l2 & -> & H1 & H2).
    by apply blocks_ordered.
Qed.

Lemma ordered_sites_priority_first_witness :
  ordered_sites ["Zillow"; "WhoCallsMe"] !! 0%nat = Some "WhoCallsMe"
  ∧ ordered_sites ["Zillow"; "WhoCallsMe"] !! 1%nat = Some "Zillow"
  ∧ is_priority "WhoCallsMe" ∧ ¬ is_priority "Zillow" ∧ (0 < 1)%nat.
Proof.
  assert (H0 : ordered_sites ["Zillow"; "WhoCallsMe"] !! 0%nat = Some "WhoCallsMe")
    by (by vm_compute).
  assert (H1 : ordered_sites ["Zillow"; "WhoCallsMe"] !! 1%nat = Some "Zillow")
    by (by vm_compute).
  assert (Ha : is_priority "WhoCallsMe") by (unfold is_priority; set_solver).
  assert (Hb : ¬ is_priority "Zillow").
  { unfold is_priority, PRIORITY_SITES. rewrite !elem_of_cons, elem_of_nil.
    intros [?|[?|[?|[?|[]]]]]; discriminate. }
  refine (conj H0 (conj H1 (conj Ha (conj Hb _)))).
  exact (proj1 (proj2 (ordered_sites_priority_first ["Zillow"; "WhoCallsMe"]))
           _ _ _ _ H0 H1 Ha Hb).
Defined.

(** ** Substrings *)

Lemma append_cons (a : ascii) (s t : string) : String a s +:+ t = String a (s +:+ t).
Proof. reflexivity. Qed.

Lemma append_empty (t : string) : EmptyString +:+ t = t.
Proof. reflexivity. Qed.

Lemma prefix_spec (s1 s2 : string) :
  String.prefix s1 s2 = true ↔ ∃ post, s2 = s1 +:+ post.
Proof.
  revert s2. induction s1 as [|a s1 IH]; intros [|b s2]; simpl.
  - split; eauto.
  - split; eauto.
  - split; [done|]. intros [post H]. by rewrite append_cons in H.
  - destruct (Ascii.ascii_dec a b) as [->|Hne].
    + rewrite IH. split; intros [post H]; exists post;
        rewrite append_cons in *; congruence.
    + split; [done|]. intros [post H]. rewrite append_cons in H. congruence.
Qed.

Lemma str_in_spec (needle hay : string) :
  Py.str_in needle hay = true ↔ occurs_in needle hay.
Proof.
  unfold occurs_in. induction hay as [|c hay IH].
  - change (Py.str_in needle EmptyString)
      with (String.prefix needle EmptyString || false).
    rewrite orb_false_r, prefix_spec. split.
    + intros [post H]. by exists EmptyString, post.
    + intros ([|? ?] & post & H); [eauto|discriminate].
  - change (Py.str_in needle (String c hay))
      with (String.prefix needle (String c hay) || Py.str_in needle hay).
    rewrite orb_true_iff, prefix_spec, IH. split.
    + intros [[post H]|(pre & post & H)].
      * by exists EmptyString, post.
      * exists (String c pre), post. by rewrite append_cons, H.
    + intros ([|c' pre] & post & H).
      * left. eauto.
      * right. rewrite append_cons in H. injection H as -> ->. eauto.
Qed.

(** ** The dataset prefilter *)

Lemma matched_spec (toks : list string) (dh : dataset_hit) :
  matched toks dh = true
  ↔ ∃ tok, tok ∈ toks ∧ tok ≠ EmptyString ∧ occurs_in tok (combined dh).
Proof.
  unfold matched. rewrite existsb_exists. split.
  - intros (tok & Hin & H). apply andb_true_iff in H as [Ht Hs].
    exists tok. rewrite list_elem_of_In, <- str_in_spec. by destruct tok.
  - intros (tok & Hin & Hne & H). exists tok. rewrite <- list_elem_of_In.
    split; [done|]. apply andb_true_iff. rewrite str_in_spec. by destruct tok.
Qed.

Lemma elem_of_flat_map_fst {A B C} (f : A → list B * list C) (l : list A) (b : B) :
  b ∈ flat_map fst (List.map f l) ↔ ∃ a, a ∈ l ∧ b ∈ (f a).1.
Proof.
  rewrite (list_elem_of_In _ b), in_flat_map. split.
  - intros (p & Hp & Hb). apply in_map_iff in Hp as (a & <- & Ha).
    exists a. by rewrite !list_elem_of_In.
  - intros (a & Ha & Hb). exists (f a). rewrite in_map_iff.
    rewrite !list_elem_of_In in *. eauto.
Qed.

Lemma prefilter_site_hits D q toks s h :
  h ∈ (prefilter_site D q toks s).1 →
  ∃ dh, dh ∈ (dataset_lookup D s (site_qdict q s)).1
        ∧ matched toks dh = true ∧ h = dataset_osint_hit s dh.
Proof.
  unfold prefilter_site. destruct toks as [|t toks]; [by intros ?%elem_of_nil|].
  destruct (dataset_lookup D s (site_qdict q s)) as [ds failed]. cbn [fst snd].
  rewrite elem_of_flat_map_fst. intros (dh & Hdh & Hh). exists dh. split; [done|].
  unfold prefilter_hit in Hh. destruct (matched (t :: toks) dh); cbn [fst] in Hh.
  - by apply list_elem_of_singleton in Hh.
  - by apply elem_of_nil in Hh.
Qed.

(** The hits the prefilter shows are the hits it keeps. *)
Lemma prefilter_site_shown D q toks s :
  hits_of (ui_events (prefilter_site D q toks s).2) = (prefilter_site D q toks s).1.
Proof.
  unfold prefilter_site. destruct toks as [|t toks]; [done|].
  destruct (dataset_lookup D s (site_qdict q s)) as [ds failed] eqn:Hl. simpl.
  change (DatasetCall ?e ?d :: ?x) with ([DatasetCall e d] ++ x).
  rewrite !ui_events_app, !hits_of_app.
  assert (hits_of (ui_events failed) = []) as ->.
  { unfold dataset_lookup in Hl. by destruct (match search_site_for_query D with
      | Some f => _ | None => _ end); injection Hl as <- <-. }
  clear Hl. simpl. induction ds as [|dh ds IH]; [done|]. simpl.
  rewrite ui_events_app, hits_of_app, IH. f_equal.
  unfold prefilter_hit. by destruct (matched (t :: toks) dh).
Qed.

Lemma prefilter_shown D q ordered :
  hits_of (ui_events (dataset_prefilter D q ordered).2) = (dataset_prefilter D q ordered).1.
Proof.
  unfold dataset_prefilter. simpl. induction ordered as [|s l IH]; [done|]. simpl.
  by rewrite ui_events_app, hits_of_app, IH, prefilter_site_shown.
Qed.

(** C9: every dataset hit that the prefilter keeps and shows comes from a
    candidate returned by the provider for one of the sites, and some
    non-empty query token occurs in the text built from that candidate
    (its lower-cased title, snippet and url and its serialised raw
    metadata, separated by spaces); a candidate in which no token occurs
    is neither kept nor shown. *)
Theorem dataset_hits_share_a_token (D : datasets_module) (q : OSINTQuery)
    (ordered : list string) :
  (∀ h, h ∈ (dataset_prefilter D q ordered).1 →
     ∃ s dh tok, s ∈ ordered
       ∧ dh ∈ (dataset_lookup D s (site_qdict q s)).1
       ∧ h = dataset_osint_hit s dh
       ∧ tok ∈ tokens q ∧ tok ≠ EmptyString ∧ occurs_in tok (combined dh))
  ∧ hits_of (ui_events (dataset_prefilter D q ordered).2) = (dataset_prefilter D q ordered).1
  ∧ (∀ s dh, (∀ tok, tok ∈ tokens q → ¬ occurs_in tok (combined dh)) →
       (prefilter_hit (tokens q) s dh).1 = []
       ∧ hits_of (ui_events (prefilter_hit (tokens q) s dh).2) = []).
Proof.
  split; [|split].
  - intros h Hh. unfold dataset_prefilter in Hh. simpl in Hh.
    apply elem_of_flat_map_fst in Hh as (s & Hs & Hh).
    apply prefilter_site_hits in Hh as (dh & Hdh & Hm & ->).
    apply matched_spec in Hm as (tok & ? & ? & ?). by exists s, dh, tok.
  - apply prefilter_shown.
  - intros s dh Hno. unfold prefilter_hit.
    destruct (matched (tokens q) dh) eqn:Hm; [|done].
    apply matched_spec in Hm as (tok & Hin & _ & Hocc). by destruct (Hno tok Hin).
Qed.

Lemma dataset_hits_share_a_token_witness :
  (∃ s dh tok, s ∈ ["FamilyTreeNow"]
     ∧ dh ∈ (dataset_lookup datasets_offline s (site_qdict query_alice s)).1
     ∧ mkHit "FamilyTreeNow" "DuckDuckGo search" "alice" "https://duckduckgo.com/?q=alice"
         [("engine", JStr "DuckDuckGo")] = dataset_osint_hit s dh
     ∧ tok ∈ tokens query_alice ∧ tok ≠ EmptyString ∧ occurs_in tok (combined dh))
  ∧ ((prefilter_hit (tokens query_alice) "FamilyTreeNow"
        (mkDh (Some "Hint") (Some "Common Crawl") (Some "hint") (Some "https://commoncrawl.org/")
           None)).1 = []
     ∧ hits_of (ui_events (prefilter_hit (tokens query_alice) "FamilyTreeNow"
        (mkDh (Some "Hint") (Some "Common Crawl") (Some "hint") (Some "https://commoncrawl.org/")
           None)).2) = []).
Proof.
  split.
  - apply (proj1 (dataset_hits_share_a_token datasets_offline query_alice ["FamilyTreeNow"])).
    vm_compute. left.
  - apply (proj2 (proj2
      (dataset_hits_share_a_token datasets_offline query_alice ["FamilyTreeNow"]))).
    intros tok Htok Hocc. apply str_in_spec in Hocc.
    vm_compute in Htok. apply list_elem_of_singleton in Htok. subst tok.
    vm_compute in Hocc. discriminate Hocc.
Defined.

(** ** Faults of a scraper *)


Lemma replay_progress (hs : list OSINTHit) : progress (List.map Ui (replay hs)) = 0%nat.
Proof.
  unfold replay. change (note ?x :: ?l) with ([note x] ++ l).
  rewrite !map_app, !progress_app. simpl.
  induction hs as [|h hs IH]; [done|]. simpl. by unfold progress in *.
Qed.

Lemma replay_hits (hs : list OSINTHit) : hits_of (replay hs) = hs.
Proof.
  unfold replay. change (note ?x :: ?l) with ([note x] ++ l).
  by rewrite !hits_of_app, hits_of_hits, app_nil_r.
Qed.

(** A run reaches its end, with one unit of progress per dispatched task,
    when the reports can be written and the pool completes every task. *)
Lemma background_run_completes (w : world) (self : App) (sites : list string)
    (skip_cache : bool) :
  reports_writable w = true → (∀ l, as_completed w l ≡ₚ l) →
  finished (_background_run w self sites skip_cache) = Ok ()
  ∧ progress (trace (_background_run w self sites skip_cache))
    = length (dispatched (trace (_background_run w self sites skip_cache))).
Proof.
  intros Hw Hperm. unfold _background_run.
  destruct (if skip_cache then [] else load_cache (cache w) (query self)) as [|h hs].
  - split; [by apply live_run_finished | by apply live_run_progress].
  - cbn [finished trace]. split; [done|].
    unfold dispatched. by rewrite omap_ui_none, replay_progress.
Qed.



(** The error marker is reserved for a fault of the task wrapper itself,
    such as a session that cannot be built. *)
Lemma session_fault_error_hits (w : world) (q : OSINTQuery) (engine s : string) (t : Z)
    (msg u : string) :
  get_session w = Raise (Exception msg) → site_base_url s = Some u →
  hits_of (task_events w q engine (s, t))
  = [ fallback_hit s " (error→open site)" (Py.take 300 msg) u
        [("error", JStr msg); ("fallback", JStr "home")];
      fallback_hit s " (error→dork)" (Py.take 300 msg) (dork_url s q engine)
        [("error", JStr msg); ("fallback", JStr "dork")] ].
Proof.
  intros Hs Hu. unfold task_events, _run_site_with_timeout. rewrite Hs. cbn [fst snd mbind].
  unfold future_events. cbn [result_bind]. rewrite Hu, (site_base_url_truthy _ _ Hu). done.
Qed.

(** ** The cache gate *)

(** C8: without a bypass request, a query with a non-empty cached hit
    list is answered from the cache: the run shows exactly the cached
    hits, calls no dataset provider, submits no task to the pool, leaves
    the cache as it was, and ends. *)
Theorem cache_short_circuit (w : world) (self : App) (sites : list string) :
  load_cache (cache w) (query self) ≠ [] →
  ui_events (trace (_background_run w self sites false))
  = replay (load_cache (cache w) (query self))
  ∧ hits_of (ui_events (trace (_background_run w self sites false)))
    = load_cache (cache w) (query self)
  ∧ dataset_calls (trace (_background_run w self sites false)) = []
  ∧ dispatched (trace (_background_run w self sites false)) = []
  ∧ cache_after (_background_run w self sites false) = cache w
  ∧ finished (_background_run w self sites false) = Ok ().
Proof.
  intros Hne. unfold _background_run.
  destruct (load_cache (cache w) (query self)) as [|h hs]; [done|].
  cbn [trace cache_after finished]. rewrite ui_events_ui, replay_hits.
  unfold dataset_calls, dispatched. by rewrite !omap_ui_none.
Qed.

(** ** Queries without tokens *)

Lemma tokens_default : tokens Query.default = [].
Proof. reflexivity. Qed.

Lemma sites_to_scrape_none_satisfied (ordered : list string) :
  sites_to_scrape ordered (satisfied_sites []) = ordered.
Proof. unfold sites_to_scrape, satisfied_sites. simpl. by rewrite bool_decide_eq_true_2. Qed.

(** C7 (amended): a run whose query has all nine fields empty calls no
    dataset provider; and unless it is answered from the cache, every
    selected source is dispatched to the scrapers, in dispatch order. *)
Theorem empty_query_skips_datasets (w : world) (self : App) (sites : list string)
    (skip_cache : bool) :
  query self = Query.default →
  dataset_calls (trace (_background_run w self sites skip_cache)) = []
  ∧ (skip_cache = true ∨ load_cache (cache w) (query self) = [] →
     dispatched (trace (_background_run w self sites skip_cache)) = ordered_sites sites).
Proof.
  intros Hq.
  destruct (prefilter_no_tokens (DATASETS w) (query self) (ordered_sites sites)) as [Hrs Hcalls].
  { by rewrite Hq. }
  assert (dataset_calls (trace (live_run w self sites skip_cache)) = []
          ∧ dispatched (trace (live_run w self sites skip_cache)) = ordered_sites sites)
    as [Hl1 Hl2].
  { rewrite live_run_dataset_calls, live_run_dispatched, Hrs, Hcalls.
    by rewrite sites_to_scrape_none_satisfied. }
  unfold _background_run. split.
  - destruct (if skip_cache then [] else load_cache (cache w) (query self)); [done|].
    cbn [trace]. unfold dataset_calls. by rewrite omap_ui_none.
  - intros [->| ->]; [done|]. by destruct skip_cache.
Qed.

Lemma first_run_cached :
  load_cache (cache second_world) Query.default
  = [ fallback_hit "FamilyTreeNow" " (open site)" "No scraper results — open site."
        "https://familytreenow.com" [("fallback", JStr "home")];
      fallback_hit "FamilyTreeNow" " (search dork)" "No scraper results — try search."
        "https://duckduckgo.com/?q=site%3Afamilytreenow.com" [("fallback", JStr "dork")] ].
Proof. by vm_compute. Qed.

Lemma cache_short_circuit_witness :
  ui_events (trace (_background_run second_world app_empty ["FamilyTreeNow"] false))
  = replay (load_cache (cache second_world) (query app_empty))
  ∧ dataset_calls (trace (_background_run second_world app_empty ["FamilyTreeNow"] false)) = []
  ∧ dispatched (trace (_background_run second_world app_empty ["FamilyTreeNow"] false)) = [].
Proof.
  assert (Hne : load_cache (cache second_world) (query app_empty) ≠ []).
  { intros H. vm_compute in H. discriminate H. }
  pose proof (cache_short_circuit second_world app_empty ["FamilyTreeNow"] Hne)
    as (H1 & _ & H2 & H3 & _).
  exact (conj H1 (conj H2 H3)).
Defined.

(** C7, as stated, fails: a second run of the empty query, without a
    bypass request, is answered from the cache entry that the first run
    wrote, and no source reaches the scrapers. *)
Lemma empty_query_cached_run_skips_scrapers :
  query app_empty = Query.default
  ∧ ordered_sites ["FamilyTreeNow"] = ["FamilyTreeNow"]
  ∧ dispatched (trace (_background_run second_world app_empty ["FamilyTreeNow"] false)) = []
  ∧ dispatched (trace (_background_run second_world app_empty ["FamilyTreeNow"] false))
    ≠ ordered_sites ["FamilyTreeNow"].
Proof.
  split; [done|]. split; [by vm_compute|]. split; [by vm_compute|].
  intros H. vm_compute in H. discriminate H.
Qed.

Lemma empty_query_skips_datasets_witness :
  dataset_calls (trace (_background_run (sample_world ∅) app_empty
                          ["Zillow"; "FamilyTreeNow"] true)) = []
  ∧ dispatched (trace (_background_run (sample_world ∅) app_empty
                         ["Zillow"; "FamilyTreeNow"] true))
    = ordered_sites ["Zillow"; "FamilyTreeNow"].
Proof.
  pose proof (empty_query_skips_datasets (sample_world ∅) app_empty
                ["Zillow"; "FamilyTreeNow"] true eq_refl) as [H1 H2].
  exact (conj H1 (H2 (or_introl eq_refl))).
Defined.

(** ** Satisfied sites *)

Lemma elem_of_satisfied_sites (rs : list OSINTHit) (s : string) :
  s ∈ satisfied_sites rs ↔ ∃ h, h ∈ rs ∧ site h = s.
Proof.
  unfold satisfied_sites. rewrite elem_of_list_to_set, list_elem_of_fmap.
  split; intros (h & ? & ?); eauto.
Qed.

(** A site under whose identifier a hit was accepted is not scraped. *)
Lemma satisfied_site_removed (ordered : list string) (rs : list OSINTHit) (h : OSINTHit) :
  h ∈ rs → site h ∉ sites_to_scrape ordered (satisfied_sites rs).
Proof.
  intros Hh. assert (Hs : site h ∈ satisfied_sites rs) by (apply elem_of_satisfied_sites; eauto).
  unfold sites_to_scrape. case_bool_decide as He.
  - rewrite He in Hs. by apply not_elem_of_empty in Hs.
  - rewrite list_elem_of_filter. tauto.
Qed.

(** C3: evaluated on the source named in the claim.  With a username in
    the query, the dataset module of the repository returns search links
    for [Username Pack (direct)], four of them are accepted, yet they are
    filed under [Username Pack], the identifier cut at its first [" ("],
    and [Username Pack (direct)] is still dispatched to its scraper;
    [FamilyTreeNow], in the same run, is removed. *)
Theorem username_pack_satisfied_but_scraped :
  List.map site
    (dataset_prefilter datasets_offline query_alice ["Username Pack (direct)"]).1
  = ["Username Pack"; "Username Pack"; "Username Pack"; "Username Pack"]
  ∧ dispatched (trace (_background_run (sample_world ∅)
                         (mkApp query_alice 16 12 "DuckDuckGo")
                         ["Username Pack (direct)"; "FamilyTreeNow"] false))
    = ["Username Pack (direct)"]
  ∧ dispatched (trace (_background_run (sample_world ∅)
                         (mkApp query_alice 16 12 "DuckDuckGo")
                         ["Whitepages (Free Search)"; "FamilyTreeNow"] false))
    = ["Whitepages (Free Search)"].
Proof. split; [by vm_compute|]. split; by vm_compute. Qed.

Lemma prefix_empty (s : string) : String.prefix EmptyString s = true.
Proof. by destruct s. Qed.

Lemma prefix_cons (a b : ascii) (s1 s2 : string) :
  String.prefix (String a s1) (String b s2)
  = if Ascii.ascii_dec a b then String.prefix s1 s2 else false.
Proof. reflexivity. Qed.

Lemma split_head_cons (sep : string) (c : ascii) (s : string) :
  Py.split_head sep (String c s)
  = if String.prefix sep (String c s) then EmptyString
    else String c (Py.split_head sep s).
Proof. reflexivity. Qed.

Lemma str_in_cons (needle : string) (c : ascii) (hay : string) :
  Py.str_in needle (String c hay)
  = String.prefix needle (String c hay) || Py.str_in needle hay.
Proof. reflexivity. Qed.

(** The text before the first [" ("] holds no [" ("]. *)
Lemma split_head_paren_free (x : string) :
  Py.str_in " (" (Py.split_head " (" x) = false.
Proof.
  induction x as [|c x IH]; [done|].
  rewrite split_head_cons.
  destruct (String.prefix " (" (String c x)) eqn:Hp; [done|].
  rewrite str_in_cons, IH, orb_false_r.
  rewrite prefix_cons in Hp |- *.
  destruct (Ascii.ascii_dec " " c) as [<-|?]; [|done].
  destruct x as [|d x]; [done|].
  rewrite split_head_cons. destruct (String.prefix " (" (String d x)); [done|].
  rewrite prefix_cons in Hp |- *.
  destruct (Ascii.ascii_dec "(" d); [|done]. by rewrite prefix_empty in Hp.
Qed.

(** Whatever the provider returns, an accepted hit is filed under a label
    without [" ("]. *)
Lemma prefilter_labels_paren_free D q ordered h :
  h ∈ (dataset_prefilter D q ordered).1 → Py.str_in " (" (site h) = false.
Proof.
  unfold dataset_prefilter. cbn [fst]. rewrite elem_of_flat_map_fst.
  intros (s & _ & Hh). apply prefilter_site_hits in Hh as (dh & _ & _ & ->).
  apply split_head_paren_free.
Qed.

Lemma elem_of_ordered_sites (sites : list string) (s : string) :
  s ∈ ordered_sites sites ↔ s ∈ sites.
Proof.
  unfold ordered_sites. rewrite elem_of_app, elem_of_prioritized, remaining_filter.
  rewrite list_elem_of_filter. unfold is_priority.
  destruct (decide (s ∈ PRIORITY_SITES)); tauto.
Qed.

(** The same defect, for every provider and every query: a selected
    source whose identifier holds [" ("] is dispatched to its scraper in
    every live run, whatever hits the prefilter accepted for it. *)
Lemma parenthesised_site_always_scraped (w : world) (self : App) (sites : list string)
    (skip_cache : bool) (s : string) :
  Py.str_in " (" s = true → s ∈ sites →
  s ∈ dispatched (trace (live_run w self sites skip_cache)).
Proof.
  intros Hparen Hs. rewrite live_run_dispatched.
  unfold sites_to_scrape. case_bool_decide; [by apply elem_of_ordered_sites|].
  apply list_elem_of_filter. split; [|by apply elem_of_ordered_sites].
  rewrite elem_of_satisfied_sites. intros (h & Hh & <-).
  apply prefilter_labels_paren_free in Hh. congruence.
Qed.

(** ** The canonical key *)

Global Instance field_eq_dec : EqDecision Field.t.
Proof. solve_decision. Defined.

Lemma field_get_set_same f v q : Field.get f (Field.set f v q) = v.
Proof. by destruct q, f. Qed.

Lemma field_get_set_other f g v q : f ≠ g → Field.get f (Field.set g v q) = Field.get f q.
Proof. by destruct q, f, g. Qed.

Lemma query_ext (q1 q2 : OSINTQuery) : (∀ f, Field.get f q1 = Field.get f q2) → q1 = q2.
Proof.
  intros H. destruct q1, q2.
  pose proof (H Field.First). pose proof (H Field.Last). pose proof (H Field.Username).
  pose proof (H Field.Email). pose proof (H Field.Phone). pose proof (H Field.Address1).
  pose proof (H Field.City). pose proof (H Field.State). pose proof (H Field.Zip).
  simpl in *. congruence.
Qed.

Lemma field_get_assign_absent l q f :
  f ∉ l.*1 → Field.get f (Field.assign l q) = Field.get f q.
Proof.
  revert q. induction l as [|[g v] l IH]; intros q Hf; [done|].
  apply not_elem_of_cons in Hf as [Hne Hf]. unfold Field.assign in *. simpl.
  rewrite IH by done. by apply field_get_set_other.
Qed.

Lemma field_get_assign_present l q f v :
  NoDup l.*1 → (f, v) ∈ l → Field.get f (Field.assign l q) = v.
Proof.
  revert q. induction l as [|[g u] l IH]; intros q Hnd Hin; [by apply elem_of_nil in Hin|].
  apply NoDup_cons in Hnd as [Hg Hnd].
  apply elem_of_cons in Hin as [[= -> ->]|Hin]; unfold Field.assign in *; simpl.
  - fold (Field.assign l (Field.set g u q)). rewrite field_get_assign_absent by done.
    apply field_get_set_same.
  - by apply IH.
Qed.

(** Assignments to distinct fields commute. *)
Lemma field_assign_perm (l1 l2 : list (Field.t * string)) (q : OSINTQuery) :
  NoDup l1.*1 → l1 ≡ₚ l2 → Field.assign l1 q = Field.assign l2 q.
Proof.
  intros Hnd Hp. apply query_ext. intros f.
  assert (Hnd2 : NoDup l2.*1) by (by rewrite <- Hp).
  destruct (decide (f ∈ l1.*1)) as [Hin|Hout].
  - apply list_elem_of_fmap in Hin as ([f' v] & -> & Hin). simpl.
    rewrite (field_get_assign_present l1 q f' v), (field_get_assign_present l2 q f' v);
      try done.
    by rewrite <- Hp.
  - rewrite !field_get_assign_absent; try done. by rewrite <- Hp.
Qed.



(** The serialisation itself does not depend on the order in which the
    keys were inserted: [sort_keys] orders them. *)
Lemma NoDup_fst_eq {V} (d : list (string * V)) (x y : string * V) :
  NoDup d.*1 → x ∈ d → y ∈ d → x.1 = y.1 → x = y.
Proof.
  induction d as [|z d IH]; intros Hnd Hx Hy Heq; [by apply elem_of_nil in Hx|].
  apply NoDup_cons in Hnd as [Hz Hnd].
  apply elem_of_cons in Hx as [->|Hx]; apply elem_of_cons in Hy as [->|Hy]; auto.
  - destruct Hz. rewrite Heq. by apply list_elem_of_fmap_2.
  - destruct Hz. rewrite <- Heq. by apply list_elem_of_fmap_2.
Qed.

Global Instance key_le_trans {V} : Transitive (λ a b : string * V, String.le a.1 b.1).
Proof. intros a b c ? ?. by etrans. Qed.

Global Instance key_le_total {V} : Total (λ a b : string * V, String.le a.1 b.1).
Proof. intros a b. apply (total String.le). Qed.

Lemma sort_items_perm {V} (d1 d2 : list (string * V)) :
  NoDup d1.*1 → d1 ≡ₚ d2 → Json.sort_items d1 = Json.sort_items d2.
Proof.
  intros Hnd Hp. unfold Json.sort_items.
  apply (Sorted_unique_strong (λ a b : string * V, String.le a.1 b.1)).
  - intros x1 x2 Hx1 Hx2 H12 H21.
    rewrite merge_sort_Permutation in Hx1, Hx2. rewrite <- Hp in Hx2.
    apply (NoDup_fst_eq d1); try done. by apply (anti_symm String.le).
  - apply Sorted_merge_sort, _.
  - apply Sorted_merge_sort, _.
  - by rewrite !merge_sort_Permutation.
Qed.

Lemma dumps_sorted_perm (ensure_ascii : bool) (indent : option nat)
    (d1 d2 : list (string * json)) :
  NoDup d1.*1 → d1 ≡ₚ d2 →
  Json.dumps true ensure_ascii indent (JDict d1)
  = Json.dumps true ensure_ascii indent (JDict d2).
Proof.
  intros Hnd Hp. unfold Json.dumps. simpl. unfold Json.order_items.
  f_equal. f_equal. apply sort_items_perm.
  - by rewrite <- list_fmap_compose.
  - by apply Permutation_map.
Qed.

(** ** The JSON reader inverts the JSON writer *)

Lemma append_assoc (a b c : string) : (a +:+ b) +:+ c = a +:+ (b +:+ c).
Proof. induction a as [|x a IH]; [done|]. by rewrite !append_cons, IH. Qed.

Lemma append_empty_r (a : string) : a +:+ EmptyString = a.
Proof. induction a as [|x a IH]; [done|]. by rewrite append_cons, IH. Qed.

Lemma length_append (a b : string) :
  String.length (a +:+ b) = (String.length a + String.length b)%nat.
Proof. induction a as [|x a IH]; [done|]. rewrite append_cons. simpl. by rewrite IH. Qed.

Lemma escape_plain_cons (c : ascii) (s : string) :
  Json.escape_plain (String c s) = escape1 c +:+ Json.escape_plain s.
Proof. unfold escape1. simpl. by destruct (Json.escape_low c). Qed.

(** Reading back one written character. *)
Lemma parse_string_escape1 (c : ascii) (t : string) :
  Json.parse_string (escape1 c +:+ t)
  = match Json.parse_string t with
    | Some (x, rest) => Some (String c x, rest)
    | None => None
    end.
Proof.
  destruct c as [[] [] [] [] [] [] [] []]; reflexivity.
Qed.

Lemma parse_string_written (s rest : string) :
  Json.parse_string (Json.escape_plain s +:+ String Py.dquote rest) = Some (s, rest).
Proof.
  induction s as [|c s IH]; [done|].
  by rewrite escape_plain_cons, append_assoc, parse_string_escape1, IH.
Qed.

Lemma encode_string_plain (s : string) :
  Json.encode_string false s
  = String Py.dquote (Json.escape_plain s +:+ String Py.dquote EmptyString).
Proof. reflexivity. Qed.

Lemma take_digits_delimited (n : Z) (rest : string) :
  delimited rest → Json.take_digits n rest = (n, rest) ∧ Json.ends_int rest = true.
Proof. by intros [->|(t & [->| ->])]. Qed.

Lemma digit_val_pretty_char (x : N) :
  (x < 10)%N → Json.digit_val (pretty_N_char x) = Some (Z.of_N x).
Proof.
  intros Hx.
  assert (x = 0 ∨ x = 1 ∨ x = 2 ∨ x = 3 ∨ x = 4 ∨ x = 5 ∨ x = 6 ∨ x = 7 ∨ x = 8 ∨ x = 9)%N
    as Hcases by lia.
  by repeat destruct Hcases as [->|Hcases]; [..|subst x].
Qed.

Lemma take_digits_pretty_go (x : N) :
  ∃ p : Z, ∀ (s : string) (acc : Z),
    Json.take_digits acc (pretty_N_go x s) = Json.take_digits (acc * p + Z.of_N x) s.
Proof.
  induction (N.lt_wf_0 x) as [x _ IH].
  destruct (decide (x = 0)%N) as [->|Hx].
  - exists 1. intros s acc. rewrite pretty_N_go_0. f_equal. lia.
  - destruct (IH (x `div` 10)%N) as [p Hp]; [apply N.div_lt; lia|].
    exists (p * 10). intros s acc.
    rewrite pretty_N_go_step, Hp by lia. simpl.
    rewrite digit_val_pretty_char by (apply N.mod_lt; lia). f_equal.
    rewrite (N.div_mod x 10) at 3 by lia. lia.
Qed.

Lemma pretty_go_head (x : N) (s : string) :
  (0 < x)%N →
  ∃ c t d, pretty_N_go x s = String c t ∧ Json.digit_val c = Some d ∧ d ≠ 0.
Proof.
  revert s. induction (N.lt_wf_0 x) as [x _ IH]. intros s Hx.
  rewrite pretty_N_go_step by done.
  destruct (decide (x < 10)%N) as [Hlt|Hge].
  - rewrite N.div_small, pretty_N_go_0 by done.
    exists (pretty_N_char (x `mod` 10)), s, (Z.of_N (x `mod` 10)).
    rewrite digit_val_pretty_char by (apply N.mod_lt; lia).
    rewrite N.mod_small by done. split; [done|]. split; [done|lia].
  - apply IH; [apply N.div_lt; lia|]. apply N.div_str_pos. lia.
Qed.

Lemma pretty_go_append (x : N) (s rest : string) :
  pretty_N_go x s +:+ rest = pretty_N_go x (s +:+ rest).
Proof.
  revert s. induction (N.lt_wf_0 x) as [x _ IH]. intros s.
  destruct (decide (x = 0)%N) as [->|Hx]; [by rewrite !pretty_N_go_0|].
  rewrite (pretty_N_go_step x s), (pretty_N_go_step x (s +:+ rest)) by lia.
  rewrite IH by (apply N.div_lt; lia). by rewrite append_cons.
Qed.

Lemma parse_nat_pretty (x : N) (rest : string) :
  delimited rest → Json.parse_nat (pretty x +:+ rest) = Some (Z.of_N x, rest).
Proof.
  intros Hrest. destruct (take_digits_delimited (Z.of_N x) rest Hrest) as [Htd Hend].
  unfold pretty, pretty_N. case_decide as Hx.
  - subst x. rewrite append_cons, append_empty. unfold Json.parse_nat. simpl.
    by rewrite Hend.
  - rewrite pretty_go_append, append_empty.
    destruct (pretty_go_head x rest) as (c & t & d & Heq & Hd & Hne); [lia|].
    destruct (take_digits_pretty_go x) as [p Hp].
    pose proof (Hp rest 0) as Hgo. rewrite Heq in Hgo |- *.
    unfold Json.parse_nat. simpl in Hgo |- *. rewrite Hd in Hgo |- *. simpl.
    apply Z.eqb_neq in Hne. rewrite Hne.
    replace (0 * 10 + d) with d in Hgo by lia.
    replace (0 * p + Z.of_N x) with (Z.of_N x) in Hgo by lia.
    by rewrite Hgo, Htd, Hend.
Qed.

Lemma parse_int_pretty (z : Z) (rest : string) :
  delimited rest → Json.parse_int (pretty z +:+ rest) = Some (z, rest).
Proof.
  intros Hrest. destruct z as [|p|p].
  - apply (parse_nat_pretty 0 rest Hrest).
  - change (pretty (Z.pos p)) with (pretty (N.pos p)).
    pose proof (parse_nat_pretty (Npos p) rest Hrest) as Hn.
    destruct (pretty_go_head (Npos p) rest) as (c & t & d & Heq & Hd & Hne); [lia|].
    assert (pretty (N.pos p) +:+ rest = String c t) as Htext.
    { unfold pretty, pretty_N. rewrite decide_False by done.
      by rewrite pretty_go_append, append_empty. }
    rewrite Htext in Hn |- *. unfold Json.parse_int. rewrite Hn.
    clear Hn Htext Heq. by destruct c as [[] [] [] [] [] [] [] []].
  - change (pretty (Z.neg p)) with ("-" +:+ pretty (N.pos p)).
    rewrite append_assoc, append_cons, append_empty. unfold Json.parse_int.
    by rewrite (parse_nat_pretty (Npos p) rest Hrest).
Qed.

(** Induction on documents, with the property available for every
    element of a list and every value of a dictionary. *)
Section json_induction.
Context (P : json → Prop).
Context (Hnull : P JNull) (Hbool : ∀ b, P (JBool b)) (Hint : ∀ z, P (JInt z))
        (Hstr : ∀ s, P (JStr s))
        (Hlist : ∀ l, Forall P l → P (JList l))
        (Hdict : ∀ d, Forall (λ kv : string * json, P kv.2) d → P (JDict d)).

Fixpoint json_induction (v : json) : P v :=
  match v with
  | JNull => Hnull
  | JBool b => Hbool b
  | JInt z => Hint z
  | JStr s => Hstr s
  | JList l =>
      Hlist l ((fix all (l : list json) : Forall P l :=
                  match l with
                  | [] => Forall_nil_2 P
                  | x :: l' => Forall_cons_2 P x l' (json_induction x) (all l')
                  end) l)
  | JDict d =>
      Hdict d ((fix all (d : list (string * json)) : Forall (λ kv, P kv.2) d :=
                  match d with
                  | [] => Forall_nil_2 _
                  | kv :: d' =>
                      Forall_cons_2 (λ kv, P kv.2) kv d' (json_induction kv.2) (all d')
                  end) d)
  end.
End json_induction.

Lemma wf_list (l : list json) : wf (JList l) ↔ Forall wf l.
Proof.
  simpl. induction l as [|x l IH]; [by split; [constructor|]|].
  rewrite Forall_cons, <- IH. done.
Qed.

Lemma wf_dict (d : list (string * json)) :
  wf (JDict d) ↔ NoDup d.*1 ∧ Forall (λ kv, wf kv.2) d.
Proof.
  simpl. apply and_iff_compat_l.
  induction d as [|kv d IH]; [by split; [constructor|]|].
  rewrite Forall_cons, <- IH. done.
Qed.

Lemma skip_ws_spaces (n : nat) (t : string) :
  Json.skip_ws (Json.spaces n +:+ t) = Json.skip_ws t.
Proof.
  induction n as [|n IH]; [done|].
  change (Json.spaces (S n)) with (String " " (Json.spaces n)).
  by rewrite append_cons.
Qed.

Lemma skip_ws_nl (level : nat) (t : string) : Json.skip_ws (nl level +:+ t) = Json.skip_ws t.
Proof. unfold Json.newline_indent. rewrite append_cons. simpl. apply skip_ws_spaces. Qed.

Lemma nl_delimited (level : nat) (t : string) : delimited (nl level +:+ t).
Proof. right. eexists. right. unfold Json.newline_indent. by rewrite append_cons. Qed.

Lemma comma_delimited (t : string) : delimited ("," +:+ t).
Proof. right. eexists. by left. Qed.

Lemma digit_starts_value (c : ascii) (d : Z) :
  Json.digit_val c = Some d → starts_value c.
Proof. destruct c as [[] [] [] [] [] [] [] []]; by intros [=]. Qed.

Lemma pretty_Z_head (z : Z) (rest : string) :
  ∃ c t, pretty z +:+ rest = String c t ∧ starts_value c
         ∧ (Json.code c =? 34) = false ∧ (Json.code c =? 91) = false
         ∧ (Json.code c =? 123) = false ∧ (Json.code c =? 110) = false
         ∧ (Json.code c =? 116) = false ∧ (Json.code c =? 102) = false.
Proof.
  destruct z as [|p|p].
  - exists "0"%char, rest. by repeat split.
  - change (pretty (Z.pos p)) with (pretty (N.pos p)).
    destruct (pretty_go_head (Npos p) rest) as (c & t & d & Heq & Hd & _); [lia|].
    exists c, t. split.
    { unfold pretty, pretty_N. rewrite decide_False by done.
      by rewrite pretty_go_append, append_empty. }
    clear Heq. destruct c as [[] [] [] [] [] [] [] []]; by repeat split.
  - change (pretty (Z.neg p)) with ("-" +:+ pretty (N.pos p)).
    exists "-"%char, (pretty (N.pos p) +:+ rest).
    rewrite append_assoc, append_cons, append_empty. by repeat split.
Qed.

Lemma written_head (level : nat) (v : json) (rest : string) :
  ∃ c t, written level v +:+ rest = String c t ∧ starts_value c.
Proof.
  destruct v as [|[]|z|s|l|d].
  - by exists "n"%char, ("ull" +:+ rest).
  - by exists "t"%char, ("rue" +:+ rest).
  - by exists "f"%char, ("alse" +:+ rest).
  - destruct (pretty_Z_head z rest) as (c & t & ? & ? & _). by exists c, t.
  - eexists Py.dquote, _. simpl. rewrite encode_string_plain, append_cons. done.
  - simpl. unfold Json.bracket. destruct (List.map _ l);
      rewrite append_assoc, append_cons, append_empty; by eexists _, _.
  - simpl. unfold Json.bracket. destruct (List.map _ _);
      rewrite append_assoc, append_cons, append_empty; by eexists _, _.
Qed.

Lemma skip_ws_starts_value (c : ascii) (t : string) :
  starts_value c → Json.skip_ws (String c t) = String c t.
Proof. intros [Hws _]. simpl. by rewrite Hws. Qed.

Lemma skip_ws_written (level : nat) (v : json) (rest : string) :
  Json.skip_ws (written level v +:+ rest) = written level v +:+ rest.
Proof.
  destruct (written_head level v rest) as (c & t & -> & Hc).
  by apply skip_ws_starts_value.
Qed.

Lemma join_text (close : string) (level : nat) (items : list string) (rest : string) :
  items ≠ [] →
  Py.join ("," +:+ nl (S level)) items +:+ nl level +:+ close +:+ rest
  = seq_text close level items rest.
Proof.
  induction items as [|x items IH]; [done|]. intros _.
  destruct items as [|y items]; [done|].
  change (Py.join ?sep (x :: y :: items)) with (x +:+ sep +:+ Py.join sep (y :: items)).
  rewrite !append_assoc, IH by done. done.
Qed.

Lemma bracket_text (o close : string) (level : nat) (items : list string) (rest : string) :
  items ≠ [] →
  Json.bracket (Some 2%nat) o close level items +:+ rest
  = o +:+ nl (S level) +:+ seq_text close level items rest.
Proof.
  intros Hne. unfold Json.bracket. destruct items as [|x items]; [done|].
  change (Json.item_separator (Some 2%nat)) with ",".
  by rewrite !append_assoc, join_text.
Qed.

Lemma seq_text_head (close : string) (level : nat) (x : string) (items : list string)
    (rest : string) :
  ∃ t, seq_text close level (x :: items) rest = x +:+ t.
Proof. simpl. destruct items; eauto. Qed.

Lemma parse_value_string (f : nat) (r : string) :
  Json.parse_value (S f) (String Py.dquote r)
  = match Json.parse_string r with
    | Some (t, rest) => Some (JStr t, rest)
    | None => None
    end.
Proof. reflexivity. Qed.

Lemma parse_value_list (f : nat) (r : string) :
  Json.parse_value (S f) (String "[" r)
  = match Json.skip_ws r with
    | String c1 r1 =>
        if Json.code c1 =? 93 then Some (JList [], r1)
        else match Json.parse_elems f (String c1 r1) with
             | Some (vs, rest) => Some (JList vs, rest)
             | None => None
             end
    | EmptyString => None
    end.
Proof. reflexivity. Qed.

Lemma parse_value_dict (f : nat) (r : string) :
  Json.parse_value (S f) (String "{" r)
  = match Json.skip_ws r with
    | String c1 r1 =>
        if Json.code c1 =? 125 then Some (JDict [], r1)
        else match Json.parse_members f [] (String c1 r1) with
             | Some (d, rest) => Some (JDict d, rest)
             | None => None
             end
    | EmptyString => None
    end.
Proof. reflexivity. Qed.

Lemma parse_value_number (f : nat) (c : ascii) (r : string) :
  (Json.code c =? 34) = false → (Json.code c =? 91) = false →
  (Json.code c =? 123) = false → (Json.code c =? 110) = false →
  (Json.code c =? 116) = false → (Json.code c =? 102) = false →
  Json.parse_value (S f) (String c r)
  = match Json.parse_int (String c r) with
    | Some (n, rest) => Some (JInt n, rest)
    | None => None
    end.
Proof.
  intros H1 H2 H3 H4 H5 H6.
  change (Json.parse_value (S f) (String c r))
    with (if Json.code c =? 34 then
            '(t, rest) ← Json.parse_string r; Some (JStr t, rest)
          else if Json.code c =? 91 then
            match Json.skip_ws r with
            | String c1 r1 =>
                if Json.code c1 =? 93 then Some (JList [], r1)
                else '(vs, rest) ← Json.parse_elems f (String c1 r1); Some (JList vs, rest)
            | EmptyString => None
            end
          else if Json.code c =? 123 then
            match Json.skip_ws r with
            | String c1 r1 =>
                if Json.code c1 =? 125 then Some (JDict [], r1)
                else '(d, rest) ← Json.parse_members f [] (String c1 r1); Some (JDict d, rest)
            | EmptyString => None
            end
          else if Json.code c =? 110 then rest ← Json.expect "ull" r; Some (JNull, rest)
          else if Json.code c =? 116 then rest ← Json.expect "rue" r; Some (JBool true, rest)
          else if Json.code c =? 102 then rest ← Json.expect "alse" r; Some (JBool false, rest)
          else '(n, rest) ← Json.parse_int (String c r); Some (JInt n, rest)).
  by rewrite H1, H2, H3, H4, H5, H6.
Qed.

Lemma parse_elems_step (f : nat) (s : string) :
  Json.parse_elems (S f) s
  = match Json.parse_value f s with
    | Some (v, r) =>
        match Json.skip_ws r with
        | String c r' =>
            if Json.code c =? 44 then
              match Json.parse_elems f (Json.skip_ws r') with
              | Some (vs, rest) => Some (v :: vs, rest)
              | None => None
              end
            else if Json.code c =? 93 then Some ([v], r')
            else None
        | EmptyString => None
        end
    | None => None
    end.
Proof. simpl. by destruct (Json.parse_value f s) as [[v r]|]. Qed.

Lemma parse_members_step (f : nat) (acc : list (string * json)) (r : string) :
  Json.parse_members (S f) acc (String Py.dquote r)
  = match Json.parse_string r with
    | Some (k, r1) =>
        match Json.skip_ws r1 with
        | String c2 r2 =>
            if Json.code c2 =? 58 then
              match Json.parse_value f (Json.skip_ws r2) with
              | Some (v, r3) =>
                  match Json.skip_ws r3 with
                  | String c4 r4 =>
                      if Json.code c4 =? 44
                      then Json.parse_members f (Json.dict_set k v acc) (Json.skip_ws r4)
                      else if Json.code c4 =? 125 then Some (Json.dict_set k v acc, r4)
                      else None
                  | EmptyString => None
                  end
              | None => None
              end
            else None
        | EmptyString => None
        end
    | None => None
    end.
Proof.
  simpl. destruct (Json.parse_string r) as [[k r1]|]; [|done]. simpl.
  destruct (Json.skip_ws r1) as [|c2 r2]; [done|].
  destruct (Json.code c2 =? 58); [|done].
  by destruct (Json.parse_value f (Json.skip_ws r2)) as [[v r3]|].
Qed.

Lemma skip_ws_comma (t : string) : Json.skip_ws ("," +:+ t) = String "," t.
Proof. reflexivity. Qed.

Lemma skip_ws_close (close : ascii) (t : string) :
  Json.is_ws close = false →
  Json.skip_ws (nl 0 +:+ String close EmptyString +:+ t) = String close t.
Proof. intros H. rewrite skip_ws_nl, append_cons, append_empty. simpl. by rewrite H. Qed.

Lemma skip_ws_seq_text (close : string) (level : nat) (v : json) (items : list string)
    (rest : string) (k : nat) :
  Json.skip_ws (seq_text close level (written k v :: items) rest)
  = seq_text close level (written k v :: items) rest.
Proof.
  destruct (seq_text_head close level (written k v) items rest) as [t ->].
  apply skip_ws_written.
Qed.

Lemma seq_text_one (close : string) (level : nat) (a rest : string) :
  seq_text close level [a] rest = a +:+ nl level +:+ close +:+ rest.
Proof. reflexivity. Qed.

Lemma seq_text_more (close : string) (level : nat) (a b : string) (items : list string)
    (rest : string) :
  seq_text close level (a :: b :: items) rest
  = a +:+ "," +:+ nl (S level) +:+ seq_text close level (b :: items) rest.
Proof. reflexivity. Qed.

Lemma parse_elems_written (l : list json) :
  Forall reads_back l → Forall wf l → l ≠ [] →
  ∀ (level fuel : nat) (rest : string),
    (list_sum (List.map (λ x, S (need x)) l) ≤ fuel)%nat →
    Json.parse_elems fuel (seq_text "]" level (List.map (written (S level)) l) rest)
    = Some (l, rest).
Proof.
  induction l as [|x l IH]; [done|]. intros Hrb Hwf _ level fuel rest Hfuel.
  apply Forall_cons in Hrb as [Hx Hrb]. apply Forall_cons in Hwf as [Hwx Hwf].
  simpl in Hfuel. destruct fuel as [|f]; [lia|]. rewrite parse_elems_step.
  destruct l as [|y l].
  - cbn [List.map]. rewrite seq_text_one.
    rewrite Hx by (done || lia || apply nl_delimited).
    rewrite skip_ws_nl, append_cons, append_empty. done.
  - cbn [List.map]. rewrite seq_text_more.
    rewrite Hx by (done || lia || apply comma_delimited).
    rewrite skip_ws_comma. change (Json.code "," =? 44) with true. cbv iota.
    rewrite skip_ws_nl, skip_ws_seq_text.
    change (written (S level) y :: List.map (written (S level)) l)
      with (List.map (written (S level)) (y :: l)).
    rewrite IH; [done..|]. simpl in *. lia.
Qed.

Lemma member_text_eq (level : nat) (k : string) (v : json) (t : string) :
  member_text level (k, v) +:+ t
  = String Py.dquote
      (Json.escape_plain k
       +:+ String Py.dquote (String ":" (String " " (written (S level) v +:+ t)))).
Proof.
  unfold member_text. cbn [fst snd].
  rewrite encode_string_plain, !append_assoc, !append_cons, !append_assoc.
  by rewrite !append_cons, !append_empty.
Qed.

Lemma dict_set_fresh {V} (k : string) (v : V) (acc : list (string * V)) :
  k ∉ acc.*1 → Json.dict_set k v acc = acc ++ [(k, v)].
Proof.
  induction acc as [|[k' v'] acc IH]; intros Hk; [done|].
  apply not_elem_of_cons in Hk as [Hne Hk]. simpl in *.
  destruct (String.eqb_spec k k') as [->|_]; [done|]. by rewrite IH.
Qed.

Lemma parse_members_written (d : list (string * json)) :
  Forall (λ kv, reads_back kv.2) d → Forall (λ kv, wf kv.2) d → d ≠ [] →
  ∀ (level fuel : nat) (acc : list (string * json)) (rest : string),
    NoDup (acc ++ d).*1 →
    (list_sum (List.map (λ kv : string * json, S (need kv.2)) d) ≤ fuel)%nat →
    Json.parse_members fuel acc (seq_text "}" level (List.map (member_text level) d) rest)
    = Some (acc ++ d, rest).
Proof.
  induction d as [|[k v] d IH]; [done|]. intros Hrb Hwf _ level fuel acc rest Hnd Hfuel.
  apply Forall_cons in Hrb as [Hx Hrb]. apply Forall_cons in Hwf as [Hwx Hwf].
  cbn [snd] in Hx, Hwx. simpl in Hfuel. destruct fuel as [|f]; [lia|].
  assert (Hk : k ∉ acc.*1).
  { rewrite fmap_app in Hnd. apply NoDup_app in Hnd as (_ & Hdis & _).
    intros Hin. apply (Hdis k Hin). by left. }
  destruct d as [|[k2 v2] d].
  - cbn [List.map]. rewrite seq_text_one, member_text_eq, parse_members_step.
    rewrite parse_string_written.
    change (Json.skip_ws (String ":" ?t)) with (String ":" t).
    change (Json.code ":" =? 58) with true. cbv iota.
    change (Json.skip_ws (String " " ?t)) with (Json.skip_ws t).
    rewrite skip_ws_written, Hx by (done || lia || apply nl_delimited).
    rewrite skip_ws_nl, append_cons, append_empty.
    change (Json.skip_ws (String "}" rest)) with (String "}" rest).
    change (Json.code "}" =? 44) with false. change (Json.code "}" =? 125) with true.
    cbv iota. by rewrite dict_set_fresh.
  - cbn [List.map]. rewrite seq_text_more, member_text_eq, parse_members_step.
    rewrite parse_string_written.
    change (Json.skip_ws (String ":" ?t)) with (String ":" t).
    change (Json.code ":" =? 58) with true. cbv iota.
    change (Json.skip_ws (String " " ?t)) with (Json.skip_ws t).
    rewrite skip_ws_written, Hx by (done || lia || apply comma_delimited).
    rewrite skip_ws_comma. change (Json.code "," =? 44) with true. cbv iota.
    rewrite skip_ws_nl.
    assert (Json.skip_ws (seq_text "}" level
              (member_text level (k2, v2) :: List.map (member_text level) d) rest)
            = seq_text "}" level
                (member_text level (k2, v2) :: List.map (member_text level) d) rest) as ->.
    { destruct (seq_text_head "}" level (member_text level (k2, v2))
                  (List.map (member_text level) d) rest) as [t ->].
      by rewrite member_text_eq. }
    change (member_text level (k2, v2) :: List.map (member_text level) d)
      with (List.map (member_text level) ((k2, v2) :: d)).
    rewrite dict_set_fresh by done.
    rewrite IH; [by rewrite <- app_assoc|done..| |].
    + by rewrite <- app_assoc.
    + simpl in *. lia.
Qed.

(** Every well-formed document is read back from its written form. *)
Lemma written_reads_back (v : json) : reads_back v.
Proof.
  induction v as [|b|z|s|l IH|d IH] using json_induction;
    intros level fuel rest Hwf Hfuel Hrest; (destruct fuel as [|f]; [simpl in Hfuel; lia|]).
  - reflexivity.
  - by destruct b.
  - destruct (pretty_Z_head z rest) as (c & t & Heq & _ & H1 & H2 & H3 & H4 & H5 & H6).
    change (written level (JInt z)) with (pretty z).
    pose proof (parse_int_pretty z rest Hrest) as Hint.
    rewrite Heq in Hint |- *. by rewrite parse_value_number, Hint.
  - change (written level (JStr s)) with (Json.encode_string false s).
    rewrite encode_string_plain, append_cons, append_assoc, append_cons, append_empty.
    by rewrite parse_value_string, parse_string_written.
  - apply wf_list in Hwf. destruct l as [|x l]; [done|].
    change (written level (JList (x :: l)))
      with (Json.bracket (Some 2%nat) "[" "]" level (List.map (written (S level)) (x :: l))).
    rewrite bracket_text by done. rewrite append_cons, append_empty, parse_value_list.
    rewrite skip_ws_nl. cbn [List.map]. rewrite skip_ws_seq_text.
    destruct (seq_text_head "]" level (written (S level) x)
                (List.map (written (S level)) l) rest) as [t Ht].
    destruct (written_head (S level) x t) as (c & u & Hc & _ & Hc93 & _).
    pose proof (parse_elems_written (x :: l) IH Hwf ltac:(done) level f rest) as Hp.
    cbn [List.map] in Hp. rewrite Ht, Hc in Hp |- *. rewrite Hc93, Hp; [done|].
    simpl in Hfuel |- *. lia.
  - apply wf_dict in Hwf as [Hnd Hwf]. destruct d as [|[k v] d]; [done|].
    change (written level (JDict ((k, v) :: d)))
      with (Json.bracket (Some 2%nat) "{" "}" level
              (List.map (λ kv : string * string, Json.encode_string false kv.1 +:+ ": " +:+ kv.2)
                 (List.map (λ kv : string * json, (kv.1, written (S level) kv.2))
                    ((k, v) :: d)))).
    rewrite map_map.
    change (List.map _ ((k, v) :: d)) with (List.map (member_text level) ((k, v) :: d)).
    rewrite bracket_text by done. rewrite append_cons, append_empty, parse_value_dict.
    rewrite skip_ws_nl.
    pose proof (parse_members_written ((k, v) :: d) IH Hwf ltac:(done) level f [] rest Hnd)
      as Hp.
    cbn [List.map] in Hp |- *.
    destruct (seq_text_head "}" level (member_text level (k, v))
                (List.map (member_text level) d) rest) as [t Ht].
    rewrite Ht, member_text_eq in Hp |- *.
    change (Json.skip_ws (String Py.dquote ?x)) with (String Py.dquote x).
    change (Json.code Py.dquote =? 125) with false. cbv iota.
    rewrite Hp; [done|]. simpl in Hfuel |- *. lia.
Qed.

(** The fuel of [loads], twice the length of the text, is enough. *)
Lemma length_join (sep x : string) (items : list string) :
  (2 ≤ String.length sep)%nat →
  (String.length x + list_sum (List.map (λ i, String.length i + 2) items)
   ≤ String.length (Py.join sep (x :: items)))%nat.
Proof.
  intros Hsep. revert x. induction items as [|y items IH]; intros x; [simpl; lia|].
  change (Py.join sep (x :: y :: items)) with (x +:+ sep +:+ Py.join sep (y :: items)).
  rewrite !length_append. specialize (IH y). cbn [List.map]. simpl list_sum. lia.
Qed.

Lemma length_bracket (o close : ascii) (level : nat) (x : string) (items : list string) :
  (4 + String.length x + list_sum (List.map (λ i, String.length i + 2) items)
   ≤ String.length (Json.bracket (Some 2%nat) (String o EmptyString)
                      (String close EmptyString) level (x :: items)))%nat.
Proof.
  unfold Json.bracket. rewrite !length_append.
  pose proof (length_join (Json.item_separator (Some 2%nat) +:+ nl (S level)) x items) as Hj.
  rewrite length_append in Hj. unfold Json.newline_indent in *.
  change (String.length (Json.item_separator (Some 2%nat))) with 1%nat in Hj.
  change (String.length (String ?a ?t)) with (S (String.length t)) in *.
  specialize (Hj ltac:(lia)). lia.
Qed.

Lemma written_nonempty (level : nat) (v : json) : (1 ≤ String.length (written level v))%nat.
Proof.
  destruct (written_head level v EmptyString) as (c & t & Heq & _).
  rewrite append_empty_r in Heq. rewrite Heq. simpl. lia.
Qed.

Lemma need_le_length (v : json) :
  ∀ level, (need v ≤ 2 * String.length (written level v))%nat.
Proof.
  induction v as [|b|z|s|l IH|d IH] using json_induction; intros level.
  - pose proof (written_nonempty level JNull). simpl need. lia.
  - pose proof (written_nonempty level (JBool b)). simpl need. lia.
  - pose proof (written_nonempty level (JInt z)). simpl need. lia.
  - pose proof (written_nonempty level (JStr s)). simpl need. lia.
  - destruct l as [|x l]; [simpl; lia|].
    change (written level (JList (x :: l)))
      with (Json.bracket (Some 2%nat) "[" "]" level (List.map (written (S level)) (x :: l))).
    cbn [List.map].
    pose proof (length_bracket "["%char "]"%char level (written (S level) x)
                  (List.map (written (S level)) l)) as Hb.
    apply Forall_cons in IH as [Hx IH]. specialize (Hx (S level)).
    assert (list_sum (List.map (λ x, S (need x)) l)
            ≤ 2 * list_sum (List.map (λ i, String.length i + 2)
                              (List.map (written (S level)) l)))%nat as Hsum.
    { clear Hb. induction l as [|y l IHl]; [simpl; lia|].
      apply Forall_cons in IH as [Hy IH]. specialize (Hy (S level)).
      specialize (IHl IH). simpl in *. lia. }
    simpl need. lia.
  - destruct d as [|[k v] d]; [simpl; lia|].
    change (written level (JDict ((k, v) :: d)))
      with (Json.bracket (Some 2%nat) "{" "}" level
              (List.map (λ kv : string * string, Json.encode_string false kv.1 +:+ ": " +:+ kv.2)
                 (List.map (λ kv : string * json, (kv.1, written (S level) kv.2))
                    ((k, v) :: d)))).
    rewrite map_map.
    change (List.map _ ((k, v) :: d)) with (List.map (member_text level) ((k, v) :: d)).
    cbn [List.map].
    pose proof (length_bracket "{"%char "}"%char level (member_text level (k, v))
                  (List.map (member_text level) d)) as Hb.
    assert (∀ kv : string * json,
              (String.length (written (S level) kv.2)
               ≤ String.length (member_text level kv))%nat) as Hm.
    { intros kv. unfold member_text. rewrite !length_append. lia. }
    apply Forall_cons in IH as [Hx IH]. specialize (Hx (S level)). cbn [snd] in Hx.
    pose proof (Hm (k, v)) as Hkv. cbn [snd] in Hkv.
    assert (list_sum (List.map (λ kv : string * json, S (need kv.2)) d)
            ≤ 2 * list_sum (List.map (λ i, String.length i + 2)
                              (List.map (member_text level) d)))%nat as Hsum.
    { clear Hb. induction d as [|y d IHd]; [simpl; lia|].
      apply Forall_cons in IH as [Hy IH]. specialize (Hy (S level)).
      specialize (IHd IH). pose proof (Hm y). simpl in *. lia. }
    simpl need. lia.
Qed.

(** [json.load] after [json.dump]: a well-formed document comes back
    unchanged from the text written for it. *)
Lemma loads_dumps (v : json) :
  wf v → Json.loads (Json.dumps false false (Some 2%nat) v) = Some v.
Proof.
  intros Hwf. unfold Json.loads, Json.dumps.
  pose proof (skip_ws_written 0 v EmptyString) as Hskip.
  pose proof (written_reads_back v 0%nat
                (2 * String.length (written 0 v) + 2)%nat EmptyString Hwf) as Hread.
  rewrite append_empty_r in Hskip, Hread. rewrite Hskip, Hread; [done| |by left].
  pose proof (need_le_length v 0). lia.
Qed.

(** ** The cache round trip *)

Lemma hit_of_dict_asdict (h : OSINTHit) : hit_of_dict (asdict h) = Some h.
Proof. by destruct h. Qed.

Lemma mapM_hit_of_dict (hits : list OSINTHit) :
  mapM hit_of_dict (List.map asdict hits) = Some hits.
Proof.
  induction hits as [|h hits IH]; [done|].
  cbn [List.map].
  change (mapM hit_of_dict (asdict h :: List.map asdict hits))
    with (y ← hit_of_dict (asdict h); k ← mapM hit_of_dict (List.map asdict hits);
          mret (y :: k)).
  by rewrite hit_of_dict_asdict, IH.
Qed.

Lemma wf_asdict (h : OSINTHit) : wf_hit h → wf (asdict h).
Proof.
  intros Hraw. unfold asdict. apply wf_dict. split.
  - by apply (bool_decide_unpack _).
  - repeat (apply Forall_cons; split; [done|]). done.
Qed.

Lemma wf_hit_list (hits : list OSINTHit) :
  Forall wf_hit hits → wf (JList (List.map asdict hits)).
Proof.
  intros Hwf. apply wf_list. induction Hwf as [|h hits Hh _ IH]; [constructor|].
  cbn [List.map]. apply Forall_cons. split; [by apply wf_asdict|done].
Qed.

Lemma save_cache_stored (d : disk) (q : OSINTQuery) (hits : list OSINTHit) :
  (save_cache d q hits).1 ≠ EmptyString →
  (save_cache d q hits).1 = cache_path_for_query q
  ∧ files (save_cache d q hits).2 !! cache_path_for_query q
    = Some (Json.dumps false false (Some 2%nat) (JList (List.map asdict hits))).
Proof.
  unfold save_cache. destruct (writable d); [|done]. intros _. cbn [fst snd files].
  by rewrite lookup_insert_eq.
Qed.

(** The file that [save_cache] wrote is read back by [load_cache] as the
    list that was stored. *)
Lemma load_saved (d : disk) (q : OSINTQuery) (hits : list OSINTHit) :
  Forall wf_hit hits →
  (save_cache d q hits).1 ≠ EmptyString →
  load_cache (save_cache d q hits).2 q = hits.
Proof.
  intros Hwf Hok. destruct (save_cache_stored d q hits Hok) as [_ Hfile].
  unfold load_cache. rewrite Hfile, loads_dumps by (by apply wf_hit_list).
  by rewrite mapM_hit_of_dict.
Qed.

(** C6: after a successful store of a hit list under the key of a query,
    a lookup for the same query returns the same hits in the same order.
    A dictionary is an association list in the model; [wf_hit] says of
    the raw metadata of a hit what holds of every Python [dict]: no key
    is held twice. *)
Theorem cache_round_trip (d : disk) (q : OSINTQuery) (hits : list OSINTHit) :
  hits ≠ [] → Forall wf_hit hits →
  (save_cache d q hits).1 ≠ EmptyString →
  load_cache (save_cache d q hits).2 q = hits.
Proof. intros _. apply load_saved. Qed.

Lemma cache_round_trip_witness :
  load_cache (save_cache (mkDisk ∅ true) query_alice sample_hits).2 query_alice
  = sample_hits.
Proof.
  apply cache_round_trip.
  - done.
  - unfold sample_hits. repeat (apply Forall_cons; split); try apply Forall_nil_2;
      unfold wf_hit; apply wf_dict; (split; [|by repeat constructor]);
      by apply (bool_decide_unpack _).
  - intros H. vm_compute in H. discriminate H.
Defined.

(** ** A second run of the same query *)

Lemma persist_shows_no_hit w d q rs : hits_of (ui_events (persist w d q rs).1.1) = [].
Proof. unfold persist, save_reports. by destruct rs, (reports_writable w). Qed.

Lemma persist_cache w d q rs :
  rs ≠ [] → (persist w d q rs).1.2 = (save_cache d q rs).2.
Proof. unfold persist, save_reports. by destruct rs, (reports_writable w). Qed.

Lemma clear_cache_writable d q : writable (clear_cache_for_query d q).2 = writable d.
Proof.
  unfold clear_cache_for_query.
  destruct (files d !! cache_path_for_query q); [|done]. by destruct (writable d) eqn:E.
Qed.

(** What a live run leaves in the cache is what it showed. *)
Lemma live_run_cached (w : world) (self : App) (sites : list string) (skip_cache : bool) :
  writable (cache w) = true →
  hits_of (ui_events (trace (live_run w self sites skip_cache))) ≠ [] →
  Forall wf_hit (hits_of (ui_events (trace (live_run w self sites skip_cache)))) →
  load_cache (cache_after (live_run w self sites skip_cache)) (query self)
  = hits_of (ui_events (trace (live_run w self sites skip_cache))).
Proof.
  intros Hw. unfold live_run.
  assert (writable (if skip_cache then clear_cache_for_query (cache w) (query self)
                    else (false, cache w)).2 = true) as Hw0.
  { destruct skip_cache; [by rewrite clear_cache_writable|done]. }
  destruct (if skip_cache then clear_cache_for_query (cache w) (query self)
            else (false, cache w)) as [cleared d0]. cbn [snd] in Hw0.
  pose proof (prefilter_shown (DATASETS w) (query self) (ordered_sites sites)) as Hshown.
  destruct (dataset_prefilter _ _ _) as [rs trd]. cbn [fst snd] in Hshown.
  assert (∀ results tail,
    hits_of (ui_events tail) = [] →
    hits_of (ui_events (persist w d0 (query self) results).1.1) = [] →
    ∀ pool, rs ++ hits_of (ui_events pool) = results →
    hits_of (ui_events
      (((if cleared then [Ui (note "Cache cleared for this query (skip cache requested)")]
         else [])
       ++ [Ui (setup_progress (length sites));
           Ui (note "Running public dataset lookups first...")]
       ++ trd
       ++ [Ui (note (if bool_decide (satisfied_sites rs = ∅)
                     then "No dataset hits found — will proceed to scrapers."
                     else "Datasets satisfied: "
                          +:+ Py.join ", " (sorted (elements (satisfied_sites rs)))))])
       ++ pool ++ (persist w d0 (query self) results).1.1 ++ tail)) = results) as Hall.
  { intros results tail Htail Hp pool <-.
    rewrite !ui_events_app, !hits_of_app, Hshown, Hp, Htail.
    destruct cleared; cbn; by rewrite ?app_nil_r. }
  assert (∀ results, results ≠ [] → Forall wf_hit results →
            load_cache (persist w d0 (query self) results).1.2 (query self) = results) as Hload.
  { intros results Hne Hwf. rewrite persist_cache by done.
    apply load_saved; [done|]. unfold save_cache. by rewrite Hw0. }
  destruct (sites_to_scrape _ _) as [|s0 l0].
  - pose proof (Hall rs) as Hall'. pose proof (Hload rs) as Hload'.
    pose proof (persist_shows_no_hit w d0 (query self) rs) as Hp.
    destruct (persist w d0 (query self) rs) as [[trp d1] fin]. cbn [fst snd] in *.
    cbn [trace cache_after].
    specialize (Hall' (match fin with
                       | Ok _ => [Ui (done (length rs))]
                       | Raise _ => []
                       end) ltac:(by destruct fin) Hp
                  [Ui (note "All sites satisfied by datasets — skipping live scrapers.")]
                  ltac:(by rewrite app_nil_r)).
    rewrite <- !app_assoc in Hall' |- *. cbn [app] in Hall' |- *.
    rewrite Hall'. auto.
  - set (pool := scheduler _ _ _ _ _ _).
    set (results := rs ++ hits_of (ui_events pool)).
    pose proof (Hall results) as Hall'. pose proof (Hload results) as Hload'.
    pose proof (persist_shows_no_hit w d0 (query self) results) as Hp.
    destruct (persist w d0 (query self) results) as [[trp d1] fin]. cbn [fst snd] in *.
    cbn [trace cache_after].
    specialize (Hall' (match fin with
                       | Ok _ =>
                           match results with
                           | [] =>
                               [ Ui (note "No scraper results returned for selected sites.");
                                 Ui (note ("Registered scrapers: " +:+
                                           Py.join ", " (sorted (elements (dom (SCRAPERS w)))))) ]
                           | _ => []
                           end ++ [Ui (done (length results))]
                       | Raise _ => []
                       end) ltac:(by destruct fin, results) Hp pool eq_refl).
    rewrite <- !app_assoc in Hall' |- *. rewrite Hall'. auto.
Qed.

(** The scenario of C8: after a live run that showed a non-empty list of
    hits and could write the cache, a run of the same query without a
    bypass request replays those hits, calls no dataset provider and
    submits no task, whatever the rest of the world has become. *)
Lemma second_run_short_circuits (w w' : world) (self : App) (sites sites' : list string)
    (skip_cache : bool) :
  writable (cache w) = true →
  hits_of (ui_events (trace (live_run w self sites skip_cache))) ≠ [] →
  Forall wf_hit (hits_of (ui_events (trace (live_run w self sites skip_cache)))) →
  cache w' = cache_after (live_run w self sites skip_cache) →
  hits_of (ui_events (trace (_background_run w' self sites' false)))
  = hits_of (ui_events (trace (live_run w self sites skip_cache)))
  ∧ dataset_calls (trace (_background_run w' self sites' false)) = []
  ∧ dispatched (trace (_background_run w' self sites' false)) = [].
Proof.
  intros Hw Hne Hwf Hc.
  pose proof (live_run_cached w self sites skip_cache Hw Hne Hwf) as Hload.
  rewrite <- Hc in Hload. unfold _background_run. rewrite Hload.
  destruct (hits_of _) as [|h hs]; [done|]. cbn [trace].
  rewrite ui_events_ui, replay_hits. unfold dataset_calls, dispatched.
  by rewrite !omap_ui_none.
Qed.

(** * Further properties *)

(** ** Names, digits and links *)

Lemma string_rev_app (s1 s2 : string) :
  String.rev_app s1 s2 = String.rev s1 +:+ s2.
Proof.
  unfold String.rev. revert s2. induction s1 as [|c s1 IH]; intros s2; cbn.
  - by rewrite append_empty.
  - rewrite (IH (String c s2)), (IH (String c EmptyString)), append_assoc.
    by rewrite append_cons, append_empty.
Qed.

Lemma string_rev_cons (c : ascii) (s : string) :
  String.rev (String c s) = String.rev s +:+ String c EmptyString.
Proof. unfold String.rev at 1. cbn. apply string_rev_app. Qed.

Lemma string_rev_append (a b : string) :
  String.rev (a +:+ b) = String.rev b +:+ String.rev a.
Proof.
  induction a as [|c a IH].
  - by rewrite append_empty, append_empty_r.
  - by rewrite append_cons, !string_rev_cons, IH, append_assoc.
Qed.

Lemma string_rev_involutive (s : string) : String.rev (String.rev s) = s.
Proof.
  induction s as [|c s IH]; [done|].
  by rewrite string_rev_cons, string_rev_append, IH.
Qed.

Lemma lstrip_length (s : string) : (String.length (Py.lstrip s) ≤ String.length s)%nat.
Proof. induction s as [|c s IH]; cbn; [lia|]. destruct (Py.isspace c); cbn; lia. Qed.

Lemma lstrip_fixed (c : ascii) (s : string) :
  Py.lstrip (String c s) = String c s → Py.isspace c = false.
Proof.
  cbn. destruct (Py.isspace c); [|done]. intros H.
  pose proof (lstrip_length s) as Hl. rewrite H in Hl. cbn in Hl. lia.
Qed.

Lemma lstrip_idemp (s : string) : Py.lstrip (Py.lstrip s) = Py.lstrip s.
Proof.
  induction s as [|c s IH]; [done|]. cbn. destruct (Py.isspace c) eqn:E; [done|].
  cbn. by rewrite E.
Qed.

Lemma lstrip_append (a b : string) (c : ascii) :
  Py.isspace c = false →
  Py.lstrip (a +:+ String c b) = Py.lstrip a +:+ String c b.
Proof.
  intros Hc. induction a as [|x a IH].
  - rewrite append_empty. cbn. by rewrite Hc, append_empty.
  - rewrite append_cons. cbn. destruct (Py.isspace x); [done|]. by rewrite append_cons.
Qed.

Lemma strip_trimmed (s : string) : trimmed (Py.strip s).
Proof.
  unfold trimmed, Py.strip, Py.rstrip. rewrite string_rev_involutive, lstrip_idemp.
  split; [|done].
  pose proof (lstrip_idemp s) as Ht. destruct (Py.lstrip s) as [|c t]; [done|].
  apply lstrip_fixed in Ht.
  rewrite string_rev_cons, lstrip_append, string_rev_append by done.
  change (String.rev (String c EmptyString)) with (String c EmptyString).
  rewrite append_cons, append_empty. cbn. by rewrite Ht.
Qed.

Lemma trimmed_strip (s : string) : trimmed s → Py.strip s = s.
Proof.
  intros [H1 H2]. unfold Py.strip, Py.rstrip. by rewrite H1, H2, string_rev_involutive.
Qed.

Lemma trimmed_join (a b : string) :
  trimmed a → trimmed b → a ≠ EmptyString → b ≠ EmptyString →
  trimmed (a +:+ " " +:+ b).
Proof.
  intros [Ha _] [_ Hb] Hna Hnb. split.
  - destruct a as [|c a]; [done|]. pose proof (lstrip_fixed _ _ Ha) as Hc.
    rewrite append_cons. cbn. by rewrite Hc.
  - rewrite !string_rev_append.
    destruct (String.rev b) as [|c rb] eqn:E.
    { apply (f_equal String.rev) in E. rewrite string_rev_involutive in E. done. }
    pose proof (lstrip_fixed _ _ Hb) as Hc.
    rewrite !append_cons. cbn [Py.lstrip]. by rewrite Hc.
Qed.

Lemma truthy_spec (s : string) : Py.truthy s = true ↔ s ≠ EmptyString.
Proof. by destruct s. Qed.


Lemma digits_only_list (s : string) :
  list_ascii_of_string (digits_only s)
  = filter (λ c, Py.isdigit c = true) (list_ascii_of_string s).
Proof. unfold digits_only. by rewrite list_ascii_of_string_of_list_ascii. Qed.

Lemma filter_all {A} (P : A → Prop) `{!∀ x, Decision (P x)} (l : list A) :
  Forall P l → filter P l = l.
Proof.
  induction 1 as [|x l Hx _ IH]; [done|].
  by rewrite filter_cons_True, IH.
Qed.

Lemma length_list_ascii (s : string) :
  length (list_ascii_of_string s) = String.length s.
Proof. induction s as [|c s IH]; cbn; [done|]. by rewrite IH. Qed.

Lemma digits_only_all (s : string) :
  Forall (λ c, Py.isdigit c = true) (list_ascii_of_string (digits_only s)).
Proof.
  rewrite digits_only_list. apply Forall_forall. intros c Hc.
  apply list_elem_of_filter in Hc. tauto.
Qed.



Lemma site_url_https : Forall (λ kv : string * string, String.prefix "https://" kv.2 = true) SITE_URL.
Proof. repeat constructor. Qed.

(** X3: the home link of a site, when there is one, is an [https] link. *)
Theorem site_base_url_https (s u : string) :
  site_base_url s = Some u → ∃ rest, u = "https://" +:+ rest.
Proof.
  unfold site_base_url. destruct (dict_get s SITE_URL) as [u'|] eqn:E.
  - intros [= <-]. apply dict_get_elem in E.
    pose proof (proj1 (Forall_forall _ _) site_url_https _ E) as H.
    by apply prefix_spec in H.
  - destruct (dict_get s SITE_DOMAIN) as [[dom|]|]; try done.
    destruct (Py.truthy dom); [|done]. intros [= <-]. by exists dom.
Qed.

Lemma site_base_url_https_witness :
  ∃ rest, "https://www.openstreetmap.org/" = "https://" +:+ rest.
Proof. exact (site_base_url_https "OpenStreetMap" _ eq_refl). Defined.

Lemma list_ascii_append (a b : string) :
  list_ascii_of_string (a +:+ b) = list_ascii_of_string a ++ list_ascii_of_string b.
Proof. induction a as [|c a IH]; [done|]. rewrite append_cons. cbn. by rewrite IH. Qed.

Lemma query_text_append (a b : string) :
  query_text a → query_text b → query_text (a +:+ b).
Proof. unfold query_text. rewrite list_ascii_append. apply Forall_app_2. Qed.

Lemma quote_plus_char_text (c : ascii) : query_text (quote_plus_char c).
Proof.
  destruct c as [[] [] [] [] [] [] [] []]; by repeat constructor.
Qed.

Lemma quote_plus_text (s : string) : query_text (quote_plus s).
Proof.
  induction s as [|c s IH]; [constructor|].
  cbn [quote_plus]. apply query_text_append; [apply quote_plus_char_text|done].
Qed.

Lemma quote_plus_append (a b : string) :
  quote_plus (a +:+ b) = quote_plus a +:+ quote_plus b.
Proof.
  induction a as [|c a IH]; [done|].
  rewrite append_cons. cbn [quote_plus]. by rewrite IH, append_assoc.
Qed.

Lemma engine_base (e : string) :
  ∃ base, dict_get (engine_guard e) ENGINES = Some base
          ∧ default "https://duckduckgo.com/?q=" (dict_get e ENGINES) = base.
Proof.
  unfold engine_guard. destruct (dict_get e ENGINES) as [b|] eqn:E.
  - exists b. by rewrite E.
  - by exists "https://duckduckgo.com/?q=".
Qed.

(** X4: a dork link is the base address of the guarded engine followed by
    an encoded query: letters, digits, [_.-~], [+] and [%] escapes, and
    nothing else, whatever the query fields hold. *)
Theorem dork_url_query_text (s : string) (q : OSINTQuery) (e : string) :
  ∃ base rest,
    dict_get (engine_guard e) ENGINES = Some base
    ∧ dork_url s q e = base +:+ rest
    ∧ query_text rest.
Proof.
  destruct (engine_base e) as (base & Hb & Hd).
  unfold dork_url. rewrite Hd. eexists base, _.
  split; [done|]. split; [done|]. apply quote_plus_text.
Qed.

Lemma join_cons (sep x : string) (l : list string) :
  Py.join sep (x :: l)
  = x +:+ match l with [] => EmptyString | _ => sep +:+ Py.join sep l end.
Proof. destruct l; cbn; [by rewrite append_empty_r|done]. Qed.

(** X5: for a site with a known domain the dork is restricted to that
    domain: the encoded query starts with [site:] and the domain. *)
Theorem dork_url_site_restricted (s d : string) (q : OSINTQuery) (e : string) :
  dict_get s SITE_DOMAIN = Some (Some d) → d ≠ EmptyString →
  ∃ base rest,
    dict_get (engine_guard e) ENGINES = Some base
    ∧ dork_url s q e = base +:+ "site%3A" +:+ quote_plus d +:+ rest.
Proof.
  intros Hs Hd. destruct (engine_base e) as (base & Hb & Hdef).
  unfold dork_url. rewrite Hdef, Hs. cbn [mjoin option_join].
  apply truthy_spec in Hd. rewrite Hd.
  exists base. cbn [app].
  match goal with |- context [Py.join " " (?x :: ?l)] => rewrite (join_cons " " x l) end.
  rewrite !quote_plus_append. eexists. split; [done|].
  by rewrite append_assoc.
Qed.

Lemma dork_url_site_restricted_witness :
  ∃ base rest,
    dict_get (engine_guard "Bing") ENGINES = Some base
    ∧ dork_url "Zillow" query_alice "Bing"
      = base +:+ "site%3A" +:+ quote_plus "zillow.com" +:+ rest.
Proof. by apply (dork_url_site_restricted "Zillow" "zillow.com"). Defined.

(** ** The shape of a cache path *)

Lemma round_length (st : list Z) (kw : Z * Z) :
  length st = 8%nat → length (SHA256.round st kw) = 8%nat.
Proof. do 9 (destruct st as [|? st]; try done). Qed.

Lemma rounds_length (l : list (Z * Z)) (st : list Z) :
  length st = 8%nat → length (fold_left SHA256.round l st) = 8%nat.
Proof.
  revert st. induction l as [|kw l IH]; intros st Hst; [done|].
  cbn [fold_left]. by apply IH, round_length.
Qed.

Lemma compress_length (st block : list Z) :
  length st = 8%nat → length (SHA256.compress st block) = 8%nat.
Proof.
  intros Hst. unfold SHA256.compress.
  rewrite length_map, length_combine, rounds_length by done. lia.
Qed.

Lemma digest_length (s : string) : length (SHA256.digest s) = 8%nat.
Proof.
  unfold SHA256.digest. generalize (SHA256.blocks
    (length (SHA256.words (length (SHA256.pad (SHA256.bytes_of s)))
               (SHA256.pad (SHA256.bytes_of s))))
    (SHA256.words (length (SHA256.pad (SHA256.bytes_of s)))
               (SHA256.pad (SHA256.bytes_of s)))).
  intros bl. assert (H : length SHA256.H0 = 8%nat) by reflexivity.
  revert H. generalize SHA256.H0. induction bl as [|b bl IH]; intros st Hst; [done|].
  cbn [fold_left]. by apply IH, compress_length.
Qed.

Lemma be_bytes_spec (n : nat) (x : Z) :
  length (SHA256.be_bytes n x) = n
  ∧ Forall (λ b, 0 ≤ b < 256) (SHA256.be_bytes n x).
Proof.
  induction n as [|n [IH1 IH2]]; [by split|]. cbn [SHA256.be_bytes]. split.
  - cbn. by rewrite IH1.
  - constructor; [|done]. apply Z.mod_pos_bound. lia.
Qed.

Lemma digest_bytes (ws : list Z) :
  length (List.concat (List.map (SHA256.be_bytes 4) ws)) = (4 * length ws)%nat
  ∧ Forall (λ b, 0 ≤ b < 256) (List.concat (List.map (SHA256.be_bytes 4) ws)).
Proof.
  induction ws as [|w ws [IH1 IH2]]; [by split|].
  cbn [List.map List.concat]. destruct (be_bytes_spec 4 w) as [H1 H2]. split.
  - rewrite length_app, H1, IH1. cbn. lia.
  - by apply Forall_app_2.
Qed.

Lemma hex_digit_lower (n : Z) : 0 ≤ n < 16 → hex_lower (Json.hex_digit n) = true.
Proof.
  intros Hn. assert (H : (Z.to_nat n < 16)%nat) by lia.
  rewrite <- (Z2Nat.id n) by lia. revert H. generalize (Z.to_nat n). intros m Hm.
  do 16 (destruct m as [|m]; [reflexivity|]). lia.
Qed.

Lemma hex_bytes_spec (bs : list Z) :
  Forall (λ b, 0 ≤ b < 256) bs →
  String.length (String.concat EmptyString (List.map SHA256.hex_byte bs))
  = (2 * length bs)%nat
  ∧ Forall (λ c, hex_lower c = true)
      (list_ascii_of_string (String.concat EmptyString (List.map SHA256.hex_byte bs))).
Proof.
  induction 1 as [|b bs Hb _ [IH1 IH2]]; [by split|].
  assert (E : String.concat EmptyString (List.map SHA256.hex_byte (b :: bs))
              = SHA256.hex_byte b +:+ String.concat EmptyString (List.map SHA256.hex_byte bs)).
  { cbn [List.map String.concat]. destruct (List.map SHA256.hex_byte bs); [|done].
    by rewrite append_empty_r. }
  rewrite E. unfold SHA256.hex_byte at 1 3. rewrite !append_cons, append_empty. split.
  - cbn [String.length length]. rewrite IH1. lia.
  - cbn [list_ascii_of_string]. repeat constructor; [| |done].
    + apply hex_digit_lower. split; [apply Z.div_pos; lia|apply Z.div_lt_upper_bound; lia].
    + apply hex_digit_lower, Z.mod_pos_bound. lia.
Qed.

(** X6: the cache file of a query is named by 64 lower-case hexadecimal
    digits under [reports/cache], whatever the fields hold: no text of
    the query reaches the path. *)
Theorem cache_path_shape (q : OSINTQuery) :
  cache_path_for_query q = "reports/cache/" +:+ cache_key_for_query q +:+ ".json"
  ∧ String.length (cache_key_for_query q) = 64%nat
  ∧ Forall (λ c, hex_lower c = true) (list_ascii_of_string (cache_key_for_query q)).
Proof.
  split; [reflexivity|]. unfold cache_key_for_query, SHA256.hexdigest.
  destruct (digest_bytes (SHA256.digest (canonical_payload q))) as [Hl Hb].
  destruct (hex_bytes_spec _ Hb) as [H1 H2]. rewrite digest_length in Hl.
  split; [|done]. rewrite H1, Hl. done.
Qed.


(** ** The canonical payload separates queries *)

Lemma sort_query_items {V} (a b c d e f g h i : V) :
  Json.sort_items
    [ ("first", a); ("last", b); ("username", c); ("email", d); ("phone", e);
      ("address1", f); ("city", g); ("state", h); ("zip", i) ]
  = [ ("address1", f); ("city", g); ("email", d); ("first", a); ("last", b);
      ("phone", e); ("state", h); ("username", c); ("zip", i) ].
Proof. by vm_compute. Qed.

Lemma encode_string_inj (a b r r' : string) :
  Json.encode_string false a +:+ r = Json.encode_string false b +:+ r' →
  a = b ∧ r = r'.
Proof.
  rewrite !encode_string_plain, !append_cons, !append_assoc, !append_cons, !append_empty.
  intros [= H]. apply (f_equal Json.parse_string) in H.
  rewrite !parse_string_written in H. by injection H.
Qed.

Lemma canonical_payload_eq (q : OSINTQuery) :
  canonical_payload q
  = "{" +:+ Json.encode_string false "address1" +:+ ": "
        +:+ Json.encode_string false (Query.address1 q) +:+ ", "
        +:+ Json.encode_string false "city" +:+ ": "
        +:+ Json.encode_string false (Query.city q) +:+ ", "
        +:+ Json.encode_string false "email" +:+ ": "
        +:+ Json.encode_string false (Query.email q) +:+ ", "
        +:+ Json.encode_string false "first" +:+ ": "
        +:+ Json.encode_string false (Query.first q) +:+ ", "
        +:+ Json.encode_string false "last" +:+ ": "
        +:+ Json.encode_string false (Query.last q) +:+ ", "
        +:+ Json.encode_string false "phone" +:+ ": "
        +:+ Json.encode_string false (Query.phone q) +:+ ", "
        +:+ Json.encode_string false "state" +:+ ": "
        +:+ Json.encode_string false (Query.state q) +:+ ", "
        +:+ Json.encode_string false "username" +:+ ": "
        +:+ Json.encode_string false (Query.username q) +:+ ", "
        +:+ Json.encode_string false "zip" +:+ ": "
        +:+ Json.encode_string false (Query.zip q) +:+ "}".
Proof.
  unfold canonical_payload, Json.dumps, Query.to_ordered_dict.
  cbn [List.map Json.dumps_at fst snd]. unfold Json.order_items.
  rewrite sort_query_items. cbn [List.map fst snd]. unfold Json.bracket.
  cbn [Json.newline_indent Json.item_separator]. rewrite !join_cons.
  cbn [Py.join String.concat].
  rewrite ?append_assoc, ?append_empty, ?append_empty_r. reflexivity.
Qed.

(** X7: the canonical payload separates queries: two queries with the same
    payload agree on every field, so two distinct queries share a cache
    key only where SHA-256 collides. *)
Theorem canonical_payload_inj (q1 q2 : OSINTQuery) :
  canonical_payload q1 = canonical_payload q2 → q1 = q2.
Proof.
  rewrite !canonical_payload_eq. intros H.
  apply (inj (String.app _)) in H.
  do 8 (apply encode_string_inj in H as [_ H]; apply (inj (String.app _)) in H;
        apply encode_string_inj in H as [? H]; apply (inj (String.app _)) in H).
  apply encode_string_inj in H as [_ H]; apply (inj (String.app _)) in H.
  apply encode_string_inj in H as [? _].
  destruct q1, q2; simpl in *; congruence.
Qed.

Lemma canonical_payload_inj_witness :
  Field.assign [(Field.City, "Reno"); (Field.Username, "alice")] Query.default
  = Query.mk "" "" "alice" "" "" "" "Reno" "" "".
Proof. by apply canonical_payload_inj. Defined.


(** ** The life of a cache entry *)

Lemma append_inj_r (a b s : string) : a +:+ s = b +:+ s → a = b.
Proof.
  intros H. apply (f_equal String.rev) in H. rewrite !string_rev_append in H.
  apply (inj (String.app _)) in H. apply (f_equal String.rev) in H.
  by rewrite !string_rev_involutive in H.
Qed.

Lemma cache_path_inj (q q' : OSINTQuery) :
  cache_path_for_query q = cache_path_for_query q' →
  cache_key_for_query q = cache_key_for_query q'.
Proof.
  unfold cache_path_for_query. intros H.
  do 2 apply (inj (String.app _)) in H. by apply append_inj_r in H.
Qed.

Lemma save_cache_writable (d : disk) (q : OSINTQuery) (hits : list OSINTHit) :
  writable (save_cache d q hits).2 = writable d.
Proof. unfold save_cache. by destruct (writable d) eqn:E. Qed.

(** X8: entries of queries with different keys do not touch each other:
    storing or clearing the entry of one query leaves what is read for
    the other as it was. *)
Theorem cache_entries_independent (d : disk) (q q' : OSINTQuery) (hits : list OSINTHit) :
  cache_key_for_query q ≠ cache_key_for_query q' →
  load_cache (save_cache d q hits).2 q' = load_cache d q'
  ∧ load_cache (clear_cache_for_query d q).2 q' = load_cache d q'.
Proof.
  intros Hk. assert (Hp : cache_path_for_query q ≠ cache_path_for_query q').
  { intros H. by apply Hk, cache_path_inj. }
  unfold load_cache, save_cache, clear_cache_for_query. split.
  - destruct (writable d); [|done]. cbn [snd files]. by rewrite lookup_insert_ne.
  - destruct (files d !! cache_path_for_query q); [|done].
    destruct (writable d); [|done]. cbn [snd files]. by rewrite lookup_delete_ne.
Qed.

Lemma cache_entries_independent_witness :
  load_cache (save_cache (mkDisk ∅ true) query_alice sample_hits).2 Query.default
  = load_cache (mkDisk ∅ true) Query.default
  ∧ load_cache (clear_cache_for_query (mkDisk ∅ true) query_alice).2 Query.default
    = load_cache (mkDisk ∅ true) Query.default.
Proof.
  apply cache_entries_independent. intros H. vm_compute in H. discriminate H.
Defined.

Lemma clear_cache_load (d : disk) (q : OSINTQuery) :
  writable d = true → load_cache (clear_cache_for_query d q).2 q = [].
Proof.
  intros Hw. unfold load_cache, clear_cache_for_query. rewrite Hw.
  destruct (files d !! cache_path_for_query q) as [t|] eqn:E; cbn [snd files].
  - by rewrite lookup_delete_eq.
  - by rewrite E.
Qed.

(** X9: clearing the entry of a query on a writable directory: the next
    lookup finds nothing, the call reports whether there was a file, and
    a second clearing reports none. *)
Theorem clear_cache_then_load (d : disk) (q : OSINTQuery) :
  writable d = true →
  load_cache (clear_cache_for_query d q).2 q = []
  ∧ ((clear_cache_for_query d q).1 = true ↔ is_Some (files d !! cache_path_for_query q))
  ∧ (clear_cache_for_query (clear_cache_for_query d q).2 q).1 = false.
Proof.
  intros Hw. split; [by apply clear_cache_load|].
  unfold clear_cache_for_query. rewrite Hw.
  destruct (files d !! cache_path_for_query q) as [t|] eqn:E; cbn [fst snd files].
  - rewrite lookup_delete_eq. split; [|done]. split; eauto.
  - rewrite E. split; [|done]. split; [done|]. by intros [? [=]].
Qed.

Lemma clear_cache_then_load_witness :
  load_cache (clear_cache_for_query
                (save_cache (mkDisk ∅ true) query_alice sample_hits).2 query_alice).2
    query_alice = [].
Proof.
  by apply (clear_cache_then_load (save_cache (mkDisk ∅ true) query_alice sample_hits).2).
Defined.

(** X10: a store replaces the entry of the query: after two stores the
    lookup returns the second list (also when it is empty), and nothing
    of the first. *)
Theorem save_cache_overwrites (d : disk) (q : OSINTQuery) (old new : list OSINTHit) :
  writable d = true → Forall wf_hit new →
  load_cache (save_cache (save_cache d q old).2 q new).2 q = new.
Proof.
  intros Hw Hwf. apply load_saved; [done|].
  unfold save_cache at 1. rewrite save_cache_writable, Hw. cbn [fst].
  intros H. by apply (f_equal String.length) in H.
Qed.

Lemma save_cache_overwrites_witness :
  load_cache (save_cache (save_cache (mkDisk ∅ true) query_alice sample_hits).2
                query_alice []).2 query_alice = [].
Proof. by apply save_cache_overwrites. Defined.

Lemma hit_of_dict_malformed (x : json) : malformed x → hit_of_dict x = None.
Proof.
  destruct x as [| | | | |d]; try done. cbn [malformed hit_of_dict].
  intros [Hl|(k & Hk & Hnone)]; [by rewrite bool_decide_eq_false_2|].
  case_bool_decide; [|done].
  repeat (apply elem_of_cons in Hk as [->|Hk]; [rewrite Hnone; by repeat case_match|]).
  by apply elem_of_nil in Hk.
Qed.

(** X11: a cache file is read all or nothing: when one record of the
    stored list is refused by [OSINTHit] (it is no dictionary, a field is
    missing, or there is a key too many), the lookup returns no hit at
    all. *)
Theorem load_cache_all_or_nothing (d : disk) (q : OSINTQuery) (data : list json) (x : json) :
  files d !! cache_path_for_query q
  = Some (Json.dumps false false (Some 2%nat) (JList data)) →
  wf (JList data) → x ∈ data → malformed x →
  load_cache d q = [].
Proof.
  intros Hf Hwf Hx Hbad%hit_of_dict_malformed. unfold load_cache.
  rewrite Hf, loads_dumps by done.
  destruct (mapM hit_of_dict data) as [hits|] eqn:E; [|done].
  assert (is_Some (mapM hit_of_dict data)) as Hs by eauto.
  apply mapM_is_Some in Hs.
  pose proof (proj1 (Forall_forall _ _) Hs x Hx) as [y Hy]. cbn in Hy. congruence.
Qed.

Lemma load_cache_all_or_nothing_witness :
  load_cache
    (mkDisk {[ cache_path_for_query query_alice :=
                 Json.dumps false false (Some 2%nat)
                   (JList [asdict (mkHit "GitHub" "GitHub: found" "" "https://github.com/alice" []);
                           JDict [("site", JStr "GitHub")]]) ]} true)
    query_alice = [].
Proof.
  apply (load_cache_all_or_nothing _ _
           [asdict (mkHit "GitHub" "GitHub: found" "" "https://github.com/alice" []);
            JDict [("site", JStr "GitHub")]]
           (JDict [("site", JStr "GitHub")])).
  - apply lookup_singleton_eq.
  - cbn. repeat split; by apply (bool_decide_unpack _).
  - apply list_elem_of_further, list_elem_of_here.
  - by left.
Defined.

(** ** The messages of a live run *)

Lemma background_run_live (w : world) (self : App) (sites : list string) (skip_cache : bool) :
  runs_live w self skip_cache →
  _background_run w self sites skip_cache = live_run w self sites skip_cache.
Proof. unfold _background_run. by intros [->| ->]; [|destruct skip_cache]. Qed.

Lemma persist_events w d q rs :
  ∃ evs, ui_events (persist w d q rs).1.1 = evs ∧ hits_of evs = []
         ∧ (∀ ev, ev ∈ evs → ∃ t, ev = note t).
Proof.
  eexists. split; [done|]. split; [apply persist_shows_no_hit|].
  unfold persist, save_reports. destruct rs, (reports_writable w); cbn;
    intros ev Hev; repeat (apply elem_of_cons in Hev as [->|Hev]; [by eexists|]);
    by apply elem_of_nil in Hev.
Qed.

(** The messages of a live run: everything before the final [done], with
    the hits the run collected (those of the prefilter, then those of the
    pool), and the final [done] carrying their number. *)
Lemma live_run_events (w : world) (self : App) (sites : list string) (skip_cache : bool) :
  ∃ evs,
    ui_events (trace (live_run w self sites skip_cache))
    = evs ++ match finished (live_run w self sites skip_cache) with
             | Ok _ => [done (length (hits_of evs))]
             | Raise _ => []
             end
    ∧ hits_of evs
      = (dataset_prefilter (DATASETS w) (query self) (ordered_sites sites)).1
        ++ hits_of (ui_events (pool_trace w self sites)).
Proof.
  unfold live_run, pool_trace.
  destruct (if skip_cache then clear_cache_for_query (cache w) (query self)
            else (false, cache w)) as [cleared d0].
  pose proof (prefilter_shown (DATASETS w) (query self) (ordered_sites sites)) as Hshown.
  destruct (dataset_prefilter _ _ _) as [rs trd]. cbn [fst snd] in *.
  set (head := (if cleared then [Ui (note "Cache cleared for this query (skip cache requested)")]
                else [])
               ++ [Ui (setup_progress (length sites));
                   Ui (note "Running public dataset lookups first...")]
               ++ trd
               ++ [Ui (note (if bool_decide (satisfied_sites rs = ∅)
                             then "No dataset hits found — will proceed to scrapers."
                             else "Datasets satisfied: "
                                  +:+ Py.join ", " (sorted (elements (satisfied_sites rs)))))]).
  assert (Hhead : hits_of (ui_events head) = rs).
  { unfold head. rewrite !ui_events_app, !hits_of_app, Hshown.
    destruct cleared; cbn; by rewrite ?app_nil_r. }
  destruct (sites_to_scrape _ _) as [|s0 l0].
  - pose proof (persist_shows_no_hit w d0 (query self) rs) as Hp.
    destruct (persist w d0 (query self) rs) as [[trp d1] fin]. cbn [fst snd] in *.
    cbn [trace finished].
    exists (ui_events (head ++ [Ui (note "All sites satisfied by datasets — skipping live scrapers.")]
                       ++ trp)).
    assert (Hh : hits_of (ui_events (head
                   ++ [Ui (note "All sites satisfied by datasets — skipping live scrapers.")]
                   ++ trp)) = rs).
    { rewrite !ui_events_app, !hits_of_app, Hhead, Hp. cbn. by rewrite app_nil_r. }
    rewrite Hh. split; [|by rewrite app_nil_r].
    rewrite !app_assoc, ui_events_app. f_equal. by destruct fin.
  - set (pool := scheduler _ _ _ _ _ _).
    set (results := rs ++ hits_of (ui_events pool)).
    pose proof (persist_shows_no_hit w d0 (query self) results) as Hp.
    destruct (persist w d0 (query self) results) as [[trp d1] fin]. cbn [fst snd] in *.
    cbn [trace finished].
    set (notes := λ (f : result unit) (r : list OSINTHit),
           match f, r with
           | Ok _, [] =>
               [ Ui (note "No scraper results returned for selected sites.");
                 Ui (note ("Registered scrapers: " +:+
                           Py.join ", " (sorted (elements (dom (SCRAPERS w)))))) ]
           | _, _ => []
           end).
    assert (Hn : ∀ f r, hits_of (ui_events (notes f r)) = []).
    { by intros [] []. }
    exists (ui_events (head ++ pool ++ trp ++ notes fin results)).
    assert (Hh : hits_of (ui_events (head ++ pool ++ trp ++ notes fin results)) = results).
    { rewrite !ui_events_app, !hits_of_app, Hhead, Hp, Hn. cbn. by rewrite app_nil_r. }
    rewrite Hh. split; [|done].
    destruct fin as [[]|].
    + rewrite !app_assoc, ui_events_app. rewrite <- !app_assoc. unfold notes.
      by destruct results.
    + unfold notes. by rewrite !app_nil_r.
Qed.


(** ** The dispatch order as a rearrangement *)

Lemma priority_sites_nodup : NoDup PRIORITY_SITES.
Proof. by apply (bool_decide_unpack _). Qed.

(** X12: when no site is selected twice, the dispatch order is a
    rearrangement of the selection: every selected site occurs in it
    exactly once, and nothing else does. *)
Theorem ordered_sites_permutation (sites : list string) :
  NoDup sites → NoDup (ordered_sites sites) ∧ ordered_sites sites ≡ₚ sites.
Proof.
  intros Hnd.
  assert (Hnd' : NoDup (ordered_sites sites)).
  { unfold ordered_sites. apply NoDup_app. split; [|split].
    - apply NoDup_filter, priority_sites_nodup.
    - intros s Hs [Hn _]%list_elem_of_filter. done.
    - by apply NoDup_filter. }
  split; [done|]. apply NoDup_Permutation; [done..|].
  intros s. apply elem_of_ordered_sites.
Qed.

Lemma ordered_sites_permutation_witness :
  ordered_sites ["Zillow"; "HaveIBeenPwned"; "FamilyTreeNow"]
  ≡ₚ ["Zillow"; "HaveIBeenPwned"; "FamilyTreeNow"].
Proof.
  apply ordered_sites_permutation. by apply (bool_decide_unpack _).
Defined.


(** ** The tokens of the prefilter *)

Lemma lower_char_idemp (c : ascii) : Py.lower_char (Py.lower_char c) = Py.lower_char c.
Proof. destruct c as [[] [] [] [] [] [] [] []]; reflexivity. Qed.

Lemma lower_idemp (s : string) : Py.lower (Py.lower s) = Py.lower s.
Proof. induction s as [|c s IH]; [done|]. cbn. by rewrite lower_char_idemp, IH. Qed.

Lemma lower_char_digit (c : ascii) : Py.isdigit c = true → Py.lower_char c = c.
Proof. destruct c as [[] [] [] [] [] [] [] []]; by intros. Qed.

Lemma lower_digits (s : string) :
  Forall (λ c, Py.isdigit c = true) (list_ascii_of_string s) → Py.lower s = s.
Proof.
  induction s as [|c s IH]; [done|]. cbn. intros [Hc Hs]%Forall_cons.
  by rewrite lower_char_digit, IH.
Qed.

Lemma tok_if_elem (cond x t : string) : t ∈ tok_if cond x → t = x.
Proof. unfold tok_if. destruct (Py.truthy cond); [by intros ->%list_elem_of_singleton|by intros ?%elem_of_nil]. Qed.

Lemma token_candidates_lower (q : OSINTQuery) :
  Forall (λ t, Py.lower t = t) (token_candidates q).
Proof.
  apply Forall_forall. intros t Ht. unfold token_candidates in Ht.
  repeat match goal with
  | H : _ ∈ _ ++ _ |- _ => apply elem_of_app in H as [H|H]
  | H : _ ∈ (if ?b then _ else _) |- _ => destruct b
  | H : _ ∈ tok_if _ _ |- _ => apply tok_if_elem in H as ->
  | H : _ ∈ [_] |- _ => apply list_elem_of_singleton in H as ->
  | H : _ ∈ [] |- _ => by apply elem_of_nil in H
  end; try apply lower_idemp.
  apply lower_digits, digits_only_all.
Qed.

Lemma dedupe_spec (seen c : list string) :
  NoDup (dedupe seen c)
  ∧ ∀ t, t ∈ dedupe seen c → t ∈ c ∧ (t ∉ seen) ∧ t ≠ EmptyString.
Proof.
  revert seen. induction c as [|x c IH]; intros seen; cbn [dedupe].
  { split; [constructor|]. by intros t ?%elem_of_nil. }
  destruct (IH (seen ++ [x])) as [Hnd Hin].
  assert (Hrest : ∀ t, t ∈ dedupe (seen ++ [x]) c →
                       t ∈ x :: c ∧ (t ∉ seen) ∧ t ≠ EmptyString).
  { intros t Ht. destruct (Hin t Ht) as (H1 & H2 & H3).
    split; [by right|]. split; [|done]. intros ?. apply H2, elem_of_app. by left. }
  destruct (Py.truthy x && negb (Py.mem x seen)) eqn:E; [|done].
  apply andb_true_iff in E as [Hx Hm]. apply truthy_spec in Hx.
  apply negb_true_iff in Hm. unfold Py.mem in Hm. apply bool_decide_eq_false in Hm.
  split.
  - constructor; [|done]. intros Ht. destruct (Hin x Ht) as (_ & H2 & _).
    apply H2, elem_of_app. right. by left.
  - intros t [->|Ht]%elem_of_cons; [|by apply Hrest]. split; [by left|done].
Qed.

(** X13: the tokens that dataset hits are matched against are non-empty,
    in lower case, and pairwise distinct; each comes from a field of the
    query. *)
Theorem tokens_normalised (q : OSINTQuery) :
  NoDup (tokens q)
  ∧ Forall (λ t, t ≠ EmptyString ∧ Py.lower t = t ∧ t ∈ token_candidates q) (tokens q).
Proof.
  unfold tokens. destruct (dedupe_spec [] (token_candidates q)) as [Hnd Hin].
  split; [done|]. apply Forall_forall. intros t Ht.
  destruct (Hin t Ht) as (Hc & _ & Hne). split; [done|]. split; [|done].
  by apply (proj1 (Forall_forall _ _) (token_candidates_lower q)).
Qed.


(** ** The calls to the dataset module *)

Lemma elem_of_flat_map {A B} (f : A → list B) (l : list A) (x : B) :
  x ∈ flat_map f l ↔ ∃ a, a ∈ l ∧ x ∈ f a.
Proof.
  rewrite list_elem_of_In, in_flat_map. split; intros (a & Ha & Hx); exists a;
    by rewrite ?list_elem_of_In in *.
Qed.

Lemma dataset_lookup_calls D s qd : dataset_calls (dataset_lookup D s qd).2 = [].
Proof.
  unfold dataset_lookup.
  by destruct (match search_site_for_query D with Some f => _ | None => _ end).
Qed.

Lemma prefilter_site_calls D q toks s :
  toks ≠ [] →
  dataset_calls (prefilter_site D q toks s).2 = [(mkEntry s None, site_qdict q s)].
Proof.
  intros Ht. unfold prefilter_site. destruct toks as [|t toks]; [done|].
  pose proof (dataset_lookup_calls D s (site_qdict q s)) as Hl.
  destruct (dataset_lookup D s (site_qdict q s)) as [ds failed]. cbn [fst snd] in *.
  change (DatasetCall ?e ?qd :: ?x) with ([DatasetCall e qd] ++ x).
  rewrite !dataset_calls_app, Hl. cbn.
  unfold dataset_calls. rewrite omap_flat_map_nil; [done|].
  intros p Hp. apply list_elem_of_fmap in Hp as (dh & -> & _).
  apply prefilter_hit_dataset_calls.
Qed.

(** X14: when the query yields a token, a live run asks the dataset module
    once for every site of the dispatch order, in that order, passing the
    name of the site without its domain and the fields tailored to the
    category of the site. *)
Theorem dataset_calls_per_site (w : world) (self : App) (sites : list string)
    (skip_cache : bool) :
  runs_live w self skip_cache → tokens (query self) ≠ [] →
  dataset_calls (trace (_background_run w self sites skip_cache))
  = List.map (λ s, (mkEntry s None, site_qdict (query self) s)) (ordered_sites sites).
Proof.
  intros Hlive Ht. rewrite background_run_live, live_run_dataset_calls by done.
  unfold dataset_prefilter. cbn [snd].
  induction (ordered_sites sites) as [|s l IH]; [done|].
  cbn [List.map flat_map]. by rewrite dataset_calls_app, prefilter_site_calls, IH.
Qed.

Lemma dataset_calls_per_site_witness :
  dataset_calls (trace (_background_run (sample_world ∅)
                          (mkApp query_alice 16 12 "DuckDuckGo")
                          ["Zillow"; "WhoCallsMe"] true))
  = List.map (λ s, (mkEntry s None, site_qdict query_alice s))
      (ordered_sites ["Zillow"; "WhoCallsMe"]).
Proof.
  apply (dataset_calls_per_site (sample_world ∅) (mkApp query_alice 16 12 "DuckDuckGo")).
  - by left.
  - intros H. vm_compute in H. discriminate H.
Defined.

(** What the lookup of one site gives when the module raises. *)
Lemma dataset_lookup_raises D s qd e :
  (∀ f en, search_site_for_query D = Some f → f en qd = Raise e) →
  (∀ l, search_sites_for_query D l qd = Raise e) →
  dataset_lookup D s qd
  = ([], [Ui (note ("[!] datasets lookup failed for " +:+ s +:+ ": "
                    +:+ Py.take 200 (str_exn e)))]).
Proof.
  intros H1 H2. unfold dataset_lookup. destruct (search_site_for_query D) as [f|].
  - by rewrite (H1 f).
  - by rewrite H2.
Qed.




(** ** What the pool gives *)

Lemma future_events_yield q engine s t r :
  (1 ≤ length (hits_of (future_events q engine s t r)))%nat.
Proof.
  unfold future_events. rewrite hits_of_app.
  destruct r as [[|h hits]|[]]; cbn [hits_of omap]; rewrite ?hits_of_app, ?length_app;
    cbn; lia.
Qed.

Lemma scheduler_hits w q engine threads timeout l :
  hits_of (ui_events (scheduler w q engine threads timeout l))
  = hits_of (flat_map (task_events w q engine)
               (as_completed w (List.map (λ s, (s, site_timeout timeout s)) l))).
Proof.
  unfold scheduler. change (Pool threads :: ?x) with ([Pool threads] ++ x).
  rewrite !ui_events_app, ui_events_ui.
  assert (ui_events (List.map (λ t : string * Z, Submit t.1 t.2)
                       (List.map (λ s, (s, site_timeout timeout s)) l)) = []) as ->.
  { induction l as [|s l IH]; [done|]. cbn. apply IH. }
  done.
Qed.

Lemma tasks_yield w q engine (tasks : list (string * Z)) :
  (length tasks ≤ length (hits_of (flat_map (task_events w q engine) tasks)))%nat.
Proof.
  induction tasks as [|t tasks IH]; [done|].
  cbn [flat_map]. rewrite hits_of_app, length_app.
  pose proof (future_events_yield q engine t.1 t.2
                (_run_site_with_timeout (get_session w) (SCRAPERS w) t.1 q t.2)).
  unfold task_events at 1. cbn [length]. lia.
Qed.

Lemma background_run_shown (w : world) (self : App) (sites : list string) (skip_cache : bool) :
  runs_live w self skip_cache →
  shown (_background_run w self sites skip_cache)
  = (dataset_prefilter (DATASETS w) (query self) (ordered_sites sites)).1
    ++ hits_of (ui_events (pool_trace w self sites)).
Proof.
  intros Hlive. rewrite background_run_live by done. unfold shown.
  destruct (live_run_events w self sites skip_cache) as (evs & -> & <-).
  rewrite hits_of_app. destruct (finished _); cbn; by rewrite app_nil_r.
Qed.






(** ** The cache after a live run *)

Lemma persist_nothing w d q : (persist w d q []).1.2 = d.
Proof. unfold persist, save_reports. by destruct (reports_writable w). Qed.

Lemma live_run_cache_unsaved (w : world) (self : App) (sites : list string)
    (skip_cache : bool) :
  shown (live_run w self sites skip_cache) = [] →
  cache_after (live_run w self sites skip_cache)
  = (if skip_cache then clear_cache_for_query (cache w) (query self)
     else (false, cache w)).2.
Proof.
  unfold shown. destruct (live_run_events w self sites skip_cache) as (evs & -> & Hevs).
  rewrite hits_of_app.
  assert (hits_of (match finished (live_run w self sites skip_cache) with
                   | Ok _ => [done (length (hits_of evs))]
                   | Raise _ => []
                   end) = []) as -> by (by destruct (finished _)).
  rewrite app_nil_r, Hevs. intros [Hrs Hpool]%app_eq_nil.
  revert Hrs Hpool. unfold live_run, pool_trace.
  destruct (if skip_cache then clear_cache_for_query (cache w) (query self)
            else (false, cache w)) as [cleared d0].
  destruct (dataset_prefilter _ _ _) as [rs trd]. cbn [fst snd]. intros -> Hpool.
  destruct (sites_to_scrape _ _) as [|s0 l0].
  - pose proof (persist_nothing w d0 (query self)) as Hp.
    destruct (persist w d0 (query self) []) as [[trp d1] fin]. by cbn in *.
  - rewrite Hpool. cbn [app].
    pose proof (persist_nothing w d0 (query self)) as Hp.
    destruct (persist w d0 (query self) []) as [[trp d1] fin]. by cbn in *.
Qed.

(** X18: after a run that was not answered from the cache, on a cache
    directory that accepts writes, the entry of the query holds exactly
    the hits the run showed: a lookup returns them in order, and returns
    nothing when the run showed nothing, whatever the entry held
    before. *)
Theorem live_run_refreshes_cache (w : world) (self : App) (sites : list string)
    (skip_cache : bool) :
  runs_live w self skip_cache → writable (cache w) = true →
  Forall wf_hit (shown (_background_run w self sites skip_cache)) →
  load_cache (cache_after (_background_run w self sites skip_cache)) (query self)
  = shown (_background_run w self sites skip_cache).
Proof.
  intros Hlive Hw. rewrite background_run_live by done. intros Hwf.
  destruct (shown (live_run w self sites skip_cache)) as [|h hs] eqn:E.
  - rewrite live_run_cache_unsaved by done. destruct skip_cache.
    + by apply clear_cache_load.
    + by destruct Hlive.
  - rewrite <- E. apply live_run_cached; [done| |]; unfold shown in E; by rewrite E.
Qed.

Lemma live_run_refreshes_cache_witness :
  load_cache (cache_after (_background_run (sample_world ∅) app_empty ["FamilyTreeNow"] true))
    Query.default
  = shown (_background_run (sample_world ∅) app_empty ["FamilyTreeNow"] true).
Proof.
  apply (live_run_refreshes_cache (sample_world ∅) app_empty ["FamilyTreeNow"] true);
    [by left|done|].
  unfold shown. vm_compute hits_of.
  repeat (apply Forall_cons_2 || apply Forall_nil_2);
    unfold wf_hit; apply wf_dict; (split; [|by repeat constructor]);
    by apply (bool_decide_unpack _).
Defined.

(** ** The interface's side of the queue *)

Lemma process_queue_app self q1 q2 :
  _process_ui_queue self (q1 ++ q2) = _process_ui_queue (_process_ui_queue self q1) q2.
Proof. apply fold_left_app. Qed.

Lemma process_queue_results self queue :
  Gui.results (_process_ui_queue self queue) = Gui.results self ++ hits_of queue
  ∧ Gui.links (_process_ui_queue self queue)
    = Gui.links self ++ List.map url (hits_of queue).
Proof.
  revert self. induction queue as [|m queue IH]; intros self.
  { cbn. by rewrite !app_nil_r. }
  cbn [_process_ui_queue fold_left]. destruct (IH (process_message self m)) as [H1 H2].
  unfold _process_ui_queue in *. rewrite H1, H2.
  destruct m; cbn; by rewrite <- ?app_assoc.
Qed.

(** X19: the progress bar never passes its maximum: whatever messages
    arrive, in whatever order, the value stays at or below the maximum
    once it is. *)
Theorem progress_bar_bounded (self : Gui.state) (ui_queue : list event) :
  (Gui.value self ≤ Gui.maximum self)%nat →
  (Gui.value (_process_ui_queue self ui_queue)
   ≤ Gui.maximum (_process_ui_queue self ui_queue))%nat.
Proof.
  revert self. induction ui_queue as [|m queue IH]; intros self Hle; [done|].
  cbn [_process_ui_queue fold_left]. apply IH. destruct m; cbn; lia.
Qed.

Lemma progress_bar_bounded_witness :
  (Gui.value (_process_ui_queue (Gui.mk [] "" [] "" 0 0)
                [setup_progress 2; inc_progress 1; inc_progress 1; inc_progress 1])
   ≤ Gui.maximum (_process_ui_queue (Gui.mk [] "" [] "" 0 0)
                    [setup_progress 2; inc_progress 1; inc_progress 1; inc_progress 1]))%nat.
Proof. by apply progress_bar_bounded. Defined.

(** The messages of a run that reached its end: a last [done] with the
    number of the hits put on the queue before it. *)
Lemma background_run_events (w : world) (self : App) (sites : list string)
    (skip_cache : bool) :
  finished (_background_run w self sites skip_cache) = Ok () →
  ∃ evs, ui_events (trace (_background_run w self sites skip_cache))
         = evs ++ [done (length (hits_of evs))]
         ∧ shown (_background_run w self sites skip_cache) = hits_of evs.
Proof.
  unfold shown, _background_run.
  destruct (if skip_cache then [] else load_cache (cache w) (query self)) as [|h hs].
  - intros Hfin. destruct (live_run_events w self sites skip_cache) as (evs & Hev & _).
    rewrite Hfin in Hev. exists evs. rewrite Hev. split; [done|].
    rewrite hits_of_app. cbn. by rewrite app_nil_r.
  - intros _. cbn [trace]. rewrite ui_events_ui. unfold replay.
    exists (note ("cache: " +:+ pretty (length (h :: hs)) +:+ " hits loaded")
            :: List.map hit (h :: hs)).
    assert (Hh : hits_of (note ("cache: " +:+ pretty (length (h :: hs)) +:+ " hits loaded")
                          :: List.map hit (h :: hs)) = h :: hs).
    { change (hits_of (note ?t :: ?l)) with (hits_of l). apply hits_of_hits. }
    rewrite Hh. split; [done|].
    change (?a :: ?l ++ ?t) with ((a :: l) ++ t). rewrite hits_of_app, Hh. cbn.
    by rewrite app_nil_r.
Qed.

(** X20: when a run has reached its end and the interface has taken its
    messages, the bar is full, the status line names the number of hits
    the run showed, and exactly these hits, in order, were added to the
    result list and to the links of the results pane. *)
Theorem run_end_in_interface (w : world) (self : App) (sites : list string)
    (skip_cache : bool) (gui : Gui.state) :
  finished (_background_run w self sites skip_cache) = Ok () →
  let r := _background_run w self sites skip_cache in
  let gui' := _process_ui_queue gui (ui_events (trace r)) in
  Gui.value gui' = Gui.maximum gui'
  ∧ Gui.status gui' = "done. " +:+ pretty (length (shown r)) +:+ " result rows ready."
  ∧ Gui.results gui' = Gui.results gui ++ shown r
  ∧ Gui.links gui' = Gui.links gui ++ List.map url (shown r).
Proof.
  intros Hfin r gui'. subst r gui'.
  destruct (background_run_events w self sites skip_cache Hfin) as (evs & Hev & Hs).
  rewrite Hev, Hs, process_queue_app.
  destruct (process_queue_results gui evs) as [H1 H2].
  cbn. by rewrite H1, H2.
Qed.

Lemma run_end_in_interface_witness :
  Gui.value (_process_ui_queue (Gui.mk [] "" [] "" 0 0)
               (ui_events (trace (_background_run (sample_world ∅) app_empty
                                    ["FamilyTreeNow"] true))))
  = Gui.maximum (_process_ui_queue (Gui.mk [] "" [] "" 0 0)
                   (ui_events (trace (_background_run (sample_world ∅) app_empty
                                        ["FamilyTreeNow"] true)))).
Proof.
  exact (proj1 (run_end_in_interface (sample_world ∅) app_empty ["FamilyTreeNow"] true
                  (Gui.mk [] "" [] "" 0 0) eq_refl)).
Defined.

(** ** The quick lookups of [datasets.py] *)

(** X21: the quick lookups of a site are always five, whatever the query
    holds: a link for DuckDuckGo, Google, Bing and GitHub code search, in
    this order, then the Common Crawl hint; each link is the address of
    its engine followed by an encoded query. *)
Theorem search_links_shape (site_label : string) (site_domain : option string)
    (q : list (string * string)) :
  List.map (λ h, (dh_site h, dh_title h))
    (Datasets.construct_search_links_for_site site_label site_domain q)
  = [ (Some "Search Link", Some "DuckDuckGo search");
      (Some "Search Link", Some "Google search");
      (Some "Search Link", Some "Bing search");
      (Some "Search Link", Some "GitHub code search");
      (Some "Hint", Some "Common Crawl (index) / BigQuery hint") ]
  ∧ Forall2 (λ h base, ∃ rest, dh_url h = Some (base +:+ rest) ∧ query_text rest)
      (Datasets.construct_search_links_for_site site_label site_domain q)
      [ "https://duckduckgo.com/?q="; "https://www.google.com/search?q=";
        "https://www.bing.com/search?q="; "https://github.com/search?q=";
        "https://commoncrawl.org/" ].
Proof.
  unfold Datasets.construct_search_links_for_site, Datasets.engines.
  cbn [List.map app fst snd String.eqb Ascii.eqb Bool.eqb].
  split; [done|].
  repeat (apply Forall2_cons_2 || apply Forall2_nil_2);
    try (eexists; split; [reflexivity|apply quote_plus_text]).
  exists EmptyString. split; [by rewrite append_empty_r|constructor].
Qed.

Lemma search_links_length (site_label : string) (site_domain : option string)
    (q : list (string * string)) :
  length (Datasets.construct_search_links_for_site site_label site_domain q) = 5%nat.
Proof. reflexivity. Qed.

Lemma search_for_site_no_domain wb crt (site_label : string) (qdict : list (string * string)) :
  Datasets.search_for_site wb crt site_label None qdict
  = List.map (Datasets.with_site (site_label +:+ " (Search link)"))
      (Datasets.construct_search_links_for_site site_label None qdict).
Proof. reflexivity. Qed.

(** X22: every result of [search_for_site] is filed under the name of the
    site followed by the provider in brackets, there are at least the
    five quick lookups, and for a site without a domain nothing is asked
    of Wayback or crt.sh. *)
Theorem search_for_site_labels (wb crt : string → nat → list dataset_hit)
    (site_label : string) (site_domain : option string) (qdict : list (string * string)) :
  Forall (λ h, dh_site h = Some (site_label +:+ " (Wayback)")
               ∨ dh_site h = Some (site_label +:+ " (crt.sh)")
               ∨ dh_site h = Some (site_label +:+ " (Search link)"))
    (Datasets.search_for_site wb crt site_label site_domain qdict)
  ∧ (5 ≤ length (Datasets.search_for_site wb crt site_label site_domain qdict))%nat
  ∧ ∀ wb' crt', Datasets.search_for_site wb crt site_label None qdict
                = Datasets.search_for_site wb' crt' site_label None qdict.
Proof.
  split; [|split; [|done]].
  - unfold Datasets.search_for_site. rewrite !Forall_app.
    split; [|split]; apply Forall_forall; intros h Hh;
      repeat match goal with
      | H : _ ∈ match ?x with _ => _ end |- _ => destruct x
      | H : _ ∈ (if ?x then _ else _) |- _ => destruct x
      | H : _ ∈ [] |- _ => by apply elem_of_nil in H
      | H : _ ∈ List.map _ _ |- _ => apply list_elem_of_fmap in H as (? & -> & _)
      end; cbn; auto.
  - unfold Datasets.search_for_site. rewrite !length_app, length_map.
    rewrite search_links_length. lia.
Qed.


(** ** The dataset module of the repository in a run *)

Lemma dataset_lookup_offline wb crt wb' crt' s qd :
  dataset_lookup (datasets_py wb crt) s qd = dataset_lookup (datasets_py wb' crt') s qd.
Proof. reflexivity. Qed.

Lemma dataset_prefilter_offline wb crt wb' crt' q ordered :
  dataset_prefilter (datasets_py wb crt) q ordered
  = dataset_prefilter (datasets_py wb' crt') q ordered.
Proof. reflexivity. Qed.

(** The orchestrator hands the dataset module the name of each site
    without its domain, so with the module of the repository a run is the
    same whatever Wayback and crt.sh would answer. *)
Lemma run_without_network_datasets
    (wb crt wb' crt' : string → nat → list dataset_hit)
    (c : disk) (R : gmap string Scraper) (gs : result session)
    (ac : list (string * Z) → list (string * Z)) (t : string) (rw : bool)
    (self : App) (sites : list string) (skip_cache : bool) :
  _background_run (mkWorld c (datasets_py wb crt) R gs ac t rw) self sites skip_cache
  = _background_run (mkWorld c (datasets_py wb' crt') R gs ac t rw) self sites skip_cache.
Proof. reflexivity. Qed.

Lemma lower_append (a b : string) : Py.lower (a +:+ b) = Py.lower a +:+ Py.lower b.
Proof. induction a as [|c a IH]; [done|]. rewrite append_cons. cbn. by rewrite IH. Qed.

Lemma lower_length (s : string) : String.length (Py.lower s) = String.length s.
Proof. induction s as [|c s IH]; [done|]. cbn. by rewrite IH. Qed.

Lemma lower_nonempty (s : string) : s ≠ EmptyString → Py.lower s ≠ EmptyString.
Proof. by destruct s. Qed.

Lemma occurs_in_refl (s : string) : occurs_in s s.
Proof. exists EmptyString, EmptyString. by rewrite append_empty_r. Qed.

Lemma occurs_in_append_l (x a b : string) : occurs_in x a → occurs_in x (a +:+ b).
Proof.
  intros (pre & post & ->). exists pre, (post +:+ b). by rewrite !append_assoc.
Qed.

Lemma occurs_in_append_r (x a b : string) : occurs_in x b → occurs_in x (a +:+ b).
Proof.
  intros (pre & post & ->). exists (a +:+ pre), post. by rewrite !append_assoc.
Qed.

Lemma occurs_in_lower (x s : string) : occurs_in x s → occurs_in (Py.lower x) (Py.lower s).
Proof. intros (pre & post & ->). rewrite !lower_append. by eexists _, _. Qed.

Lemma occurs_in_join (sep x t : string) (l : list string) :
  t ∈ l → occurs_in x t → occurs_in x (Py.join sep l).
Proof.
  induction l as [|y l IH]; [by intros ?%elem_of_nil|].
  rewrite join_cons. intros [->|Ht]%elem_of_cons Hx.
  - by apply occurs_in_append_l.
  - apply occurs_in_append_r. destruct l as [|z l]; [by apply elem_of_nil in Ht|].
    apply occurs_in_append_r. by apply IH.
Qed.

Lemma dedupe_complete (seen c : list string) (t : string) :
  t ∈ c → t ∉ seen → t ≠ EmptyString → t ∈ dedupe seen c.
Proof.
  revert seen. induction c as [|x c IH]; intros seen Ht Hs Hne; [by apply elem_of_nil in Ht|].
  cbn [dedupe]. destruct (decide (t = x)) as [->|Hx].
  - assert (Py.truthy x && negb (Py.mem x seen) = true) as ->; [|by left].
    apply andb_true_iff. split; [by apply truthy_spec|].
    apply negb_true_iff. unfold Py.mem. by apply bool_decide_eq_false.
  - apply elem_of_cons in Ht as [?|Ht]; [done|].
    assert (t ∈ dedupe (seen ++ [x]) c) as Hin.
    { apply IH; [done| |done]. intros [?|?%list_elem_of_singleton]%elem_of_app; done. }
    destruct (Py.truthy x && negb (Py.mem x seen)); [by right|done].
Qed.

Lemma username_token (q : OSINTQuery) :
  Query.username q ≠ EmptyString → Py.lower (Query.username q) ∈ tokens q.
Proof.
  intros Hu. apply dedupe_complete; [|by intros ?%elem_of_nil|by apply lower_nonempty].
  unfold token_candidates. apply elem_of_app. right. apply elem_of_app. left.
  unfold tok_if. apply truthy_spec in Hu. rewrite Hu. by left.
Qed.

Lemma split_head_suffix (s r : string) :
  Py.str_in " (" s = false → Py.split_head " (" (s +:+ " (" +:+ r) = s.
Proof.
  induction s as [|c s IH]; intros Hs.
  { rewrite append_empty, !append_cons, append_empty, split_head_cons, !prefix_cons.
    cbn. by rewrite prefix_empty. }
  rewrite str_in_cons in Hs. apply orb_false_iff in Hs as [Hp Hs].
  rewrite append_cons, split_head_cons.
  assert (String.prefix " (" (String c (s +:+ " (" +:+ r)) = false) as ->.
  { rewrite prefix_cons in *. destruct (Ascii.ascii_dec " " c); [|done].
    destruct s as [|c' s]; [done|]. rewrite append_cons.
    rewrite prefix_cons in *. destruct (Ascii.ascii_dec "(" c'); [|done].
    by rewrite prefix_empty in Hp. }
  by rewrite IH.
Qed.

Lemma prefilter_site_accepts D q toks s dh :
  dh ∈ (dataset_lookup D s (site_qdict q s)).1 → matched toks dh = true →
  dataset_osint_hit s dh ∈ (prefilter_site D q toks s).1.
Proof.
  intros Hin Hm. unfold prefilter_site. destruct toks as [|t toks]; [done|].
  destruct (dataset_lookup D s (site_qdict q s)) as [ds failed]. cbn [fst] in *.
  apply elem_of_flat_map. exists (prefilter_hit (t :: toks) s dh).
  split; [by apply list_elem_of_fmap_2|]. unfold prefilter_hit. rewrite Hm. by left.
Qed.

Lemma prefilter_accepts D q ordered s h :
  s ∈ ordered → h ∈ (prefilter_site D q (tokens q) s).1 →
  h ∈ (dataset_prefilter D q ordered).1.
Proof.
  intros Hs Hh. unfold dataset_prefilter. cbn [fst]. apply elem_of_flat_map.
  exists (prefilter_site D q (tokens q) s). split; [by apply list_elem_of_fmap_2|done].
Qed.

(** The first quick lookup of a site outside the two special categories,
    as the module of the repository returns it for a query with a
    username. *)
Lemma username_link_matches wb crt (q : OSINTQuery) (s : string) :
  Query.username q ≠ EmptyString →
  let dh := Datasets.with_site (s +:+ " (Search link)")
              (hd (mkDh None None None None None)
                 (Datasets.construct_search_links_for_site s None (Query.to_ordered_dict q))) in
  dh ∈ (dataset_lookup (datasets_py wb crt) s (Query.to_ordered_dict q)).1
  ∧ matched (tokens q) dh = true
  ∧ dh_site dh = Some (s +:+ " (Search link)").
Proof.
  intros Hu dh. split; [|split; [|done]].
  - unfold dataset_lookup, datasets_py. cbn [search_site_for_query search_sites_for_query
      or_empty default fst]. unfold Datasets.search_sites_for_query. cbn [flat_map].
    rewrite app_nil_r, search_for_site_no_domain.
    unfold dh, Datasets.construct_search_links_for_site, Datasets.engines.
    cbn [List.map app hd]. apply list_elem_of_here.
  - apply matched_spec. exists (Py.lower (Query.username q)).
    split; [by apply username_token|]. split; [by apply lower_nonempty|].
    unfold combined.
    apply (occurs_in_join " " _ (Py.lower (default EmptyString (dh_snippet dh))));
      [apply list_elem_of_further, list_elem_of_here|].
    apply occurs_in_lower. unfold dh, Datasets.construct_search_links_for_site, Datasets.engines.
    cbn [List.map app hd Datasets.with_site dh_snippet default fst snd].
    change (qget "username" (Query.to_ordered_dict q)) with (Query.username q).
    set (toks := tok_if _ _ ++ tok_if (Query.username q) (Query.username q) ++ _).
    assert (Hin : Query.username q ∈ toks).
    { unfold toks. apply elem_of_app. right. apply elem_of_app. left.
      unfold tok_if. apply truthy_spec in Hu. rewrite Hu. by left. }
    destruct toks as [|t0 toks']; [by apply elem_of_nil in Hin|].
    apply (occurs_in_join " " _ (Query.username q)); [done|apply occurs_in_refl].
Qed.

(** X23: with the dataset module of the repository, a query with a username
    keeps the scrapers from most sites: a selected site outside the
    property and reverse-phone categories, whose name holds no " (", gets
    its quick lookups accepted as hits under its own name and is not
    handed to a scraper. *)
Theorem username_search_links_satisfy
    (wb crt : string → nat → list dataset_hit)
    (c : disk) (R : gmap string Scraper) (gs : result session)
    (ac : list (string * Z) → list (string * Z)) (t : string) (rw : bool)
    (self : App) (sites : list string) (skip_cache : bool) (s : string) :
  let w := mkWorld c (datasets_py wb crt) R gs ac t rw in
  runs_live w self skip_cache →
  Query.username (query self) ≠ EmptyString →
  s ∈ sites →
  Py.mem s (cat_sites "Property Records & Accessor") = false →
  Py.mem s (cat_sites "Reverse Phone / Address") = false →
  Py.str_in " (" s = false →
  (s ∉ dispatched (trace (_background_run w self sites skip_cache)))
  ∧ ∃ h, h ∈ shown (_background_run w self sites skip_cache)
         ∧ site h = s ∧ title h = "DuckDuckGo search".
Proof.
  intros w Hlive Hu Hs Hprop Hrev Hparen.
  destruct (username_link_matches wb crt (query self) s Hu) as (Hin & Hm & Hsite).
  set (dh := Datasets.with_site _ _) in *.
  assert (Hqd : site_qdict (query self) s = Query.to_ordered_dict (query self)).
  { unfold site_qdict. by rewrite Hprop, Hrev. }
  assert (Hh : dataset_osint_hit s dh
               ∈ (dataset_prefilter (DATASETS w) (query self) (ordered_sites sites)).1).
  { apply (prefilter_accepts _ _ _ s); [by apply elem_of_ordered_sites|].
    apply prefilter_site_accepts; [by rewrite Hqd|done]. }
  assert (Hlabel : site (dataset_osint_hit s dh) = s).
  { cbn [dataset_osint_hit site]. unfold site_label. rewrite Hsite. cbn [default].
    by apply split_head_suffix. }
  split.
  - rewrite background_run_live, live_run_dispatched by done.
    rewrite <- Hlabel at 1. by apply satisfied_site_removed.
  - exists (dataset_osint_hit s dh). rewrite background_run_shown by done.
    split; [apply elem_of_app; by left|]. split; [done|].
    unfold dh, Datasets.construct_search_links_for_site, Datasets.engines. reflexivity.
Qed.

Lemma username_search_links_satisfy_witness :
  "FamilyTreeNow"
  ∉ dispatched (trace (_background_run
      (mkWorld (mkDisk ∅ true) datasets_offline ∅ (Ok Session) (λ l, l)
         "2025-01-01_000000" true)
      (mkApp query_alice 16 12 "DuckDuckGo") ["FamilyTreeNow"; "Pipl (preview)"] true)).
Proof.
  apply (username_search_links_satisfy (λ _ _, []) (λ _ _, []) (mkDisk ∅ true) ∅
           (Ok Session) (λ l, l) "2025-01-01_000000" true
           (mkApp query_alice 16 12 "DuckDuckGo") ["FamilyTreeNow"; "Pipl (preview)"] true
           "FamilyTreeNow"); try done.
  - by left.
  - apply list_elem_of_here.
Defined.

(** ** The scrapers *)

Section scrapers_facts.
Context (answer : list (fetcher * string) → fetcher * string → result response)
        (environ : string → option string)
        (re_search : string → string → bool) (re_escape : string → string)
        (title_group : string → option string) (collapse_spaces : string → string)
        (format : string → list (string * string) → result string)
        (breaches : string → response → result (list OSINTHit)).

Lemma probe_tokens_anonymous (q : OSINTQuery) : anonymous q → probe_tokens q = [].
Proof.
  intros (Hn & Hu & He & Hp). unfold probe_tokens. rewrite Hn, Hu, He, Hp. cbn.
  by destruct (Py.truthy (Query.phone q)).
Qed.

Lemma probe_site_anonymous (q : OSINTQuery) base probes max_hits log :
  anonymous q →
  probe_site_for_terms answer title_group collapse_spaces format base q probes max_hits log
  = (Ok [], log).
Proof. intros Hq. unfold probe_site_for_terms. by rewrite probe_tokens_anonymous. Qed.

Lemma hibp_anonymous (q : OSINTQuery) log :
  anonymous q → scrape_hibp answer environ breaches q log = (Ok [], log).
Proof.
  intros (_ & Hu & He & _). unfold scrape_hibp, str_or. rewrite Hu, He.
  change (Py.truthy (Py.strip (if Py.truthy "" then "" else if Py.truthy "" then "" else "")))
    with false.
  by rewrite orb_true_r.
Qed.

Lemma registry_anonymous (q : OSINTQuery) (s : string)
    (fn : OSINTQuery → Net (list OSINTHit)) (log : list (fetcher * string)) :
  anonymous q →
  (s, fn) ∈ REGISTRY answer environ re_search re_escape title_group collapse_spaces
              format breaches →
  fn q log = (Ok [], log).
Proof.
  intros Hq Hin. pose proof Hq as (Hn & Hu & He & Hp).
  unfold REGISTRY in Hin.
  repeat (apply elem_of_cons in Hin as [[= _ ->]|Hin];
          [try (by apply probe_site_anonymous); try (by apply hibp_anonymous)|]);
    try (by apply elem_of_nil in Hin).
  all: try (unfold scrape_username_pack, scrape_hibp, scrape_idcrawl, scrape_usersearch_org,
              scrape_social_searcher, scrape_instantusername, scrape_usphonebook,
              scrape_whocallsme, scrape_familytreenow, scrape_emailhippo,
              scrape_blackbookonline, scrape_dataaxle, str_or;
            rewrite ?Hn, ?Hu, ?He, ?Hp; cbn;
            repeat match goal with
            | |- context [if ?b then _ else _] => destruct b
            end; try done; by apply probe_site_anonymous).
Qed.


Lemma net_bind_eq {A B} (m : Net A) (k : A → Net B) (log : list (fetcher * string)) :
  (m ≫= k) log
  = match m log with
    | (Ok a, log') => k a log'
    | (Raise e, log') => (Raise e, log')
    end.
Proof. reflexivity. Qed.

(** The loop of the probes: what it adds to the fetches and to the hits. *)
Lemma probe_loop_spec (base : string) (q : OSINTQuery) (tokens : list string) (max_hits : Z)
    (probes : list string) (hits : list OSINTHit) (log : list (fetcher * string)) :
  hits = [] ∨ Z.of_nat (length hits) < max_hits →
  ∃ r added,
    probe_loop answer title_group collapse_spaces format base q tokens max_hits probes hits log
    = (r, log ++ added)
    ∧ Forall (λ f, f.1 = Fetch) added
    ∧ (length added ≤ length probes)%nat
    ∧ ((∀ tmpl, tmpl ∈ probes → ∃ link, format tmpl (probe_kwargs q) = Ok link) →
       ∃ new, r = Ok (hits ++ new)
              ∧ Z.of_nat (length (hits ++ new)) ≤ Z.max 1 max_hits
              ∧ Forall (λ h, site h = base ∧ raw h = [("probed", JBool true)]
                             ∧ (Fetch, url h) ∈ added) new).
Proof.
  revert hits log. induction probes as [|tmpl probes IH]; intros hits log Hinv.
  { exists (Ok hits), []. cbn. rewrite app_nil_r. split; [done|]. split; [constructor|].
    split; [lia|]. intros _. exists []. rewrite app_nil_r. split; [done|].
    split; [|constructor]. destruct Hinv as [->|?]; cbn; lia. }
  cbn [probe_loop]. rewrite net_bind_eq. unfold net_lift.
  destruct (format tmpl (probe_kwargs q)) as [link|e] eqn:Hf.
  2:{ exists (Raise e), []. rewrite app_nil_r. split; [done|]. split; [constructor|].
      split; [cbn; lia|]. intros Hall.
      destruct (Hall tmpl ltac:(by left)) as [link Hl]. congruence. }
  assert (Hstep : ∃ found,
    net_try
      (r ← _fetch answer link;
       if (400 <=? status_code r) || negb (Py.truthy (text r)) then mret None
       else if probe_found title_group q tokens (text r)
            then mret (Some (probe_hit collapse_spaces base link (text r)))
       else mret None)
      (λ _, mret None) log
    = (Ok found, log ++ [(Fetch, link)])
    ∧ ∀ h, found = Some h →
           site h = base ∧ raw h = [("probed", JBool true)] ∧ url h = link).
  { unfold net_try, mbind, net_bind, _fetch, fetch.
    destruct (answer log (Fetch, link)) as [r|e]; [|by exists None].
    destruct ((400 <=? status_code r) || negb (Py.truthy (text r))); [by exists None|].
    destruct (probe_found title_group q tokens (text r)); [|by exists None].
    eexists (Some _). split; [done|]. by intros h [= <-]. }
  rewrite net_bind_eq. destruct Hstep as (found & -> & Hfound).
  assert (Hrec : ∀ hits', hits' = [] ∨ Z.of_nat (length hits') < max_hits →
    (∃ extra, hits' = hits ++ extra
              ∧ Forall (λ h, site h = base ∧ raw h = [("probed", JBool true)]
                             ∧ url h = link) extra) →
    ∃ r added,
      probe_loop answer title_group collapse_spaces format base q tokens max_hits probes hits'
        (log ++ [(Fetch, link)]) = (r, log ++ added)
      ∧ Forall (λ f, f.1 = Fetch) added
      ∧ (length added ≤ length (tmpl :: probes))%nat
      ∧ ((∀ t, t ∈ tmpl :: probes → ∃ l, format t (probe_kwargs q) = Ok l) →
         ∃ new, r = Ok (hits ++ new)
                ∧ Z.of_nat (length (hits ++ new)) ≤ Z.max 1 max_hits
                ∧ Forall (λ h, site h = base ∧ raw h = [("probed", JBool true)]
                               ∧ (Fetch, url h) ∈ added) new)).
  { intros hits' Hinv' (extra & -> & Hextra).
    destruct (IH (hits ++ extra) (log ++ [(Fetch, link)]) Hinv')
      as (r & added & Heq & Hk & Hlen & Hok).
    exists r, ((Fetch, link) :: added). rewrite Heq, <- app_assoc. split; [done|].
    split; [by constructor|]. split; [cbn; lia|]. intros Hall.
    destruct Hok as (new & -> & Hle & Hnew).
    { intros t Ht. apply Hall. by right. }
    exists (extra ++ new). rewrite !app_assoc. split; [done|]. split; [done|].
    apply Forall_app_2.
    - eapply Forall_impl; [exact Hextra|]. intros h (? & ? & ->). repeat split; try done.
      by left.
    - eapply Forall_impl; [exact Hnew|]. intros h (? & ? & ?). repeat split; try done.
      by right. }
  destruct found as [h|].
  - destruct (Hfound h eq_refl) as (Hs & Hr & Hu).
    destruct (max_hits <=? Z.of_nat (length (hits ++ [h]))) eqn:Hmax.
    + exists (Ok (hits ++ [h])), [(Fetch, link)]. split; [done|].
      split; [by repeat constructor|]. split; [cbn; lia|]. intros _.
      exists [h]. split; [done|]. split.
      * rewrite length_app in *. cbn in *. destruct Hinv as [->|?]; cbn; lia.
      * apply Forall_cons_2; [|constructor]. split; [done|]. split; [done|].
        rewrite Hu. by left.
    + apply Hrec.
      * right. apply Z.leb_gt in Hmax. done.
      * exists [h]. split; [done|]. by repeat constructor.
  - apply Hrec; [done|]. exists []. rewrite app_nil_r. split; [done|constructor].
Qed.

(** X25: [probe_site_for_terms] fetches each probe at most once, with
    [_fetch] only, and a probe whose fetch fails is passed over; when the
    format of every probe succeeds it returns, and it returns at most
    [max_hits] hits (one when [max_hits] is below one), each filed under
    the site probed, marked as probed, and pointing at a page that was
    fetched. *)
Theorem probe_site_for_terms_bounded (base : string) (q : OSINTQuery)
    (probes : list string) (max_hits : Z) (log : list (fetcher * string)) :
  (∀ tmpl, tmpl ∈ probes → ∃ link, format tmpl (probe_kwargs q) = Ok link) →
  ∃ hits added,
    probe_site_for_terms answer title_group collapse_spaces format base q probes max_hits log
    = (Ok hits, log ++ added)
    ∧ Forall (λ f, f.1 = Fetch) added
    ∧ (length added ≤ length probes)%nat
    ∧ Z.of_nat (length hits) ≤ Z.max 1 max_hits
    ∧ Forall (λ h, site h = base ∧ raw h = [("probed", JBool true)]
                   ∧ (Fetch, url h) ∈ added) hits.
Proof.
  intros Hfmt. unfold probe_site_for_terms.
  destruct (probe_tokens q) as [|t toks].
  { exists [], []. rewrite app_nil_r. split; [done|]. split; [constructor|].
    split; [cbn; lia|]. split; [cbn; lia|constructor]. }
  destruct (probe_loop_spec base q (t :: toks) max_hits probes [] log ltac:(by left))
    as (r & added & Heq & Hk & Hlen & Hok).
  destruct (Hok Hfmt) as (new & -> & Hle & Hnew).
  exists new, added. by rewrite Heq.
Qed.


(** The check of one service, with its handler: one row, filed under
    the name of the service, after one [_head_or_get]. *)
Lemma check_service_row (u_input : string) (sv : service) (log : list (fetcher * string)) :
  ∃ h positive added,
    net_try (check_service answer re_search collapse_spaces u_input sv)
      (λ _, mret (_mk_negative (service_name sv) (url_fn sv u_input) "error" None, false)) log
    = (Ok (h, positive), log ++ added)
    ∧ site h = service_name sv
    ∧ exists_flag h = positive
    ∧ length (head_fetches added) = 1%nat.
Proof.
  unfold net_try, check_service. rewrite net_bind_eq. unfold _head_or_get, fetch at 1.
  destruct (answer log _) as [r|e].
  2:{ eexists _, _, [_]. by split. }
  destruct (status_code r =? 200).
  { destruct (if must_contain sv then _ else true); eexists _, _, [_]; by split. }
  destruct (bool_decide _).
  { rewrite net_bind_eq. unfold _fetch, fetch. destruct (answer _ _) as [r2|e].
    - destruct (_ && _); eexists _, _, [_; _]; rewrite <- app_assoc; by split.
    - eexists _, _, [_; _]. rewrite <- app_assoc. by split. }
  destruct (status_code r =? 404); eexists _, _, [_]; by split.
Qed.

Lemma positive_rows_app (a b : list OSINTHit) :
  positive_rows (a ++ b) = positive_rows a ++ positive_rows b.
Proof. apply filter_app. Qed.

Lemma head_fetches_app (a b : list (fetcher * string)) :
  head_fetches (a ++ b) = head_fetches a ++ head_fetches b.
Proof. apply filter_app. Qed.

(** The loop of the username pack. *)
Lemma pack_loop_spec (u_input : string) (svs : list service) (hits : list OSINTHit)
    (positives : Z) (log : list (fetcher * string)) :
  ∃ rows added,
    pack_loop answer re_search collapse_spaces u_input svs hits positives log
    = (Ok (hits ++ rows, positives + Z.of_nat (length (positive_rows rows))), log ++ added)
    ∧ List.map site rows = take (length rows) (List.map service_name svs)
    ∧ length (head_fetches added) = length rows
    ∧ (length rows ≤ length svs)%nat
    ∧ (positives < 8 → positives + Z.of_nat (length (positive_rows rows)) ≤ 8)
    ∧ ((length rows < length svs)%nat →
       8 ≤ positives + Z.of_nat (length (positive_rows rows))).
Proof.
  revert hits positives log. induction svs as [|sv svs IH]; intros hits positives log.
  { exists [], []. cbn. rewrite !app_nil_r, Z.add_0_r. repeat split; try done; lia. }
  cbn [pack_loop]. rewrite net_bind_eq.
  destruct (check_service_row u_input sv log) as (h & positive & added & -> & Hs & He & Hh).
  assert (Hc : Z.of_nat (length (positive_rows [h])) = if positive then 1 else 0).
  { unfold positive_rows. rewrite filter_cons, filter_nil. rewrite He.
    destruct positive; by case_decide. }
  destruct (8 <=? (if positive then positives + 1 else positives)) eqn:Hstop.
  - exists [h], added. apply Z.leb_le in Hstop. rewrite Hc.
    split; [destruct positive; by rewrite ?Z.add_0_r|].
    split; [cbn; by rewrite Hs|]. split; [done|]. split; [cbn; lia|].
    split; destruct positive; lia.
  - apply Z.leb_gt in Hstop.
    destruct (IH (hits ++ [h]) (if positive then positives + 1 else positives) (log ++ added))
      as (rows & added' & -> & Hm & Hh' & Hl & Hle & Hge).
    assert (Hcount : Z.of_nat (length (positive_rows (h :: rows)))
                     = (if positive then 1 else 0) + Z.of_nat (length (positive_rows rows))).
    { change (h :: rows) with ([h] ++ rows).
      by rewrite positive_rows_app, length_app, Nat2Z.inj_add, Hc. }
    exists (h :: rows), (added ++ added'). rewrite !Hcount.
    rewrite head_fetches_app, length_app, Hh, Hh'. rewrite <- !app_assoc.
    split; [do 3 f_equal; destruct positive; lia|].
    split; [cbn; by rewrite Hs, Hm|]. split; [done|]. split; [cbn; lia|].
    split.
    + intros _. specialize (Hle Hstop). destruct positive; lia.
    + intros Hlt. cbn in Hlt. specialize (Hge ltac:(lia)). destruct positive; lia.
Qed.

(** X26: the username pack never raises.  Without a user name it returns
    nothing and fetches nothing.  With one it returns a summary row
    followed by one row for each service it checked, in the order of the
    services, after one [_head_or_get] for each; there are at most eight
    rows that report an account, the summary reports one exactly when
    some row does, and a service is left unchecked only after the eighth
    account was found. *)
Theorem username_pack_rows (q : OSINTQuery) (log : list (fetcher * string)) :
  ∃ hits added,
    scrape_username_pack answer re_search re_escape collapse_spaces q log
    = (Ok hits, log ++ added)
    ∧ (Query.username q = EmptyString → hits = [] ∧ added = [])
    ∧ (Query.username q ≠ EmptyString →
       ∃ summary rows,
         hits = summary :: rows
         ∧ site summary = "Username Pack (direct)"
         ∧ List.map site rows
           = take (length rows)
               (List.map service_name (services re_escape (Query.username q)))
         ∧ length (head_fetches added) = length rows
         ∧ (length (positive_rows rows) ≤ 8)%nat
         ∧ (exists_flag summary = true ↔ positive_rows rows ≠ [])
         ∧ ((length rows < 24)%nat → length (positive_rows rows) = 8%nat)).
Proof.
  unfold scrape_username_pack. destruct (Query.username q) as [|c u] eqn:Hu.
  { exists [], []. rewrite app_nil_r. by repeat split. }
  cbn [Py.truthy negb]. rewrite net_bind_eq.
  destruct (pack_loop_spec (String c u) (services re_escape (String c u)) [] 0 log)
    as (rows & added & -> & Hm & Hh & Hl & Hle & Hge).
  cbn [app]. rewrite Z.add_0_l. specialize (Hle ltac:(lia)).
  change (length (services re_escape (String c u))) with 24%nat in Hge.
  destruct (Z.of_nat (length (positive_rows rows)) =? 0) eqn:Hz.
  - apply Z.eqb_eq in Hz. eexists _, added. split; [reflexivity|]. split; [done|].
    intros _. eexists _, rows. split; [reflexivity|].
    split; [done|]. split; [done|]. split; [done|]. split; [lia|]. split.
    + split; [done|]. intros Hne. destruct (positive_rows rows); [done|]. cbn in Hz. lia.
    + intros Hlt. specialize (Hge Hlt). lia.
  - apply Z.eqb_neq in Hz. eexists _, added. split; [reflexivity|]. split; [done|].
    intros _. eexists _, rows. split; [reflexivity|].
    split; [done|]. split; [done|]. split; [done|]. split; [lia|]. split.
    + split; [|done]. intros _ Hnil. rewrite Hnil in Hz. by cbn in Hz.
    + intros Hlt. specialize (Hge Hlt). lia.
Qed.

End scrapers_facts.


(** ** The scrapers in a run *)

Lemma future_events_empty q engine s t :
  Forall plain_fallback (hits_of (future_events q engine s t (Ok []))).
Proof.
  unfold future_events. rewrite hits_of_app. apply Forall_app_2; [|constructor].
  rewrite hits_of_app. apply Forall_app_2.
  - destruct (site_base_url s) as [u|]; [|constructor].
    destruct (Py.truthy u); [|constructor]. repeat constructor.
  - cbn. constructor; [by right|constructor].
Qed.

Lemma site_timeout_min (timeout : Z) (s : string) : timeout ≤ site_timeout timeout s.
Proof. unfold site_timeout. destruct (String.eqb _ _); lia. Qed.

Section registry_facts.
Context (answer : list (fetcher * string) → fetcher * string → result response)
        (environ : string → option string)
        (re_search : string → string → bool) (re_escape : string → string)
        (title_group : string → option string) (collapse_spaces : string → string)
        (format : string → list (string * string) → result string)
        (breaches : string → response → result (list OSINTHit))
        (clock : string → OSINTQuery → Z).

Local Abbreviation registry :=
  (REGISTRY answer environ re_search re_escape title_group collapse_spaces format breaches).

Lemma registry_lookup (s : string) (fn : Scraper) :
  SCRAPERS_py clock registry !! s = Some fn →
  ∃ f, (s, f) ∈ registry ∧ fn = as_scraper (clock s) f.
Proof.
  unfold SCRAPERS_py. intros H%elem_of_list_to_map_2.
  apply elem_of_reverse, list_elem_of_fmap in H as ([n f] & [= -> ->] & Hin).
  by exists f.
Qed.

Lemma anonymous_task (w : world) (q : OSINTQuery) (sess : session) (s : string) (t : Z) :
  SCRAPERS w = SCRAPERS_py clock registry → get_session w = Ok sess →
  anonymous q → clock s q ≤ t → 0 ≤ t →
  _run_site_with_timeout (get_session w) (SCRAPERS w) s q t = Ok [].
Proof.
  intros HR Hs Hq Hc Ht.
  rewrite (run_site_in_time w sess).
  - unfold run_scraper. rewrite HR.
    destruct (SCRAPERS_py clock registry !! s) as [fn|] eqn:E; [|done].
    apply registry_lookup in E as (f & Hin & ->).
    unfold as_scraper.
    by rewrite (registry_anonymous _ _ _ _ _ _ _ _ q s f [] Hq Hin).
  - done.
  - unfold run_scraper. rewrite HR.
    destruct (SCRAPERS_py clock registry !! s) as [fn|] eqn:E.
    + by apply registry_lookup in E as (f & Hin & ->).
    + done.
Qed.

End registry_facts.


Lemma probe_site_for_terms_bounded_witness :
  ∃ hits added,
    probe_site_for_terms (λ _ _, Ok (mkResponse 200 "alice was here")) (λ _, None) (λ b, b)
      (λ t _, Ok t) "IDcrawl" query_alice
      ["https://idcrawl.com/search/?q=alice"; "https://idcrawl.com/username-search/alice"]
      1 []
    = (Ok hits, [] ++ added)
    ∧ Forall (λ f, f.1 = Fetch) added
    ∧ (length added ≤ 2)%nat
    ∧ Z.of_nat (length hits) ≤ Z.max 1 1
    ∧ Forall (λ h, site h = "IDcrawl" ∧ raw h = [("probed", JBool true)]
                   ∧ (Fetch, url h) ∈ added) hits.
Proof.
  apply (probe_site_for_terms_bounded (λ _ _, Ok (mkResponse 200 "alice was here"))
           (λ _, None) (λ b, b) (λ t _, Ok t) "IDcrawl" query_alice
           ["https://idcrawl.com/search/?q=alice"; "https://idcrawl.com/username-search/alice"]
           1 []).
  intros tmpl _. by eexists.
Defined.


(** ** The small helpers of the scrapers *)

(** X28: a page counts as blocked by a script wall as soon as one of the
    seven marker phrases occurs anywhere in it, in any mix of upper and
    lower case; an empty page does not. *)
Theorem js_block_any_case (pre x post : string) :
  Py.lower x ∈ [ "enable javascript"; "requires javascript"; "please enable js";
                 "captcha"; "cf-chl"; "cloudflare"; "challenge-form" ] →
  _looks_js_blocked (pre +:+ x +:+ post) = true ∧ _looks_js_blocked EmptyString = false.
Proof.
  intros Hx. split; [|done]. unfold _looks_js_blocked. apply existsb_exists.
  exists (Py.lower x). split; [by apply list_elem_of_In|].
  apply str_in_spec. rewrite !lower_append. by eexists _, _.
Qed.

Lemma js_block_any_case_witness :
  _looks_js_blocked ("<html><body>Checking your browser - " +:+ "CloudFlare"
                     +:+ "</body></html>") = true.
Proof.
  refine (proj1 (js_block_any_case "<html><body>Checking your browser - " "CloudFlare"
                   "</body></html>" _)).
  do 5 apply list_elem_of_further. apply list_elem_of_here.
Defined.


(** ** The settings of the pool *)

Section pool_effects.
Context {B : Type} (f : effect → option B).
Hypothesis f_ui : ∀ ev, f (Ui ev) = None.
Hypothesis f_call : ∀ en qd, f (DatasetCall en qd) = None.
Hypothesis f_reports : ∀ hs, f (Reports hs) = None.

Lemma prefilter_quiet D q ordered : omap f (dataset_prefilter D q ordered).2 = [].
Proof.
  unfold dataset_prefilter. cbn [snd]. apply omap_flat_map_nil.
  intros p (s & -> & _)%list_elem_of_fmap.
  unfold prefilter_site. destruct (tokens q) as [|t toks].
  { cbn. by rewrite f_ui. }
  destruct (dataset_lookup D s (site_qdict q s)) as [ds failed] eqn:Hl. cbn [snd].
  cbn [omap list_omap]. rewrite f_call, omap_app.
  assert (omap f failed = []) as ->.
  { unfold dataset_lookup in Hl.
    destruct (match search_site_for_query D with Some g => _ | None => _ end);
      injection Hl as <- <-; cbn; by rewrite ?f_ui. }
  apply omap_flat_map_nil. intros p (dh & -> & _)%list_elem_of_fmap.
  unfold prefilter_hit. destruct (matched _ dh); cbn; by rewrite f_ui.
Qed.

Lemma persist_quiet w d q rs : omap f (persist w d q rs).1.1 = [].
Proof.
  unfold persist, save_reports.
  destruct rs, (reports_writable w); cbn; by rewrite ?f_ui, ?f_reports.
Qed.

Lemma live_run_pool_effects (w : world) (self : App) (sites : list string)
    (skip_cache : bool) :
  omap f (trace (live_run w self sites skip_cache)) = omap f (pool_trace w self sites).
Proof.
  pose proof (prefilter_quiet (DATASETS w) (query self) (ordered_sites sites)) as Hd.
  unfold live_run, pool_trace.
  destruct (if skip_cache then clear_cache_for_query (cache w) (query self)
            else (false, cache w)) as [cleared d0].
  destruct (dataset_prefilter _ _ _) as [rs trd]. cbn [fst snd] in *.
  destruct (sites_to_scrape _ _) as [|s0 l0].
  - pose proof (persist_quiet w d0 (query self) rs) as Hp.
    destruct (persist w d0 (query self) rs) as [[trp d1] fin]. cbn [fst snd trace] in *.
    rewrite !omap_app, Hd, Hp. destruct cleared, fin; cbn; by rewrite ?f_ui.
  - set (pool := scheduler _ _ _ _ _ _).
    generalize (rs ++ hits_of (ui_events pool)). intros results.
    pose proof (persist_quiet w d0 (query self) results) as Hp.
    destruct (persist w d0 (query self) results) as [[trp d1] fin]. cbn [fst snd trace] in *.
    rewrite !omap_app, Hd, Hp.
    destruct cleared, fin, results; cbn; by rewrite ?f_ui, ?app_nil_r.
Qed.
End pool_effects.

Lemma scheduler_submitted w q engine threads timeout l :
  submitted (scheduler w q engine threads timeout l)
  = List.map (λ s, (s, site_timeout timeout s)) l
  ∧ pools (scheduler w q engine threads timeout l) = [threads].
Proof.
  unfold scheduler, submitted, pools. cbn [omap list_omap]. rewrite !omap_app.
  rewrite !omap_ui_none by done. rewrite !app_nil_r. split.
  - induction l as [|s l IH]; [done|]. cbn. by rewrite IH.
  - f_equal. induction l as [|s l IH]; [done|]. by cbn.
Qed.

